(** * spire-doc-mcp-server: the document access and validation facade

    A shallow embedding of the Python sources under [src/spire_doc_mcp]:
    the path resolver ([api/base.py]), the handlers of [core/] and the
    tool wrappers of [api/], together with the properties the
    specification states about them.

    Python values are modelled as the code uses them: [str] as [string]
    (a sequence of bytes; every character the code inspects, the separator,
    the dot and the ASCII letters, is a single byte), [int] as [Z],
    [None]-able arguments as [option], dictionaries with a fixed key set as
    records, the document engine's collections as lists, and exceptions as
    values of an error monad over the state that the code mutates. *)

From Stdlib Require Import ZArith Ascii String List Bool Lia DecimalString.
From Stdlib Require Import Floats.SpecFloat.
From stdpp Require Import base option list strings gmap.

Local Open Scope string_scope.
Local Open Scope Z_scope.

(** ** Python strings *)

Module PyStr.

Definition chars : string -> list ascii := list_ascii_of_string.
Definition of_chars : list ascii -> string := string_of_list_ascii.

(** [str.lower], on the ASCII letters. *)
Definition lower_char (c : ascii) : ascii :=
  let n := nat_of_ascii c in
  if ((65 <=? n) && (n <=? 90))%nat then ascii_of_nat (n + 32) else c.

Fixpoint lower (s : string) : string :=
  match s with
  | EmptyString => EmptyString
  | String c s' => String (lower_char c) (lower s')
  end.

(** [s.startswith(t)] and [s.endswith(t)]. *)
Fixpoint startswith (s t : string) {struct t} : bool :=
  match t, s with
  | EmptyString, _ => true
  | String _ _, EmptyString => false
  | String b t', String a s' => Ascii.eqb a b && startswith s' t'
  end.

Definition endswith (s t : string) : bool :=
  startswith (of_chars (rev (chars s))) (of_chars (rev (chars t))).

(** [x in xs] for a list of strings. *)
Definition mem (x : string) (xs : list string) : bool :=
  existsb (String.eqb x) xs.

(** [str(n)] for an integer. *)
Definition of_Z (z : Z) : string := NilZero.string_of_int (Z.to_int z).

(** [drop_while f l] removes the longest prefix of [l] on which [f] holds. *)
Fixpoint drop_while {A} (f : A -> bool) (l : list A) : list A :=
  match l with
  | [] => []
  | a :: l' => if f a then drop_while f l' else l
  end.

(** [s.rstrip(c)] on character lists. *)
Definition rstrip_chars (c : ascii) (l : list ascii) : list ascii :=
  rev (drop_while (Ascii.eqb c) (rev l)).

(** [s[: s.rfind(c) + 1]]: everything up to and including the last [c],
    empty when [c] does not occur. *)
Definition upto_last (c : ascii) (l : list ascii) : list ascii :=
  rev (drop_while (fun a => negb (Ascii.eqb c a)) (rev l)).

(** [s[s.rfind(c) + 1 :]]: what follows the last [c], the whole string
    when [c] does not occur. *)
Fixpoint take_while {A} (f : A -> bool) (l : list A) : list A :=
  match l with
  | [] => []
  | a :: l' => if f a then a :: take_while f l' else []
  end.

Definition after_last (c : ascii) (l : list ascii) : list ascii :=
  rev (take_while (fun a => negb (Ascii.eqb c a)) (rev l)).

(** [c in s]. *)
Definition has_char (c : ascii) (s : string) : bool :=
  existsb (Ascii.eqb c) (chars s).

(** [s.rsplit(c, 1)[0]]: the part before the last [c], the whole string
    when [c] does not occur. *)
Definition rsplit1_head (c : ascii) (s : string) : string :=
  if has_char c s
  then of_chars (removelast (upto_last c (chars s)))
  else s.

(** [s.split(c)[-1]]. *)
Definition split_last (c : ascii) (s : string) : string :=
  of_chars (after_last c (chars s)).


End PyStr.

(** ** [os.path] (the POSIX flavour) *)

Module OsPath.
Import PyStr.

Definition sep : ascii := "/"%char.

(** [posixpath.join(a, b)]: an absolute [b] replaces [a]; otherwise [b] is
    appended, after a separator unless [a] is empty or already ends with
    one. *)
Definition join (a b : string) : string :=
  if startswith b "/" then b
  else if (String.eqb a "" || endswith a "/")%bool then a ++ b
  else a ++ "/" ++ b.

(** [posixpath.dirname(p)]: the text up to the last separator, without
    its trailing separators unless it consists of separators only. *)
Definition dirname_chars (p : list ascii) : list ascii :=
  let head := upto_last sep p in
  match head with
  | [] => head
  | _ :: _ =>
      if forallb (Ascii.eqb sep) head then head else rstrip_chars sep head
  end.

Definition dirname (p : string) : string :=
  of_chars (dirname_chars (chars p)).

(** [posixpath.basename(p)]. *)
Definition basename (p : string) : string :=
  of_chars (after_last sep (chars p)).

End OsPath.

(** ** Exceptions ([utils/exceptions.py]) *)

Inductive ExnClass :=
| ClsSpireDocError
| ClsDocumentError
| ClsTableError
| ClsParagraphError
| ClsConversionError
| ClsBuiltin (name : string).   (* exceptions of Python and of the engine *)

Record Exn := mkExn {
  exn_class : ExnClass;
  exn_message : string;   (* [str(e)] *)
  exn_code : string
}.

Definition ExnClass_eqb (a b : ExnClass) : bool :=
  match a, b with
  | ClsSpireDocError, ClsSpireDocError
  | ClsDocumentError, ClsDocumentError
  | ClsTableError, ClsTableError
  | ClsParagraphError, ClsParagraphError
  | ClsConversionError, ClsConversionError => true
  | ClsBuiltin x, ClsBuiltin y => String.eqb x y
  | _, _ => false
  end.

(** [isinstance(e, C)]: the four handler errors derive from [SpireDocError],
    and nothing derives from them. *)
Definition isinstance (e : Exn) (c : ExnClass) : bool :=
  match c with
  | ClsSpireDocError =>
      match exn_class e with ClsBuiltin _ => false | _ => true end
  | _ => ExnClass_eqb (exn_class e) c
  end.

Definition class_name (c : ExnClass) : string :=
  match c with
  | ClsSpireDocError => "SpireDocError"
  | ClsDocumentError => "DocumentError"
  | ClsTableError => "TableError"
  | ClsParagraphError => "ParagraphError"
  | ClsConversionError => "ConversionError"
  | ClsBuiltin n => n
  end.

(** The constructors with their default codes. *)
Definition DocumentError (msg : string) : Exn :=
  mkExn ClsDocumentError msg "DOC_LOAD_ERROR".
Definition TableError (msg code : string) : Exn :=
  mkExn ClsTableError msg code.
Definition ParagraphError (msg : string) : Exn :=
  mkExn ClsParagraphError msg "PARA_CREATE_ERROR".
Definition ConversionError (msg : string) : Exn :=
  mkExn ClsConversionError msg "CONV_PROCESS_ERROR".
Definition BuiltinError (name msg : string) : Exn :=
  mkExn (ClsBuiltin name) msg "".

(** ** The error and state monad

    A computation over a state [S] either returns a value or raises; the
    state it leaves behind is kept in both cases, as a Python object keeps
    the fields that were assigned before an exception. *)

Inductive Outcome (A : Type) :=
| Return (a : A)
| Raise (e : Exn).
Arguments Return {A} a.
Arguments Raise {A} e.

Definition M (S A : Type) : Type := S -> Outcome A * S.

Definition ret {S A} (a : A) : M S A := fun s => (Return a, s).
Definition raise {S A} (e : Exn) : M S A := fun s => (Raise e, s).
Definition bind {S A B} (m : M S A) (k : A -> M S B) : M S B :=
  fun s => match m s with
           | (Return a, s') => k a s'
           | (Raise e, s') => (Raise e, s')
           end.
Definition get {S} : M S S := fun s => (Return s, s).

(** [try: m except Exception as e: h e]; a handler that does not apply
    re-raises. *)
Definition try_except {S A} (m : M S A) (h : Exn -> M S A) : M S A :=
  fun s => match m s with
           | (Return a, s') => (Return a, s')
           | (Raise e, s') => h e s'
           end.

(** [if c: raise e]. *)
Definition raise_if {S} (c : bool) (e : Exn) : M S unit :=
  if c then raise e else ret tt.

Notation "'let!' x ':=' m 'in' k" := (bind m (fun x => k))
  (at level 10, x name, m at level 100, k at level 200).
Notation "m ';;' k" := (bind m (fun _ => k))
  (at level 100, k at level 200, right associativity).

(** ** The path resolver ([api/base.py]) *)

(** The error of a rejected name. *)
Definition invalid_path : Exn := DocumentError "Invalid document path".

(** The check of [get_doc_path]: the joined path is accepted when its
    directory is, as a string, the documents directory. *)
Definition resolve (doc_dir filename : string) : Outcome string :=
  let doc_path := OsPath.join doc_dir filename in
  if negb (String.eqb (OsPath.dirname doc_path) doc_dir)
  then Raise invalid_path
  else Return doc_path.

(** ** The document model

    What the handlers observe of the engine's object graph: a document is
    a list of sections, a section has a paragraph collection and a table
    collection, a table is a list of rows of cells, and a cell holds
    paragraphs. *)

Inductive HorizontalAlignment := Left | Center | Right | Justify | Distribute.
Inductive LineSpacingRule := AtLeast | Exactly | Multiple.

(** A Python number: [int] or [float]. *)
Inductive Number :=
| NInt (z : Z)
| NFloat (f : spec_float).

Record ParagraphFormat := mkFormat {
  fmt_HorizontalAlignment : HorizontalAlignment;
  fmt_FirstLineIndent : Number;
  fmt_LeftIndent : Number;
  fmt_RightIndent : Number;
  fmt_LineSpacing : Number;
  fmt_LineSpacingRule : LineSpacingRule;
  fmt_BeforeSpacing : Number;
  fmt_AfterSpacing : Number
}.

Record Paragraph := mkParagraph {
  Text : string;
  Format : ParagraphFormat
}.

Definition default_format : ParagraphFormat :=
  mkFormat Left (NFloat (S754_zero false)) (NFloat (S754_zero false))
    (NFloat (S754_zero false)) (NInt 12) Multiple
    (NFloat (S754_zero false)) (NFloat (S754_zero false)).

(** The paragraph that [AddParagraph] creates. *)
Definition new_paragraph : Paragraph := mkParagraph "" default_format.

Record Cell := mkCell { cell_Paragraphs : list Paragraph }.

Record Table := mkTable {
  Rows : list (list Cell);
  table_Style : option string
}.

Record Section := mkSection {
  Paragraphs : list Paragraph;
  Tables : list Table
}.

Record Document := mkDocument { Sections : list Section }.

(** ** The world outside the process

    The file system as the code queries it, and the clock. [abspath]
    depends on the working directory of the process, which is part of the
    world; the files are keyed by absolute path. [can_mkdir] says for an
    absolute path whether the process is able to create a directory
    there. *)

Record File := mkFile {
  readable : bool;             (* [os.access(path, os.R_OK)] *)
  writable : bool;             (* [os.access(path, os.W_OK)] *)
  content : option Document    (* [None]: not a document the engine parses *)
}.

Record World := mkWorld {
  abspath : string -> string;
  files : gmap string File;
  dirs : gset string;
  clock : nat;
  can_mkdir : string -> bool
}.

Definition set_files (f : gmap string File -> gmap string File) (w : World) : World :=
  mkWorld (abspath w) (f (files w)) (dirs w) (clock w) (can_mkdir w).
Definition set_dirs (f : gset string -> gset string) (w : World) : World :=
  mkWorld (abspath w) (files w) (f (dirs w)) (clock w) (can_mkdir w).

(** [os.path.isfile], [os.path.isdir] and [os.path.exists]: all three
    are false for the empty path. *)
Definition isfile (w : World) (path : string) : bool :=
  (negb (String.eqb path "") && bool_decide (is_Some (files w !! abspath w path)))%bool.
Definition isdir (w : World) (path : string) : bool :=
  (negb (String.eqb path "") && bool_decide (abspath w path ∈ dirs w))%bool.
Definition exists_ (w : World) (path : string) : bool :=
  (isfile w path || isdir w path)%bool.
Definition access_R (w : World) (path : string) : bool :=
  match files w !! abspath w path with Some f => readable f | None => false end.
Definition access_W (w : World) (path : string) : bool :=
  match files w !! abspath w path with Some f => writable f | None => false end.

(** The exception of a failed [os.makedirs(path)]: [FileNotFoundError]
    for the empty path, and otherwise an [OSError], which stands for its
    subclasses too. *)
Definition makedirs_error (path : string) : Exn :=
  if String.eqb path ""
  then BuiltinError "FileNotFoundError" "[Errno 2] No such file or directory: ''"
  else BuiltinError "OSError" ("Cannot create directory: '" ++ path ++ "'").

(** [os.makedirs(path)] for a path that does not exist, as both callers
    make sure: the directory is created, or the call raises and nothing
    has changed; for the empty path it always raises. *)
Definition makedirs (path : string) : M World unit :=
  fun w =>
    if (negb (String.eqb path "") && can_mkdir w (abspath w path))%bool
    then (Return tt, set_dirs (fun d => {[abspath w path]} ∪ d) w)
    else (Raise (makedirs_error path), w).

(** [datetime.now().isoformat()]: reading the clock; time passes. *)
Definition now_isoformat : M World string :=
  fun w => (Return (PyStr.of_Z (Z.of_nat (clock w))),
            mkWorld (abspath w) (files w) (dirs w) (S (clock w)) (can_mkdir w)).

(** [get_doc_path(filename, doc_files_path)]: the tools always pass the
    documents directory. An exception of [os.makedirs] leaves the
    function before the path is looked at. *)
Definition get_doc_path (filename doc_files_path : string) : M World string :=
  let doc_dir := doc_files_path in
  let! w := get in
  (if negb (exists_ w doc_dir) then makedirs doc_dir else ret tt);;
  match resolve doc_dir filename with
  | Return p => ret p
  | Raise e => raise e
  end.

(** ** The document engine

    The engine is a collaborator, not code of the repository; the model
    gives it the behaviour the handlers rely on: files are loaded and saved
    whole, collections are indexed from zero and raise outside their
    range. *)

Definition engine_error (msg : string) : Exn := BuiltinError "SpireException" msg.

(** [Document().LoadFromFile(path)]. *)
Definition LoadFromFile (path : string) : M World Document :=
  fun w => match files w !! abspath w path with
           | Some (mkFile _ _ (Some d)) => (Return d, w)
           | _ => (Raise (engine_error ("Cannot load " ++ path)), w)
           end.

(** [document.SaveToFile(path[, format])]: the file is written whole, or
    not at all when it exists and is write-protected. *)
Definition SaveToFile (d : Document) (path : string) : M World unit :=
  fun w => match files w !! abspath w path with
           | Some f =>
               if writable f
               then (Return tt,
                     set_files (insert (abspath w path) (mkFile (readable f) true (Some d))) w)
               else (Raise (engine_error ("Cannot write " ++ path)), w)
           | None =>
               (Return tt,
                set_files (insert (abspath w path) (mkFile true true (Some d))) w)
           end.

(** [collection[i]] on an engine collection. *)
Definition item {S A} (l : list A) (i : Z) : M S A :=
  if i <? 0 then raise (engine_error "Index out of range")
  else match l !! Z.to_nat i with
       | Some x => ret x
       | None => raise (engine_error "Index out of range")
       end.

(** [collection.Count], [len(collection)]. *)
Definition Count {A} (l : list A) : Z := Z.of_nat (length l).

(** [collection.Insert(i, x)] of a new object. *)
Definition insert_at {A} (i : nat) (x : A) (l : list A) : list A :=
  take i l ++ x :: drop i l.

(** ** Handlers ([core/base.py])

    A handler object has the path of its document and the loaded document;
    its methods run over the handler and the world. The engine objects a
    method holds ([section], [paragraph], [table]) are references into
    [self.document]: assigning to them changes the handler's document. *)

Record Handler := mkHandler {
  doc_path : string;
  document : option Document
}.

Definition HState : Type := (Handler * World)%type.

(** An operation on the world, inside a method. *)
Definition liftW {H A} (m : M World A) : M (H * World) A :=
  fun '(h, w) => match m w with (r, w') => (r, (h, w')) end.

Definition self {H} : M (H * World) H := fun '(h, w) => (Return h, (h, w)).
Definition the_world {H} : M (H * World) World := fun '(h, w) => (Return w, (h, w)).
Definition set_self {H} (h : H) : M (H * World) unit :=
  fun '(_, w) => (Return tt, (h, w)).
Definition set_document (d : option Document) : M HState unit :=
  fun '(h, w) => (Return tt, (mkHandler (doc_path h) d, w)).

(** Running a method on a handler object; the caller keeps the object. *)
Definition on_handler {H A} (h : H) (m : M (H * World) A) : M World (A * H) :=
  fun w => match m (h, w) with
           | (Return a, (h', w')) => (Return (a, h'), w')
           | (Raise e, (_, w')) => (Raise e, w')
           end.

Definition word_extensions : list string :=
  [".doc"; ".docx"; ".docm"; ".dot"; ".dotx"; ".dotm"].

(** [os.path.splitext(p)[1]]: the last dot of the base name and what
    follows it, provided something other than dots precedes that dot. *)
Definition splitext_ext (p : string) : string :=
  let b := PyStr.chars (OsPath.basename p) in
  let stem := removelast (PyStr.upto_last "."%char b) in
  if existsb (fun c => negb (Ascii.eqb "."%char c)) stem
  then PyStr.of_chars ("."%char :: PyStr.after_last "."%char b)
  else "".

(** [BaseHandler._load_document]. *)
Definition _load_document : M HState unit :=
  try_except
    (let! h := self in
     let! w := the_world in
     raise_if (negb (access_R w (doc_path h)))
       (DocumentError ("No read permission for document: " ++ doc_path h));;
     raise_if (negb (access_W w (doc_path h)))
       (DocumentError ("No write permission for document: " ++ doc_path h));;
     set_document (Some (mkDocument []));;
     let! d := liftW (LoadFromFile (doc_path h)) in
     set_document (Some d);;
     raise_if (Count (Sections d) =? 0) (DocumentError "Document has no sections"))
    (fun e =>
       set_document None;;
       if isinstance e ClsDocumentError then raise e
       else raise (DocumentError ("Failed to load document: " ++ exn_message e))).

(** [BaseHandler.__init__]. *)
Definition BaseHandler_init (path : string) : M World Handler :=
  raise_if (String.eqb path "") (DocumentError "Document path cannot be empty");;
  let! w := get in
  let p := abspath w path in
  raise_if (negb (isfile w p)) (DocumentError ("Document file not found: " ++ p));;
  raise_if (negb (existsb (PyStr.endswith (PyStr.lower p)) word_extensions))
    (DocumentError ("Unsupported document format: " ++ splitext_ext p));;
  let! r := on_handler (mkHandler p None) _load_document in
  ret (snd r).

(** The errors of the index checks. *)
Definition section_range_error (section_index count : Z) : Exn :=
  DocumentError ("Section index " ++ PyStr.of_Z section_index
                 ++ " out of range (document has " ++ PyStr.of_Z count ++ " sections)").

Definition paragraph_range_error (paragraph_index section_index count : Z) : Exn :=
  DocumentError ("Paragraph index " ++ PyStr.of_Z paragraph_index
                 ++ " out of range (section " ++ PyStr.of_Z section_index
                 ++ " has " ++ PyStr.of_Z count ++ " paragraphs)").

(** [BaseHandler._validate_section_index]; an index is an [int] here, so
    the type test of the source always passes. *)
Definition _validate_section_index (section_index : Z) : M HState unit :=
  raise_if (section_index <? 0)
    (DocumentError ("Section index cannot be negative: " ++ PyStr.of_Z section_index));;
  let! h := self in
  match document h with
  | None => raise (DocumentError "Document not loaded")
  | Some d =>
      raise_if (section_index >=? Count (Sections d))
        (section_range_error section_index (Count (Sections d)))
  end.

(** [self.document.Sections[section_index]]. *)
Definition get_section (section_index : Z) : M HState Section :=
  let! h := self in
  match document h with
  | None => raise (BuiltinError "AttributeError"
                     "'NoneType' object has no attribute 'Sections'")
  | Some d => item (Sections d) section_index
  end.

(** [BaseHandler._validate_paragraph_index]. *)
Definition _validate_paragraph_index (paragraph_index section_index : Z) : M HState unit :=
  _validate_section_index section_index;;
  raise_if (paragraph_index <? 0)
    (DocumentError ("Paragraph index cannot be negative: " ++ PyStr.of_Z paragraph_index));;
  let! section := get_section section_index in
  raise_if (paragraph_index >=? Count (Paragraphs section))
    (paragraph_range_error paragraph_index section_index (Count (Paragraphs section))).

(** Assigning through a [section] reference: the section at that index of
    the handler's document is replaced. *)
Definition update_section (section_index : Z) (f : Section -> Section) : M HState unit :=
  let! h := self in
  match document h with
  | None => raise (BuiltinError "AttributeError"
                     "'NoneType' object has no attribute 'Sections'")
  | Some d =>
      set_document
        (Some (mkDocument (alter f (Z.to_nat section_index) (Sections d))))
  end.

Definition set_Paragraphs (ps : list Paragraph) (s : Section) : Section :=
  mkSection ps (Tables s).
Definition set_Tables (ts : list Table) (s : Section) : Section :=
  mkSection (Paragraphs s) ts.

(** [self.document.SaveToFile(self.doc_path)]. *)
Definition save_document : M HState unit :=
  let! h := self in
  match document h with
  | None => raise (BuiltinError "AttributeError"
                     "'NoneType' object has no attribute 'SaveToFile'")
  | Some d => liftW (SaveToFile d (doc_path h))
  end.

(** ** Paragraph operations ([core/paragraph.py])

    The result dictionaries keep the keys that identify what was touched;
    the statistics computed from the text alone ([text_length], [has_text],
    [word_count], [line_count]) are left out. *)

Module ParagraphHandler.

Record TextResult := mkTextResult {
  tr_section_index : Z;
  tr_paragraph_index : Z;
  tr_text : string
}.

Record InfoResult := mkInfoResult {
  ir_section_index : Z;
  ir_paragraph_index : Z;
  ir_text : string;
  ir_alignment : HorizontalAlignment
}.

Record DeleteResult := mkDeleteResult {
  dr_section_index : Z;
  dr_paragraph_index : Z;
  dr_deleted_text : string
}.

Record AddResult := mkAddResult {
  ar_section_index : Z;
  ar_paragraph_index : Z;
  ar_text : string;
  ar_total_paragraphs_in_section : Z
}.

Record UpdateResult := mkUpdateResult {
  ur_section_index : Z;
  ur_paragraph_index : Z;
  ur_original_text : string;
  ur_new_text : string
}.

Definition get_paragraph_text (paragraph_index section_index : Z) : M HState TextResult :=
  try_except
    (_validate_paragraph_index paragraph_index section_index;;
     let! section := get_section section_index in
     let! paragraph := item (Paragraphs section) paragraph_index in
     let text := Text paragraph in
     ret (mkTextResult section_index paragraph_index text))
    (fun e => raise (ParagraphError ("Failed to get paragraph text: " ++ exn_message e))).

Definition get_paragraphinfo (paragraph_index section_index : Z) : M HState InfoResult :=
  try_except
    (_validate_paragraph_index paragraph_index section_index;;
     let! section := get_section section_index in
     let! paragraph := item (Paragraphs section) paragraph_index in
     ret (mkInfoResult section_index paragraph_index (Text paragraph)
            (fmt_HorizontalAlignment (Format paragraph))))
    (fun e => raise (ParagraphError ("Failed to get paragraph info: " ++ exn_message e))).

(** [section.Paragraphs.RemoveAt(i)]. *)
Definition RemoveAt (i : Z) (s : Section) : Section :=
  set_Paragraphs (delete (Z.to_nat i) (Paragraphs s)) s.

Definition delete_paragraph (paragraph_index section_index : Z) : M HState DeleteResult :=
  try_except
    (_validate_paragraph_index paragraph_index section_index;;
     let! info := get_paragraphinfo paragraph_index section_index in
     update_section section_index (RemoveAt paragraph_index);;
     save_document;;
     ret (mkDeleteResult section_index paragraph_index (ir_text info)))
    (fun e => raise (ParagraphError ("Failed to delete paragraph: " ++ exn_message e))).

(** [section.AddParagraph()]: a new paragraph at the end of the section;
    the reference to it is its position. *)
Definition AddParagraph (s : Section) : Section * nat :=
  (set_Paragraphs (Paragraphs s ++ [new_paragraph]) s, length (Paragraphs s)).

(** [section.Paragraphs.Insert(i, paragraph)] for a paragraph that is
    already in the section: the engine moves it to position [i], as the
    specification describes the operation (4.4: the new paragraph is
    created, then moved to that position). *)
Definition Insert (i : nat) (paragraph : nat) (s : Section) : Section * nat :=
  match Paragraphs s !! paragraph with
  | Some p =>
      (set_Paragraphs (insert_at i p (delete paragraph (Paragraphs s))) s, i)
  | None => (s, paragraph)
  end.

(** [paragraph.Text = text]. *)
Definition set_Text (paragraph : nat) (text : string) (s : Section) : Section :=
  set_Paragraphs
    (alter (fun p => mkParagraph text (Format p)) paragraph (Paragraphs s)) s.

Definition add_paragraph (text : string) (section_index : Z)
    (paragraph_index : option Z) : M HState AddResult :=
  try_except
    (_validate_section_index section_index;;
     let! section := get_section section_index in
     match paragraph_index with
     | Some i =>
         raise_if ((i <? 0) || (i >? Count (Paragraphs section)))%bool
           (ParagraphError ("Invalid paragraph index: " ++ PyStr.of_Z i))
     | None => ret tt
     end;;
     let '(section1, paragraph, actual_index) :=
       match paragraph_index with
       | Some i =>
           let '(s1, p1) := AddParagraph section in
           let '(s2, p2) := Insert (Z.to_nat i) p1 s1 in
           (s2, p2, i)
       | None =>
           let '(s1, p1) := AddParagraph section in
           (s1, p1, Count (Paragraphs s1) - 1)
       end in
     let section2 := set_Text paragraph text section1 in
     update_section section_index (fun _ => section2);;
     save_document;;
     ret (mkAddResult section_index actual_index text (Count (Paragraphs section2))))
    (fun e => raise (ParagraphError ("Failed to add paragraph: " ++ exn_message e))).

Definition update_paragraph_text (paragraph_index : Z) (new_text : string)
    (section_index : Z) : M HState UpdateResult :=
  try_except
    (_validate_paragraph_index paragraph_index section_index;;
     let! section := get_section section_index in
     let! paragraph := item (Paragraphs section) paragraph_index in
     let original_text := Text paragraph in
     update_section section_index (set_Text (Z.to_nat paragraph_index) new_text);;
     save_document;;
     ret (mkUpdateResult section_index paragraph_index original_text new_text))
    (fun e => raise (ParagraphError ("Failed to update paragraph text: " ++ exn_message e))).

End ParagraphHandler.

(** ** Paragraph formatting ([core/format.py]) *)

(** The values a caller can pass for a formatting argument. *)
Inductive PyVal :=
| PyInt (z : Z)
| PyFloat (f : spec_float)
| PyBool (b : bool)
| PyStr (s : string)
| PyObj (type_name : string).

Definition type_name (v : PyVal) : string :=
  match v with
  | PyInt _ => "int"
  | PyFloat _ => "float"
  | PyBool _ => "bool"
  | PyStr _ => "str"
  | PyObj n => n
  end.

(** [isinstance(value, (int, float))]; [bool] is a subclass of [int]. *)
Definition is_number (v : PyVal) : bool :=
  match v with
  | PyInt _ | PyFloat _ | PyBool _ => true
  | _ => false
  end.

(** [value < 0] for a number. *)
Definition lt_zero (v : PyVal) : bool :=
  match v with
  | PyInt z => z <? 0
  | PyFloat f => SFltb f (S754_zero false)
  | _ => false
  end.

Module FormatHandler.

Record Changes := mkChanges {
  ch_alignment : bool;
  ch_first_line_indent : bool;
  ch_left_indent : bool;
  ch_right_indent : bool;
  ch_line_spacing : bool;
  ch_line_spacing_rule : bool;
  ch_before_spacing : bool;
  ch_after_spacing : bool
}.

Record FormatResult := mkFormatResult {
  fr_paragraph_index : Z;
  fr_document_path : string;
  fr_original_formatting : ParagraphFormat;
  fr_current_formatting : ParagraphFormat;
  fr_changes_applied : Changes
}.

(** The arguments of [format_paragraph] after the paragraph index. *)
Record Args := mkArgs {
  alignment : option PyVal;
  first_line_indent : option PyVal;
  left_indent : option PyVal;
  right_indent : option PyVal;
  line_spacing : option PyVal;
  line_spacing_rule : option PyVal;
  before_spacing : option PyVal;
  after_spacing : option PyVal
}.

Definition valid_alignments : list string := ["left"; "center"; "right"; "justify"].
Definition valid_rules : list string := ["at_least"; "exactly"; "multiple"].

Definition join_comma (l : list string) : string := String.concat ", " l.

Section WithFloatRepr.

(** [str(x)] for a float, the shortest decimal that reads back as [x];
    only error messages contain it. *)
Variable float_repr : spec_float -> string.

Definition PyVal_str (v : PyVal) : string :=
  match v with
  | PyInt z => PyStr.of_Z z
  | PyFloat f => float_repr f
  | PyBool true => "True"
  | PyBool false => "False"
  | PyStr s => s
  | PyObj n => "<" ++ n ++ " object>"
  end.

(** [value.lower()], defined on strings only. *)
Definition py_lower {S} (v : PyVal) : M S string :=
  match v with
  | PyStr s => ret (PyStr.lower s)
  | _ => raise (BuiltinError "AttributeError"
                  ("'" ++ type_name v ++ "' object has no attribute 'lower'"))
  end.

Definition validate_enum {S} (what : string) (valid : list string)
    (v : option PyVal) : M S unit :=
  match v with
  | None => ret tt
  | Some a =>
      let! l := py_lower a in
      raise_if (negb (PyStr.mem l valid))
        (DocumentError ("Invalid " ++ what ++ ": " ++ PyVal_str a
                        ++ ". Valid values: " ++ join_comma valid))
  end.

Definition validate_number {S} (param : string) (v : option PyVal) : M S unit :=
  match v with
  | None => ret tt
  | Some value =>
      raise_if (negb (is_number value))
        (DocumentError (param ++ " must be a number, got <class '"
                        ++ type_name value ++ "'>"));;
      raise_if (lt_zero value)
        (DocumentError (param ++ " cannot be negative: " ++ PyVal_str value))
  end.

(** [FormatHandler._validate_formatting_parameters]: the loop over
    [numeric_params] is unrolled in its order. *)
Definition _validate_formatting_parameters {S} (a : Args) : M S unit :=
  validate_enum "alignment" valid_alignments (alignment a);;
  validate_enum "line spacing rule" valid_rules (line_spacing_rule a);;
  validate_number "first_line_indent" (first_line_indent a);;
  validate_number "left_indent" (left_indent a);;
  validate_number "right_indent" (right_indent a);;
  validate_number "line_spacing" (line_spacing a);;
  validate_number "before_spacing" (before_spacing a);;
  validate_number "after_spacing" (after_spacing a).

(** [alignment_map[key]] and [rule_map[key]]. *)
Definition alignment_map {S} (key : string) : M S HorizontalAlignment :=
  if String.eqb key "left" then ret Left
  else if String.eqb key "center" then ret Center
  else if String.eqb key "right" then ret Right
  else if String.eqb key "justify" then ret Justify
  else raise (BuiltinError "KeyError" key).

Definition rule_map {S} (key : string) : M S LineSpacingRule :=
  if String.eqb key "at_least" then ret AtLeast
  else if String.eqb key "exactly" then ret Exactly
  else if String.eqb key "multiple" then ret Multiple
  else raise (BuiltinError "KeyError" key).

(** The engine takes a number for a numeric property. *)
Definition as_number {S} (v : PyVal) : M S Number :=
  match v with
  | PyInt z => ret (NInt z)
  | PyFloat f => ret (NFloat f)
  | PyBool b => ret (NInt (Z.b2z b))
  | _ => raise (BuiltinError "TypeError" ("a number is required, not " ++ type_name v))
  end.

(** [paragraph.Format.<field> = value] on paragraph [i] of section 0. *)
Definition set_format (i : Z) (f : ParagraphFormat -> ParagraphFormat) : M HState unit :=
  update_section 0
    (fun s => set_Paragraphs
                (alter (fun p => mkParagraph (Text p) (f (Format p)))
                   (Z.to_nat i) (Paragraphs s)) s).

Definition with_HorizontalAlignment v (f : ParagraphFormat) :=
  mkFormat v (fmt_FirstLineIndent f) (fmt_LeftIndent f) (fmt_RightIndent f)
    (fmt_LineSpacing f) (fmt_LineSpacingRule f) (fmt_BeforeSpacing f) (fmt_AfterSpacing f).
Definition with_FirstLineIndent v (f : ParagraphFormat) :=
  mkFormat (fmt_HorizontalAlignment f) v (fmt_LeftIndent f) (fmt_RightIndent f)
    (fmt_LineSpacing f) (fmt_LineSpacingRule f) (fmt_BeforeSpacing f) (fmt_AfterSpacing f).
Definition with_LeftIndent v (f : ParagraphFormat) :=
  mkFormat (fmt_HorizontalAlignment f) (fmt_FirstLineIndent f) v (fmt_RightIndent f)
    (fmt_LineSpacing f) (fmt_LineSpacingRule f) (fmt_BeforeSpacing f) (fmt_AfterSpacing f).
Definition with_RightIndent v (f : ParagraphFormat) :=
  mkFormat (fmt_HorizontalAlignment f) (fmt_FirstLineIndent f) (fmt_LeftIndent f) v
    (fmt_LineSpacing f) (fmt_LineSpacingRule f) (fmt_BeforeSpacing f) (fmt_AfterSpacing f).
Definition with_LineSpacing v (f : ParagraphFormat) :=
  mkFormat (fmt_HorizontalAlignment f) (fmt_FirstLineIndent f) (fmt_LeftIndent f)
    (fmt_RightIndent f) v (fmt_LineSpacingRule f) (fmt_BeforeSpacing f) (fmt_AfterSpacing f).
Definition with_LineSpacingRule v (f : ParagraphFormat) :=
  mkFormat (fmt_HorizontalAlignment f) (fmt_FirstLineIndent f) (fmt_LeftIndent f)
    (fmt_RightIndent f) (fmt_LineSpacing f) v (fmt_BeforeSpacing f) (fmt_AfterSpacing f).
Definition with_BeforeSpacing v (f : ParagraphFormat) :=
  mkFormat (fmt_HorizontalAlignment f) (fmt_FirstLineIndent f) (fmt_LeftIndent f)
    (fmt_RightIndent f) (fmt_LineSpacing f) (fmt_LineSpacingRule f) v (fmt_AfterSpacing f).
Definition with_AfterSpacing v (f : ParagraphFormat) :=
  mkFormat (fmt_HorizontalAlignment f) (fmt_FirstLineIndent f) (fmt_LeftIndent f)
    (fmt_RightIndent f) (fmt_LineSpacing f) (fmt_LineSpacingRule f) (fmt_BeforeSpacing f) v.

(** [if value is not None: paragraph.Format.<field> = value]. *)
Definition apply_number (i : Z) (v : option PyVal)
    (setter : Number -> ParagraphFormat -> ParagraphFormat) : M HState unit :=
  match v with
  | None => ret tt
  | Some value => let! n := as_number value in set_format i (setter n)
  end.

(** [section.Paragraphs.get_Item(i)] of section 0. *)
Definition get_paragraph (i : Z) : M HState Paragraph :=
  let! section := get_section 0 in
  item (Paragraphs section) i.

Definition is_not_None {A} (o : option A) : bool :=
  match o with Some _ => true | None => false end.

Definition format_paragraph (paragraph_index : Z) (a : Args) : M HState FormatResult :=
  try_except
    (_validate_paragraph_index paragraph_index 0;;
     _validate_formatting_parameters a;;
     let! paragraph := get_paragraph paragraph_index in
     let original_formatting := Format paragraph in
     match alignment a with
     | None => ret tt
     | Some v =>
         let! key := py_lower v in
         let! al := alignment_map key in
         set_format paragraph_index (with_HorizontalAlignment al)
     end;;
     apply_number paragraph_index (first_line_indent a) with_FirstLineIndent;;
     apply_number paragraph_index (left_indent a) with_LeftIndent;;
     apply_number paragraph_index (right_indent a) with_RightIndent;;
     match line_spacing a with
     | None => ret tt
     | Some v =>
         let! n := as_number v in
         set_format paragraph_index (with_LineSpacing n);;
         match line_spacing_rule a with
         | None => ret tt
         | Some r =>
             let! key := py_lower r in
             let! rule := rule_map key in
             set_format paragraph_index (with_LineSpacingRule rule)
         end
     end;;
     apply_number paragraph_index (before_spacing a) with_BeforeSpacing;;
     apply_number paragraph_index (after_spacing a) with_AfterSpacing;;
     try_except save_document
       (fun e => raise (DocumentError ("Failed to save document: " ++ exn_message e)));;
     let! paragraph' := get_paragraph paragraph_index in
     let current_formatting := Format paragraph' in
     let! h := self in
     ret (mkFormatResult paragraph_index (doc_path h)
            original_formatting current_formatting
            (mkChanges (is_not_None (alignment a))
               (is_not_None (first_line_indent a))
               (is_not_None (left_indent a))
               (is_not_None (right_indent a))
               (is_not_None (line_spacing a))
               (is_not_None (line_spacing_rule a))
               (is_not_None (before_spacing a))
               (is_not_None (after_spacing a)))))
    (fun e =>
       if isinstance e ClsDocumentError then raise e
       else raise (DocumentError ("Failed to format paragraph: " ++ exn_message e))).

Definition get_paragraph_format (paragraph_index : Z) : M HState ParagraphFormat :=
  try_except
    (_validate_paragraph_index paragraph_index 0;;
     let! paragraph := get_paragraph paragraph_index in
     ret (Format paragraph))
    (fun e =>
       if isinstance e ClsDocumentError then raise e
       else raise (DocumentError ("Failed to get paragraph format: " ++ exn_message e))).

End WithFloatRepr.

End FormatHandler.

(** ** Table operations ([core/table.py]) *)

Module TableHandler.

Record TableInfo := mkTableInfo {
  ti_table_index : Z;
  ti_section_index : Z;
  ti_rows : Z;
  ti_columns : Z;
  ti_total_cells : Z
}.

Record CreateResult := mkCreateResult {
  cr_table_index : Z;
  cr_section_index : Z;
  cr_paragraph_index : option Z;
  cr_rows : Z;
  cr_columns : Z;
  cr_style : option string;
  cr_total_tables_in_section : Z
}.

Record CellResult := mkCellResult {
  sc_section_index : Z;
  sc_table_index : Z;
  sc_row : Z;
  sc_column : Z;
  sc_original_text : string;
  sc_new_text : string
}.

(** [table.Rows[0].Cells.Count if table.Rows.Count > 0 else 0]. *)
Definition columns_of (t : Table) : Z :=
  match Rows t with
  | [] => 0
  | row0 :: _ => Count row0
  end.

Definition get_table_info (table_index section_index : Z) : M HState TableInfo :=
  try_except
    (_validate_section_index section_index;;
     let! section := get_section section_index in
     raise_if ((table_index <? 0) || (table_index >=? Count (Tables section)))%bool
       (TableError ("Invalid table index: " ++ PyStr.of_Z table_index) "TABLE_INFO_ERROR");;
     let! table := item (Tables section) table_index in
     ret (mkTableInfo table_index section_index (Count (Rows table)) (columns_of table)
            (Count (Rows table) * columns_of table)))
    (fun e =>
       if isinstance e ClsTableError then raise e
       else raise (TableError ("Failed to get table info: " ++ exn_message e)
                     "TABLE_INFO_ERROR")).

(** The table object the engine creates, before [ResetCells]. *)
Definition new_table : Table := mkTable [] None.

(** [table.ResetCells(rows, columns)]. *)
Definition ResetCells (rows columns : Z) (t : Table) : Table :=
  mkTable (repeat (repeat (mkCell []) (Z.to_nat columns)) (Z.to_nat rows))
    (table_Style t).

Section WithStyles.

(** The style names the engine knows; [ApplyStyle] raises on the others. *)
Variable known_style : string -> bool.

Definition ApplyStyle {S} (style : string) (t : Table) : M S Table :=
  if known_style style then ret (mkTable (Rows t) (Some style))
  else raise (engine_error ("Unknown style " ++ style)).

(** [if style: try: table.ApplyStyle(style) except Exception: pass]. *)
Definition apply_style_best_effort {S} (style : option string) (t : Table) : M S Table :=
  match style with
  | Some s =>
      if String.eqb s "" then ret t
      else try_except (ApplyStyle s t) (fun _ => ret t)
  | None => ret t
  end.

(** In the branch with a paragraph index the source creates the table
    object without inserting it ([AddTable(True)], as its comment says)
    and inserts it itself; in the other branch [AddTable()] appends it.
    [table] is the position of the new table in the collection. *)
Definition create_table (rows columns section_index : Z)
    (paragraph_index : option Z) (style : option string) : M HState CreateResult :=
  try_except
    (_validate_section_index section_index;;
     let! section := get_section section_index in
     match paragraph_index with
     | Some p => _validate_paragraph_index p section_index
     | None => ret tt
     end;;
     raise_if ((rows <=? 0) || (columns <=? 0))%bool
       (TableError "Table dimensions must be positive" "TABLE_CREATE_ERROR");;
     raise_if ((rows >? 1000) || (columns >? 100))%bool
       (TableError "Table dimensions too large (max: 1000 rows, 100 columns)"
          "TABLE_CREATE_ERROR");;
     let '(tables1, table) :=
       match paragraph_index with
       | Some p =>
           let t := ResetCells rows columns new_table in
           let insert_index := Z.min (p + 1) (Count (Tables section)) in
           (insert_at (Z.to_nat insert_index) t (Tables section),
            Z.to_nat insert_index)
       | None =>
           ((Tables section ++ [ResetCells rows columns new_table])%list,
            length (Tables section))
       end in
     let! t0 := item tables1 (Z.of_nat table) in
     let! t1 := apply_style_best_effort style t0 in
     let tables2 := <[table := t1]> tables1 in
     update_section section_index (set_Tables tables2);;
     let table_index := Count tables2 - 1 in
     save_document;;
     ret (mkCreateResult table_index section_index paragraph_index rows columns
            style (Count tables2)))
    (fun e =>
       if isinstance e ClsTableError then raise e
       else raise (TableError ("Failed to create table: " ++ exn_message e)
                     "TABLE_CREATE_ERROR")).

End WithStyles.

(** The cell after [paragraph.Text = text] on its first paragraph, which
    is created when the cell has none; with the text it had. *)
Definition set_first_text (text : string) (c : Cell) : Cell * string :=
  match cell_Paragraphs c with
  | p :: ps => (mkCell (mkParagraph text (Format p) :: ps), Text p)
  | [] => (mkCell [mkParagraph text default_format], "")
  end.

Definition set_cell_text (table_index row column : Z) (text : string)
    (section_index : Z) : M HState CellResult :=
  try_except
    (let! table_info := get_table_info table_index section_index in
     raise_if ((row <? 0) || (row >=? ti_rows table_info))%bool
       (TableError ("Invalid row index: " ++ PyStr.of_Z row) "TABLE_CELL_ERROR");;
     raise_if ((column <? 0) || (column >=? ti_columns table_info))%bool
       (TableError ("Invalid column index: " ++ PyStr.of_Z column) "TABLE_CELL_ERROR");;
     let! section := get_section section_index in
     let! table := item (Tables section) table_index in
     let! row_obj := item (Rows table) row in
     let! cell := item row_obj column in
     let '(cell', original_text) := set_first_text text cell in
     update_section section_index
       (fun s => set_Tables
          (alter (fun t => mkTable
                    (alter (fun r => <[Z.to_nat column := cell']> r)
                       (Z.to_nat row) (Rows t))
                    (table_Style t))
             (Z.to_nat table_index) (Tables s)) s);;
     save_document;;
     ret (mkCellResult section_index table_index row column original_text text))
    (fun e =>
       if isinstance e ClsTableError then raise e
       else raise (TableError ("Failed to set cell text: " ++ exn_message e)
                     "TABLE_CELL_ERROR")).

Record DeleteTableResult := mkDeleteTableResult {
  dt_section_index : Z;
  dt_table_index : Z;
  dt_deleted_rows : Z;
  dt_deleted_columns : Z;
  dt_total_tables_remaining : Z
}.

(** [section.Tables.RemoveAt(i)]. *)
Definition RemoveTableAt (i : Z) (s : Section) : Section :=
  set_Tables (delete (Z.to_nat i) (Tables s)) s.

(** [delete_table]; [section] is a reference, so the count in the result
    is the one after the removal. *)
Definition delete_table (table_index section_index : Z) : M HState DeleteTableResult :=
  try_except
    (let! info := get_table_info table_index section_index in
     let! _ := get_section section_index in
     update_section section_index (RemoveTableAt table_index);;
     save_document;;
     let! section := get_section section_index in
     ret (mkDeleteTableResult section_index table_index (ti_rows info) (ti_columns info)
            (Count (Tables section))))
    (fun e =>
       if isinstance e ClsTableError then raise e
       else raise (TableError ("Failed to delete table: " ++ exn_message e)
                     "TABLE_DELETE_ERROR")).

Definition add_table_after_paragraph (known_style : string -> bool)
    (rows columns section_index paragraph_index : Z) (style : option string) :=
  create_table known_style rows columns section_index (Some paragraph_index) style.

Definition add_table_to_section (known_style : string -> bool)
    (rows columns section_index : Z) (style : option string) :=
  create_table known_style rows columns section_index None style.

End TableHandler.

(** ** Conversion ([core/conversion.py]) *)

Definition SUPPORTED_FORMATS : list string :=
  ["docx"; "doc"; "pdf"; "rtf"; "txt"; "html"; "epub"; "odt"; "xml"; "md"].

Module ConversionHandler.

(** An entry of the history: the dictionaries [conversion_info] and
    [error_info]; a key that a dictionary lacks is [None] here. *)
Record ConversionRecord := mkRecord {
  timestamp : string;
  source_format : option string;
  target_format : string;
  output_path : option string;
  error : option string;
  status : string
}.

Record State := mkState {
  c_doc_path : option string;
  conversion_history : list ConversionRecord;
  conversion_status : option ConversionRecord   (* [None]: the empty dictionary *)
}.

Record ConvertResult := mkConvertResult {
  cv_document : string;
  cv_source_format : option string;
  cv_target_format : string;
  cv_output_path : string;
  cv_timestamp : string
}.

Record HistoryResult := mkHistoryResult {
  history : list ConversionRecord;
  total_conversions : Z
}.

Definition CState : Type := (State * World)%type.

(** [ConversionHandler.__init__]. *)
Definition init (path : option string) : State := mkState path [] None.

(** [not self.doc_path]. *)
Definition no_path (p : option string) : bool :=
  match p with
  | None => true
  | Some s => String.eqb s ""
  end.

Definition _load_document : M CState Document :=
  let! h := self in
  match c_doc_path h with
  | Some path =>
      if String.eqb path "" then raise (DocumentError "No document path provided")
      else try_except (liftW (LoadFromFile path))
             (fun e => raise (DocumentError ("Failed to load document: " ++ exn_message e)))
  | None => raise (DocumentError "No document path provided")
  end.

(** [self.conversion_history.append(r); self.conversion_status = r]. *)
Definition record_attempt (r : ConversionRecord) : M CState unit :=
  let! h := self in
  set_self (mkState (c_doc_path h) (conversion_history h ++ [r]) (Some r)).

(** [self.doc_path.split('.')[-1].lower()]. *)
Definition extension_of (path : string) : string :=
  PyStr.lower (PyStr.split_last "."%char path).

Definition convert_document (target : string) (out : option string) : M CState ConvertResult :=
  try_except
    (raise_if (negb (PyStr.mem (PyStr.lower target) SUPPORTED_FORMATS))
       (ConversionError ("Unsupported format: " ++ target));;
     let! doc := _load_document in
     let! h := self in
     let path := default "" (c_doc_path h) in
     let ext := "." ++ PyStr.lower target in
     let output :=
       match out with
       | None => PyStr.rsplit1_head "."%char path ++ ext
       | Some o =>
           if negb (PyStr.endswith (PyStr.lower o) ext)
           then PyStr.rsplit1_head "."%char o ++ ext
           else o
       end in
     let output_dir := OsPath.dirname output in
     let! w := the_world in
     (if (negb (String.eqb output_dir "") && negb (exists_ w output_dir))%bool
      then liftW (makedirs output_dir) else ret tt);;
     liftW (SaveToFile doc output);;
     let! ts := liftW now_isoformat in
     let conversion_info :=
       mkRecord ts (Some (extension_of path)) (PyStr.lower target)
         (Some output) None "success" in
     record_attempt conversion_info;;
     ret (mkConvertResult (OsPath.basename path) (source_format conversion_info)
            (target_format conversion_info) output (timestamp conversion_info)))
    (fun e =>
       let! ts := liftW now_isoformat in
       let! h := self in
       let error_info :=
         mkRecord ts
           (if no_path (c_doc_path h) then None
            else Some (extension_of (default "" (c_doc_path h))))
           (PyStr.lower target) None (Some (exn_message e)) "failed" in
       record_attempt error_info;;
       raise (ConversionError ("Failed to convert document: " ++ exn_message e))).

Definition get_conversion_status : M CState (option ConversionRecord) :=
  let! h := self in ret (conversion_status h).

Definition get_conversion_history : M CState HistoryResult :=
  let! h := self in
  ret (mkHistoryResult (conversion_history h) (Count (conversion_history h))).

End ConversionHandler.

(** ** Document operations ([core/document.py]) *)

Module DocumentHandler.

Record SearchParams := mkSearchParams {
  sp_find_text : string;
  sp_replace_text : string;
  sp_match_case : bool;
  sp_match_whole_word : bool
}.

Record ReplaceResult := mkReplaceResult {
  rr_success : bool;
  rr_message : string;
  rr_replacements : Z;
  rr_search_params : SearchParams
}.

(** [PROTECTION_TYPES] of [utils/constants.py]. *)
Inductive ProtectionType :=
| NoProtection
| AllowOnlyReading
| AllowOnlyFormFields
| AllowOnlyComments
| AllowOnlyRevisions.

Definition PROTECTION_TYPES : list (string * ProtectionType) :=
  [("none", NoProtection); ("read_only", AllowOnlyReading);
   ("form_filling", AllowOnlyFormFields); ("comments", AllowOnlyComments);
   ("revisions", AllowOnlyRevisions)].

(** [PROTECTION_TYPES[key]], [None] when [key not in PROTECTION_TYPES]. *)
Definition lookup_protection (key : string) : option ProtectionType :=
  match List.find (fun kv => String.eqb key (fst kv)) PROTECTION_TYPES with
  | Some kv => Some (snd kv)
  | None => None
  end.

Record ProtectResult := mkProtectResult {
  pr_protection_level : string;
  pr_is_protected : bool;
  pr_has_password : bool
}.

Record MergeResult := mkMergeResult {
  mr_success : bool;
  mr_output_path : string;
  mr_merge_document : string;
  mr_output_document : string
}.

Section WithEngine.

(** [document.Replace(find, replace, match_case, match_whole_word)]: the
    engine's search, which replaces every occurrence or raises. *)
Variable Replace : Document -> string -> string -> bool -> bool -> Outcome Document.

Definition find_and_replace (find_text replace_text : string)
    (match_case match_whole_word : bool) : M HState ReplaceResult :=
  try_except
    (let! h := self in
     match document h with
     | None => raise (DocumentError "Document not loaded")
     | Some d =>
         raise_if (String.eqb find_text "") (DocumentError "Find text cannot be empty");;
         match Replace d find_text replace_text match_case match_whole_word with
         | Raise e => raise e
         | Return d' =>
             set_document (Some d');;
             save_document;;
             ret (mkReplaceResult true "Text replacement completed successfully" 1
                    (mkSearchParams find_text replace_text match_case match_whole_word))
         end
     end)
    (fun e => raise (DocumentError ("Failed to replace text: " ++ exn_message e))).

(** [document.Protect(type, password)], the engine's protection. *)
Variable Protect : Document -> ProtectionType -> option string -> Outcome Document.

(** [bool(password)]. *)
Definition has_password (password : option string) : bool :=
  match password with
  | Some p => negb (String.eqb p "")
  | None => false
  end.

Definition protect_document (protection_level : string) (password : option string)
    : M HState ProtectResult :=
  try_except
    (let! h := self in
     match document h with
     | None => raise (DocumentError "Document not loaded")
     | Some d =>
         match lookup_protection protection_level with
         | None => raise (DocumentError ("Invalid protection level: " ++ protection_level))
         | Some protection_type =>
             match Protect d protection_type password with
             | Raise e => raise e
             | Return d' =>
                 set_document (Some d');;
                 save_document;;
                 ret (mkProtectResult protection_level true (has_password password))
             end
         end
     end)
    (fun e => raise (DocumentError ("Failed to protect document: " ++ exn_message e))).

(** [merged_doc.InsertTextFromFile(merge_path, FileFormat.Auto)]: the
    engine reads the file and appends its content. *)
Variable InsertText : Document -> Document -> Outcome Document.

Definition merge_documents (merge_path output_path : string) : M HState MergeResult :=
  try_except
    (let! w := the_world in
     raise_if (negb (exists_ w merge_path))
       (DocumentError ("Document to merge not found: " ++ merge_path));;
     let! h := self in
     match document h with
     | None => raise (DocumentError "Original document not loaded")
     | Some _ =>
         let! merged_doc := liftW (LoadFromFile (doc_path h)) in
         let! source := liftW (LoadFromFile merge_path) in
         match InsertText merged_doc source with
         | Raise e => raise e
         | Return merged =>
             liftW (SaveToFile merged output_path);;
             ret (mkMergeResult true output_path merge_path output_path)
         end
     end)
    (fun e => raise (DocumentError ("Failed to merge documents: " ++ exn_message e))).

End WithEngine.

(** [DocumentHandler.__init__]: with [create_if_not_exists] and no file
    at the path, only the path and its extension are checked, and no
    document is loaded. *)
Definition init (path : string) (create_if_not_exists : bool) : M World Handler :=
  let! w := get in
  if (create_if_not_exists && negb (isfile w path))%bool then
    raise_if (String.eqb path "") (DocumentError "Document path cannot be empty");;
    let p := abspath w path in
    raise_if (negb (existsb (PyStr.endswith (PyStr.lower p)) word_extensions))
      (DocumentError ("Unsupported document format: " ++ splitext_ext p));;
    ret (mkHandler p None)
  else BaseHandler_init path.

End DocumentHandler.

(** ** The tools ([api/])

    Every tool has the same shape: resolve the path, build a handler, call
    one method, and wrap the result; one [except] clause, for the error
    class of the tool's module, builds the error envelope. *)

Record ErrorInfo := mkErrorInfo {
  err_code : string;
  err_type : string;
  err_details : string;
  err_suggestion : string
}.

Record Envelope (A : Type) := mkEnvelope {
  success : bool;
  message : string;
  data : option A;
  error_info : option ErrorInfo
}.
Arguments mkEnvelope {A}.
Arguments success {A}.
Arguments message {A}.
Arguments data {A}.
Arguments error_info {A}.

(** [try: ...; return {success: True, ...} except cls as e: return {...}]. *)
Definition tool {A} (cls : ExnClass) (ok_message code suggestion : string)
    (body : M World A) : M World (Envelope A) :=
  try_except
    (let! result := body in
     ret (mkEnvelope true ok_message (Some result) None))
    (fun e =>
       if isinstance e cls
       then ret (mkEnvelope false (exn_message e) None
                   (Some (mkErrorInfo code (class_name cls) (exn_message e) suggestion)))
       else raise e).

(** [handler = Handler(doc_path); result = handler.method(...)]. *)
Definition with_handler {A} (doc_path : string) (method : M HState A) : M World A :=
  let! handler := BaseHandler_init doc_path in
  let! r := on_handler handler method in
  ret (fst r).

Module paragraph_tools.

Definition index_suggestion : string :=
  "Please check if the paragraph index and section index are valid.".

Definition get_paragraph_text (document_name : string) (paragraph_index section_index : Z)
    (doc_files_path : string) :=
  tool ClsParagraphError "Paragraph text retrieved successfully"
    "PARAGRAPH_TEXT_ERROR" index_suggestion
    (let! doc_path := get_doc_path document_name doc_files_path in
     with_handler doc_path
       (ParagraphHandler.get_paragraph_text paragraph_index section_index)).

Definition delete_paragraph (document_name : string) (paragraph_index section_index : Z)
    (doc_files_path : string) :=
  tool ClsParagraphError "Paragraph deleted successfully"
    "PARAGRAPH_DELETE_ERROR" index_suggestion
    (let! doc_path := get_doc_path document_name doc_files_path in
     with_handler doc_path
       (ParagraphHandler.delete_paragraph paragraph_index section_index)).


Definition add_paragraph (document_name text : string) (section_index : Z)
    (paragraph_index : option Z) (doc_files_path : string) :=
  tool ClsParagraphError "Paragraph added successfully"
    "PARAGRAPH_ADD_ERROR"
    "Please check if the section index and paragraph index are valid."
    (let! doc_path := get_doc_path document_name doc_files_path in
     with_handler doc_path
       (ParagraphHandler.add_paragraph text section_index paragraph_index)).

Definition update_paragraph_text (document_name : string) (paragraph_index : Z)
    (new_text : string) (section_index : Z) (doc_files_path : string) :=
  tool ClsParagraphError "Paragraph text updated successfully"
    "PARAGRAPH_UPDATE_ERROR" index_suggestion
    (let! doc_path := get_doc_path document_name doc_files_path in
     with_handler doc_path
       (ParagraphHandler.update_paragraph_text paragraph_index new_text section_index)).

End paragraph_tools.

Module format_tools.

Definition format_paragraph (float_repr : spec_float -> string)
    (document_name : string) (paragraph_index : Z) (a : FormatHandler.Args)
    (doc_files_path : string) :=
  tool ClsDocumentError "Paragraph formatting applied successfully"
    "FORMAT_ERROR"
    "Please check if the paragraph index is valid and the formatting parameters are correct."
    (let! doc_path := get_doc_path document_name doc_files_path in
     with_handler doc_path
       (FormatHandler.format_paragraph float_repr paragraph_index a)).

Definition get_paragraph_format (document_name : string) (paragraph_index : Z)
    (doc_files_path : string) :=
  tool ClsDocumentError "Paragraph formatting retrieved successfully"
    "FORMAT_INFO_ERROR" "Please check if the paragraph index is valid."
    (let! doc_path := get_doc_path document_name doc_files_path in
     with_handler doc_path (FormatHandler.get_paragraph_format paragraph_index)).

End format_tools.

Module table_tools.

Definition create_table (known_style : string -> bool) (document_name : string)
    (rows columns section_index : Z) (paragraph_index : option Z)
    (style : option string) (doc_files_path : string) :=
  tool ClsTableError "Table created successfully" "TABLE_CREATE_ERROR"
    "Please check if the table dimensions and section/paragraph indices are valid."
    (let! doc_path := get_doc_path document_name doc_files_path in
     with_handler doc_path
       (TableHandler.create_table known_style rows columns section_index
          paragraph_index style)).

Definition add_table_after_paragraph (known_style : string -> bool) (document_name : string)
    (rows columns section_index paragraph_index : Z)
    (style : option string) (doc_files_path : string) :=
  tool ClsTableError "Table added after paragraph successfully" "TABLE_ADD_ERROR"
    "Please check if the table dimensions and paragraph index are valid."
    (let! doc_path := get_doc_path document_name doc_files_path in
     with_handler doc_path
       (TableHandler.add_table_after_paragraph known_style rows columns section_index
          paragraph_index style)).

Definition add_table_to_section (known_style : string -> bool) (document_name : string)
    (rows columns section_index : Z) (style : option string) (doc_files_path : string) :=
  tool ClsTableError "Table added to section successfully" "TABLE_ADD_ERROR"
    "Please check if the table dimensions and section index are valid."
    (let! doc_path := get_doc_path document_name doc_files_path in
     with_handler doc_path
       (TableHandler.add_table_to_section known_style rows columns section_index style)).

Definition get_table_info (document_name : string) (table_index section_index : Z)
    (doc_files_path : string) :=
  tool ClsTableError "Table information retrieved successfully" "TABLE_INFO_ERROR"
    "Please check if the table index and section index are valid."
    (let! doc_path := get_doc_path document_name doc_files_path in
     with_handler doc_path (TableHandler.get_table_info table_index section_index)).

Definition delete_table (document_name : string) (table_index section_index : Z)
    (doc_files_path : string) :=
  tool ClsTableError "Table deleted successfully" "TABLE_DELETE_ERROR"
    "Please check if the table index and section index are valid."
    (let! doc_path := get_doc_path document_name doc_files_path in
     with_handler doc_path (TableHandler.delete_table table_index section_index)).

Definition set_cell_text (document_name : string) (table_index row column : Z)
    (text : string) (section_index : Z) (doc_files_path : string) :=
  tool ClsTableError "Cell text set successfully" "TABLE_CELL_ERROR"
    "Please check if the table index, row, column, and section index are valid."
    (let! doc_path := get_doc_path document_name doc_files_path in
     with_handler doc_path
       (TableHandler.set_cell_text table_index row column text section_index)).

End table_tools.

Module conversion_tools.

(** [handler = ConversionHandler(doc_path)]: a new handler for each call. *)
Definition with_new_handler {A} (doc_path : string)
    (method : M ConversionHandler.CState A) : M World A :=
  let handler := ConversionHandler.init (Some doc_path) in
  let! r := on_handler handler method in
  ret (fst r).

Definition convert_document (document_name target_format : string)
    (output_path : option string) (doc_files_path : string) :=
  tool ClsConversionError "Document converted successfully" "CONVERSION_ERROR"
    "Please check if the document exists and the target format is supported."
    (let! doc_path := get_doc_path document_name doc_files_path in
     with_new_handler doc_path
       (ConversionHandler.convert_document target_format output_path)).

Definition get_conversion_status (document_name doc_files_path : string) :=
  tool ClsConversionError "Conversion status retrieved successfully"
    "CONVERSION_STATUS_ERROR" "Please check if the document exists."
    (let! doc_path := get_doc_path document_name doc_files_path in
     with_new_handler doc_path ConversionHandler.get_conversion_status).

Definition get_conversion_history (document_name doc_files_path : string) :=
  tool ClsConversionError "Conversion history retrieved successfully"
    "CONVERSION_HISTORY_ERROR" "Please check if the document exists."
    (let! doc_path := get_doc_path document_name doc_files_path in
     with_new_handler doc_path ConversionHandler.get_conversion_history).

(** [handler.convert_to_pdf(output_name)] and its four siblings: the
    class [ConversionHandler] defines [_load_document], [convert_document],
    [get_conversion_status] and [get_conversion_history] only, so the
    attribute lookup raises before anything is called. *)
Definition no_attribute {A} (method : string) : M ConversionHandler.CState A :=
  raise (BuiltinError "AttributeError"
           ("'ConversionHandler' object has no attribute '" ++ method ++ "'")).

Definition convert_to (method ok_message code : string)
    (document_name : string) (output_name : option string) (doc_files_path : string)
    : M World (Envelope ConversionHandler.ConvertResult) :=
  tool ClsConversionError ok_message code
    "Please check if the document exists and is accessible."
    (let! doc_path := get_doc_path document_name doc_files_path in
     with_new_handler doc_path (no_attribute method)).

Definition convert_to_pdf :=
  convert_to "convert_to_pdf" "Document converted to PDF successfully"
    "CONVERSION_PDF_ERROR".
Definition convert_to_html :=
  convert_to "convert_to_html" "Document converted to HTML successfully"
    "CONVERSION_HTML_ERROR".
Definition convert_to_rtf :=
  convert_to "convert_to_rtf" "Document converted to RTF successfully"
    "CONVERSION_RTF_ERROR".
Definition convert_to_txt :=
  convert_to "convert_to_txt" "Document converted to TXT successfully"
    "CONVERSION_TXT_ERROR".
Definition convert_to_odt :=
  convert_to "convert_to_odt" "Document converted to ODT successfully"
    "CONVERSION_ODT_ERROR".

End conversion_tools.

Module document_tools.

(** [handler = DocumentHandler(doc_path); result = handler.method(...)]. *)
Definition with_document_handler {A} (doc_path : string) (method : M HState A) : M World A :=
  let! handler := DocumentHandler.init doc_path false in
  let! r := on_handler handler method in
  ret (fst r).


Definition find_and_replace
    (Replace : Document -> string -> string -> bool -> bool -> Outcome Document)
    (document_name find_text replace_text : string) (match_case match_whole_word : bool)
    (doc_files_path : string) :=
  tool ClsDocumentError "Text replacement completed successfully" "DOC_REPLACE_ERROR"
    "Please check if the document exists and the search parameters are valid."
    (let! doc_path := get_doc_path document_name doc_files_path in
     with_document_handler doc_path
       (DocumentHandler.find_and_replace Replace find_text replace_text match_case
          match_whole_word)).

Definition merge_documents (InsertText : Document -> Document -> Outcome Document)
    (original_document merge_document output_document doc_files_path : string) :=
  tool ClsDocumentError "Documents merged successfully" "DOC_MERGE_ERROR"
    "Please check if both documents exist and are accessible."
    (let! original_path := get_doc_path original_document doc_files_path in
     let! merge_path := get_doc_path merge_document doc_files_path in
     let! output_path := get_doc_path output_document doc_files_path in
     with_document_handler original_path
       (DocumentHandler.merge_documents InsertText merge_path output_path)).

End document_tools.

(** ** Auxiliary notions for the statements *)

(** Whether [get_doc_path] gets past its first step: the documents
    directory exists, or [os.makedirs] is able to create it. *)
Definition dir_available (w : World) (dir : string) : bool :=
  (exists_ w dir || (negb (String.eqb dir "") && can_mkdir w (abspath w dir)))%bool.

(** A world without the documents directory, in which no directory can
    be created. *)
Definition closed_world : World :=
  mkWorld (fun p => p) ∅ ∅ 0 (fun _ => false).

(** Whether [SaveToFile] can write [path]: the file is absent or writable. *)
Definition can_save (w : World) (path : string) : bool :=
  match files w !! abspath w path with
  | Some f => writable f
  | None => true
  end.

(** The world after [d] was saved to [path]. *)
Definition write_file (w : World) (path : string) (d : Document) : World :=
  set_files
    (insert (abspath w path)
       (mkFile (match files w !! abspath w path with
                | Some f => readable f
                | None => true
                end) true (Some d))) w.

(** The section a method works on. *)
Definition section_of (h : Handler) (section_index : Z) : option Section :=
  match document h with
  | Some d => if section_index <? 0 then None else Sections d !! Z.to_nat section_index
  | None => None
  end.

(** The handler after its section [section_index] was replaced. *)
Definition with_section (h : Handler) (section_index : Z) (s : Section) : Handler :=
  mkHandler (doc_path h)
    (match document h with
     | Some d => Some (mkDocument (<[Z.to_nat section_index := s]> (Sections d)))
     | None => None
     end).

(** A world for the examples: one document, [a.docx], with one empty
    section, in the documents directory of the server; paths are taken as
    they are. *)
Definition example_dir : string := "./word_files".

Definition example_document : Document := mkDocument [mkSection [] []].

Definition example_world : World :=
  mkWorld (fun p => p)
    {[ "./word_files/a.docx" := mkFile true true (Some example_document) ]}
    {[ "./word_files" ]} 0 (fun _ => true).

Definition example_handler : Handler :=
  mkHandler "./word_files/a.docx" (Some example_document).

(** A rendering of floats for the examples: exact, though not the
    shortest decimal that Python prints for a finite value. *)
Definition example_float_repr (f : spec_float) : string :=
  match f with
  | S754_zero false => "0.0"
  | S754_zero true => "-0.0"
  | S754_infinity false => "inf"
  | S754_infinity true => "-inf"
  | S754_nan => "nan"
  | S754_finite sg m e =>
      (if sg then "-" else "") ++ PyStr.of_Z (Z.pos m) ++ "*2**" ++ PyStr.of_Z e
  end.

(** The world after the handler saved its document. *)
Definition saved (h : Handler) (w : World) : World :=
  match document h with
  | Some d => write_file w (doc_path h) d
  | None => w
  end.

(** The paragraphs of a section after [add_paragraph]. *)
Definition added_paragraphs (ps : list Paragraph) (text : string)
    (paragraph_index : option Z) : list Paragraph :=
  match paragraph_index with
  | Some i => insert_at (Z.to_nat i) (mkParagraph text default_format) ps
  | None => ps ++ [mkParagraph text default_format]
  end.

(** The index [add_paragraph] reports. *)
Definition added_index (ps : list Paragraph) (paragraph_index : option Z) : Z :=
  match paragraph_index with
  | Some i => i
  | None => Count ps
  end.

(** The error of [add_paragraph] for an index outside [0 .. count]. *)
Definition add_index_error (i : Z) : Exn :=
  ParagraphError ("Failed to add paragraph: "
                  ++ exn_message (ParagraphError ("Invalid paragraph index: " ++ PyStr.of_Z i))).

(** The error of [get_paragraph_text] for an index past the end. *)
Definition read_range_error (pi si count : Z) : Exn :=
  ParagraphError ("Failed to get paragraph text: "
                  ++ exn_message (paragraph_range_error pi si count)).

(** Examples: a document with three paragraphs. *)
Definition par (t : string) : Paragraph := mkParagraph t default_format.

Definition three_paragraphs : Section := mkSection [par "A"; par "B"; par "C"] [].

Definition example_handler3 : Handler :=
  mkHandler "./word_files/a.docx" (Some (mkDocument [three_paragraphs])).

(** A formatting argument that [_validate_formatting_parameters] rejects. *)
Definition bad_number (v : option PyVal) : bool :=
  match v with
  | Some x => negb (is_number x) || lt_zero x
  | None => false
  end.

Definition bad_enum (valid : list string) (v : option PyVal) : bool :=
  match v with
  | Some (PyStr s) => negb (PyStr.mem (PyStr.lower s) valid)
  | Some _ => true
  | None => false
  end.

Definition invalid_args (a : FormatHandler.Args) : bool :=
  bad_enum FormatHandler.valid_alignments (FormatHandler.alignment a)
  || bad_enum FormatHandler.valid_rules (FormatHandler.line_spacing_rule a)
  || bad_number (FormatHandler.first_line_indent a)
  || bad_number (FormatHandler.left_indent a)
  || bad_number (FormatHandler.right_indent a)
  || bad_number (FormatHandler.line_spacing a)
  || bad_number (FormatHandler.before_spacing a)
  || bad_number (FormatHandler.after_spacing a).

(** Example arguments: only an alignment, only a left indent. *)
Definition only_alignment (v : PyVal) : FormatHandler.Args :=
  FormatHandler.mkArgs (Some v) None None None None None None None.

Definition only_left_indent (v : PyVal) : FormatHandler.Args :=
  FormatHandler.mkArgs None None (Some v) None None None None None.

(** The dimensions [create_table] rejects, and the error it raises for
    them once the indices were accepted. *)
Definition out_of_range (rows columns : Z) : bool :=
  (rows <=? 0) || (columns <=? 0) || (rows >? 1000) || (columns >? 100).

Definition dimension_error (rows columns : Z) : Exn :=
  if (rows <=? 0) || (columns <=? 0)
  then TableError "Table dimensions must be positive" "TABLE_CREATE_ERROR"
  else TableError "Table dimensions too large (max: 1000 rows, 100 columns)"
         "TABLE_CREATE_ERROR".

(** The table [create_table] builds, the position at which it puts the
    table, and the tables of the section afterwards. *)
Definition created_table (known_style : string -> bool) (rows columns : Z)
    (style : option string) : Table :=
  let t := TableHandler.ResetCells rows columns TableHandler.new_table in
  match style with
  | Some s =>
      if String.eqb s "" then t
      else if known_style s then mkTable (Rows t) (Some s) else t
  | None => t
  end.

Definition created_position (sec : Section) (paragraph_index : option Z) : nat :=
  match paragraph_index with
  | Some p => Z.to_nat (Z.min (p + 1) (Count (Tables sec)))
  | None => length (Tables sec)
  end.

Definition created_tables (known_style : string -> bool) (sec : Section)
    (rows columns : Z) (paragraph_index : option Z) (style : option string) : list Table :=
  insert_at (created_position sec paragraph_index)
    (created_table known_style rows columns style) (Tables sec).

(** The error of [set_cell_text] for a cell outside the extent of a table. *)
Definition cell_index_error (t : Table) (row column : Z) : Exn :=
  if (row <? 0) || (row >=? Count (Rows t))
  then TableError ("Invalid row index: " ++ PyStr.of_Z row) "TABLE_CELL_ERROR"
  else TableError ("Invalid column index: " ++ PyStr.of_Z column) "TABLE_CELL_ERROR".

Definition outside_extent (t : Table) (row column : Z) : bool :=
  (row <? 0) || (row >=? Count (Rows t))
  || (column <? 0) || (column >=? TableHandler.columns_of t).

(** Examples: a section with one paragraph and a table of three rows and
    two columns, and a section with two paragraphs and two tables. *)
Definition table_3x2 : Table :=
  TableHandler.ResetCells 3 2 TableHandler.new_table.

Definition example_handler_table : Handler :=
  mkHandler "./word_files/a.docx"
    (Some (mkDocument [mkSection [par "A"] [table_3x2]])).

Definition two_tables : Section :=
  mkSection [par "A"; par "B"] [table_3x2; table_3x2].

Definition example_handler_tables : Handler :=
  mkHandler "./word_files/a.docx" (Some (mkDocument [two_tables])).

Definition no_style (s : string) : bool := false.

(** An instance of the engine's search for the examples: every
    occurrence of the text, read from left to right without overlap, is
    replaced in every paragraph of every section; the two flags are not
    consulted. *)
Fixpoint replace_in (find rep s : string) (skip : nat) : string :=
  match s with
  | EmptyString => EmptyString
  | String c s' =>
      match skip with
      | S k => replace_in find rep s' k
      | O =>
          if PyStr.startswith s find
          then rep ++ replace_in find rep s' (String.length find - 1)
          else String c (replace_in find rep s' 0)
      end
  end.

Fixpoint occurrences (find s : string) (skip : nat) : nat :=
  match s with
  | EmptyString => 0
  | String c s' =>
      match skip with
      | S k => occurrences find s' k
      | O =>
          if PyStr.startswith s find
          then S (occurrences find s' (String.length find - 1))
          else occurrences find s' 0
      end
  end.

Definition example_Replace (d : Document) (find rep : string) (match_case whole : bool)
    : Outcome Document :=
  Return (mkDocument
            (map (fun sec =>
                    set_Paragraphs
                      (map (fun p => mkParagraph (replace_in find rep (Text p) 0) (Format p))
                         (Paragraphs sec)) sec)
               (Sections d))).

Definition occurrences_in (find : string) (d : Document) : nat :=
  list_sum (map (fun sec => list_sum (map (fun p => occurrences find (Text p) 0)
                                        (Paragraphs sec)))
              (Sections d)).

Definition cats_document : Document :=
  mkDocument [mkSection [par "a cat"; par "cat and cat"] []].

Definition cats_handler : Handler :=
  mkHandler "./word_files/a.docx" (Some cats_document).

(** The text in the envelope of a read. *)
Definition text_of (e : Envelope ParagraphHandler.TextResult) : option string :=
  match data e with
  | Some r => Some (ParagraphHandler.tr_text r)
  | None => None
  end.

(** What [format_paragraph] assigns: the number the engine takes for a
    numeric argument, the constants of [alignment_map] and [rule_map], and
    the formatting after the assignments that the arguments select, in the
    order of the source. *)
Definition number_of (v : PyVal) : Number :=
  match v with
  | PyInt z => NInt z
  | PyFloat f => NFloat f
  | PyBool b => NInt (Z.b2z b)
  | _ => NInt 0
  end.

Definition lower_of (v : PyVal) : string :=
  match v with
  | PyStr s => PyStr.lower s
  | _ => ""
  end.

Definition alignment_value (key : string) : HorizontalAlignment :=
  if String.eqb key "left" then Left
  else if String.eqb key "center" then Center
  else if String.eqb key "right" then Right
  else Justify.

Definition rule_value (key : string) : LineSpacingRule :=
  if String.eqb key "at_least" then AtLeast
  else if String.eqb key "exactly" then Exactly
  else Multiple.

Definition assign_number (v : option PyVal)
    (setter : Number -> ParagraphFormat -> ParagraphFormat) (f : ParagraphFormat)
    : ParagraphFormat :=
  match v with
  | Some x => setter (number_of x) f
  | None => f
  end.

Definition applied_format (a : FormatHandler.Args) (f : ParagraphFormat) : ParagraphFormat :=
  let f1 := match FormatHandler.alignment a with
            | Some v => FormatHandler.with_HorizontalAlignment
                          (alignment_value (lower_of v)) f
            | None => f
            end in
  let f2 := assign_number (FormatHandler.first_line_indent a)
              FormatHandler.with_FirstLineIndent f1 in
  let f3 := assign_number (FormatHandler.left_indent a) FormatHandler.with_LeftIndent f2 in
  let f4 := assign_number (FormatHandler.right_indent a) FormatHandler.with_RightIndent f3 in
  let f5 := match FormatHandler.line_spacing a with
            | Some v =>
                let g := FormatHandler.with_LineSpacing (number_of v) f4 in
                match FormatHandler.line_spacing_rule a with
                | Some r => FormatHandler.with_LineSpacingRule (rule_value (lower_of r)) g
                | None => g
                end
            | None => f4
            end in
  let f6 := assign_number (FormatHandler.before_spacing a)
              FormatHandler.with_BeforeSpacing f5 in
  assign_number (FormatHandler.after_spacing a) FormatHandler.with_AfterSpacing f6.

(** The handler whose paragraph [i] of section 0 is [p]. *)
Definition with_paragraph (h : Handler) (sec : Section) (i : Z) (p : Paragraph) : Handler :=
  with_section h 0 (set_Paragraphs (<[Z.to_nat i := p]> (Paragraphs sec)) sec).

(** A world whose only document cannot be written. *)
Definition read_only_world : World :=
  mkWorld (fun p => p)
    {[ "./word_files/a.docx" := mkFile true false (Some (mkDocument [three_paragraphs])) ]}
    {[ "./word_files" ]} 0 (fun _ => true).

(** Arguments for the examples: an alignment in upper case, a left indent
    and a line spacing rule without a line spacing. *)
Definition example_args : FormatHandler.Args :=
  FormatHandler.mkArgs (Some (PyStr "CENTER")) None (Some (PyInt 12)) None None
    (Some (PyStr "exactly")) None None.

(** A computation that raises exceptions of one class only. *)
Definition raises_only {S A} (c : ExnClass) (m : M S A) : Prop :=
  forall (s s' : S) (e : Exn), m s = (Raise e, s') -> exn_class e = c.

(** The table after [set_cell_text] has written [text] into the cell
    [c] at [column] of the row [r] at [row]. *)
Definition with_cell_text (t : Table) (row column : Z) (r : list Cell) (c : Cell)
    (text : string) : Table :=
  mkTable (<[Z.to_nat row := <[Z.to_nat column := fst (TableHandler.set_first_text text c)]> r]>
             (Rows t))
    (table_Style t).

(** A table whose second row is shorter than its first. *)
Definition ragged_table : Table :=
  mkTable [[mkCell []; mkCell []]; [mkCell []]] None.

Definition example_handler_ragged : Handler :=
  mkHandler "./word_files/a.docx" (Some (mkDocument [mkSection [] [ragged_table]])).

(** A conversion handler on the document of the example world. *)
Definition example_converter : ConversionHandler.State :=
  ConversionHandler.init (Some "./word_files/a.docx").




(** Instances of the engine's protection and insertion for the examples:
    protection leaves the content as it is, and insertion appends the
    sections of the inserted document. *)
Definition example_Protect (d : Document) (t : DocumentHandler.ProtectionType)
    (password : option string) : Outcome Document :=
  Return d.

Definition example_InsertText (d source : Document) : Outcome Document :=
  Return (mkDocument (Sections d ++ Sections source)).

(** The handler after its document was replaced. *)
Definition with_document (h : Handler) (d : Document) : Handler :=
  mkHandler (doc_path h) (Some d).

(** * Properties *)

(** Unfolding the monad on a given state. *)
Ltac munfold :=
  repeat progress
    (unfold bind, ret, raise, raise_if, try_except, self, the_world, liftW,
       set_document, set_self, item; cbn).

(** ** Strings and paths *)

Section PathFacts.
Import PyStr OsPath.

Lemma chars_app (a b : string) : chars (a ++ b) = (chars a ++ chars b)%list.
Proof. induction a as [|c a IH]; simpl; [reflexivity | now rewrite IH]. Qed.









End PathFacts.

Section ResolveFacts.
Import PyStr OsPath.










(** The three ways through [get_doc_path]: the directory exists, it is
    created, or it cannot be created. *)
Lemma get_doc_path_existing (name d : string) (w : World) :
  exists_ w d = true -> get_doc_path name d w = (resolve d name, w).
Proof.
  intros He. unfold get_doc_path, bind, get, ret, raise. rewrite He. simpl.
  destruct (resolve d name); reflexivity.
Qed.

Lemma exists_after_makedirs (d : string) (w : World) :
  d <> "" -> exists_ (set_dirs (fun x => {[abspath w d]} ∪ x) w) d = true.
Proof.
  intros Hd. unfold exists_, isdir, set_dirs. simpl.
  apply String.eqb_neq in Hd. rewrite Hd. simpl.
  rewrite (bool_decide_eq_true_2 (abspath w d ∈ {[abspath w d]} ∪ dirs w)) by set_solver.
  apply orb_true_r.
Qed.

Lemma get_doc_path_unavailable (name d : string) (w : World) :
  dir_available w d = false -> get_doc_path name d w = (Raise (makedirs_error d), w).
Proof.
  unfold dir_available. intros H. apply orb_false_elim in H as [He Hc].
  unfold get_doc_path, bind, get, ret. rewrite He. cbn [negb].
  unfold makedirs. rewrite Hc. reflexivity.
Qed.

Lemma get_doc_path_available (name d : string) (w : World) :
  dir_available w d = true ->
  exists w1 : World,
    get_doc_path name d w = (resolve d name, w1) /\
    exists_ w1 d = true /\ files w1 = files w /\ clock w1 = clock w /\
    abspath w1 = abspath w /\ can_mkdir w1 = can_mkdir w /\
    (exists_ w d = true -> w1 = w).
Proof.
  intros Ha. destruct (exists_ w d) eqn:He.
  - exists w. rewrite (get_doc_path_existing name d w He). repeat split; auto.
  - unfold dir_available in Ha. rewrite He in Ha. simpl in Ha.
    exists (set_dirs (fun x => {[abspath w d]} ∪ x) w). split.
    + unfold get_doc_path, bind, get, ret, raise. rewrite He. cbn [negb].
      unfold makedirs. rewrite Ha.
      destruct (resolve d name); reflexivity.
    + split; [|repeat split; auto; discriminate].
      apply exists_after_makedirs. apply andb_true_iff in Ha as [Hd _].
      apply negb_true_iff, String.eqb_neq in Hd. exact Hd.
Qed.

Lemma get_doc_path_outcome (name d : string) (w : World) :
  fst (get_doc_path name d w)
  = if dir_available w d then resolve d name else Raise (makedirs_error d).
Proof.
  destruct (dir_available w d) eqn:Ha.
  - destruct (get_doc_path_available name d w Ha) as (w1 & H & _). now rewrite H.
  - now rewrite (get_doc_path_unavailable name d w Ha).
Qed.

Lemma makedirs_error_builtin (d : string) (c : ExnClass) :
  (forall n, c <> ClsBuiltin n) -> isinstance (makedirs_error d) c = false.
Proof.
  intros Hc. unfold makedirs_error.
  destruct (String.eqb d ""); destruct c; try reflexivity; exfalso; eapply Hc; reflexivity.
Qed.

End ResolveFacts.

(** ** Path containment (C4) *)




(** Without a documents directory nothing is resolved: for the empty
    directory name, and for a directory that is missing where none can be
    created, [os.makedirs] raises, and a tool that catches
    [DocumentError] lets the exception through. *)
Lemma get_doc_path_without_directory :
  get_doc_path "a.docx" "" example_world
  = (Raise (BuiltinError "FileNotFoundError" "[Errno 2] No such file or directory: ''"),
     example_world) /\
  get_doc_path "a.docx" example_dir closed_world
  = (Raise (BuiltinError "OSError" "Cannot create directory: './word_files'"),
     closed_world) /\
  get_doc_path "x/y.docx" "" example_world = get_doc_path "a.docx" "" example_world /\
  format_tools.get_paragraph_format "a.docx" 0 "" example_world
  = (Raise (BuiltinError "FileNotFoundError" "[Errno 2] No such file or directory: ''"),
     example_world).
Proof. repeat split; vm_compute; reflexivity. Qed.

(** ** The wrapper boundary (C1) *)

(** A tool returns an envelope for the errors of its own class and lets
    every other exception through. *)
Lemma tool_propagates {A} (cls : ExnClass) (ok code sug : string)
    (body : M World A) (w w' : World) (e : Exn) :
  body w = (Raise e, w') -> isinstance e cls = false ->
  tool cls ok code sug body w = (Raise e, w').
Proof.
  intros Hb Hc. unfold tool, try_except, bind. rewrite Hb, Hc. reflexivity.
Qed.

Lemma tool_envelope {A} (cls : ExnClass) (ok code sug : string)
    (body : M World A) (w w' : World) (e : Exn) :
  body w = (Raise e, w') -> isinstance e cls = true ->
  tool cls ok code sug body w =
    (Return (mkEnvelope false (exn_message e) None
               (Some (mkErrorInfo code (class_name cls) (exn_message e) sug))), w').
Proof.
  intros Hb Hc. unfold tool, try_except, bind. rewrite Hb, Hc. reflexivity.
Qed.

(** Every tool that builds a [BaseHandler] meets the same constructor:
    for a name that resolves to a path which is not a file, the paragraph
    tool raises the constructor's [DocumentError]. *)
Lemma get_paragraph_text_tool_missing_file (name dir p : string) (pi si : Z) (w : World) :
  dir_available w dir = true ->
  resolve dir name = Return p -> p <> "" ->
  files w !! abspath w (abspath w p) = None ->
  fst (paragraph_tools.get_paragraph_text name pi si dir w)
  = Raise (DocumentError ("Document file not found: " ++ abspath w p)).
Proof.
  intros Ha Hr Hne Hf.
  destruct (get_doc_path_available name dir w Ha)
    as (w1 & Hg & _ & Hfiles & _ & Habs & _).
  rewrite Hr in Hg.
  unfold paragraph_tools.get_paragraph_text.
  erewrite tool_propagates; [reflexivity | | reflexivity].
  unfold bind at 1. rewrite Hg.
  unfold with_handler, BaseHandler_init, get, isfile. munfold.
  destruct (String.eqb_spec p ""); [contradiction|]. munfold.
  rewrite Habs, Hfiles, Hf.
  rewrite bool_decide_eq_false_2 by (intros [x Hx]; discriminate).
  rewrite andb_false_r. reflexivity.
Qed.

(** C1: for a document that does not exist the constructor of the handler
    raises [DocumentError]; [get_paragraph_text] catches [ParagraphError]
    only, so the exception leaves the tool: the transport layer gets no
    envelope. *)
Theorem get_paragraph_text_missing_document_raises :
  fst (paragraph_tools.get_paragraph_text "missing.docx" 0 0 example_dir example_world)
  = Raise (DocumentError "Document file not found: ./word_files/missing.docx").
Proof. vm_compute. reflexivity. Qed.

(** The tools of [format_tools] catch [DocumentError]: the same request
    there gets the error envelope. *)
Lemma get_paragraph_format_missing_document_envelope :
  fst (format_tools.get_paragraph_format "missing.docx" 0 example_dir example_world)
  = Return (mkEnvelope false "Document file not found: ./word_files/missing.docx" None
              (Some (mkErrorInfo "FORMAT_INFO_ERROR" "DocumentError"
                       "Document file not found: ./word_files/missing.docx"
                       "Please check if the paragraph index is valid."))).
Proof. vm_compute. reflexivity. Qed.

(** ** Running the methods of a handler *)

Lemma Count_nonneg {A} (l : list A) : 0 <= Count l.
Proof. unfold Count. lia. Qed.

Lemma lookup_Z_lt {A} (l : list A) (i : Z) (x : A) :
  0 <= i -> l !! Z.to_nat i = Some x -> i < Count l.
Proof.
  unfold Count. intros Hi H. apply lookup_lt_Some in H. lia.
Qed.

Lemma section_of_Some (h : Handler) (si : Z) (sec : Section) :
  section_of h si = Some sec ->
  exists d, document h = Some d /\ 0 <= si < Count (Sections d)
            /\ Sections d !! Z.to_nat si = Some sec.
Proof.
  unfold section_of. destruct (document h) as [d|]; [|discriminate].
  destruct (Z.ltb_spec si 0) as [Hneg|Hpos]; [discriminate|]. intros Hl.
  exists d. repeat split; auto. eapply lookup_Z_lt; eauto.
Qed.

Lemma _validate_section_index_ok (h : Handler) (w : World) (si : Z) (sec : Section) :
  section_of h si = Some sec ->
  _validate_section_index si (h, w) = (Return tt, (h, w)).
Proof.
  intros H. apply section_of_Some in H as (d & Hd & Hr & _).
  unfold _validate_section_index. munfold. cbn.
  destruct (Z.ltb_spec si 0); [lia|]. munfold. rewrite Hd. munfold.
  destruct (Z.geb_spec si (Count (Sections d))); [lia | reflexivity].
Qed.

(** A failed index check raises [DocumentError] and changes nothing. *)
Lemma _validate_section_index_fail (h : Handler) (w : World) (si : Z) :
  section_of h si = None ->
  exists e, _validate_section_index si (h, w) = (Raise e, (h, w))
            /\ exn_class e = ClsDocumentError.
Proof.
  unfold section_of, _validate_section_index. munfold.
  destruct (Z.ltb_spec si 0); munfold; [eauto|].
  destruct (document h) as [d|]; munfold; [|eauto].
  intros Hl. apply lookup_ge_None in Hl.
  destruct (Z.geb_spec si (Count (Sections d))); munfold; [eauto|].
  unfold Count in *. lia.
Qed.

Lemma get_section_ok (h : Handler) (w : World) (si : Z) (sec : Section) :
  section_of h si = Some sec -> get_section si (h, w) = (Return sec, (h, w)).
Proof.
  intros H. apply section_of_Some in H as (d & Hd & Hr & Hs).
  unfold get_section. munfold. rewrite Hd. munfold.
  destruct (Z.ltb_spec si 0); [lia|]. rewrite Hs. reflexivity.
Qed.

Lemma _validate_paragraph_index_ok (h : Handler) (w : World) (pi si : Z) (sec : Section) :
  section_of h si = Some sec -> 0 <= pi < Count (Paragraphs sec) ->
  _validate_paragraph_index pi si (h, w) = (Return tt, (h, w)).
Proof.
  intros Hs Hp. unfold _validate_paragraph_index.
  unfold bind at 1. rewrite (_validate_section_index_ok _ _ _ _ Hs).
  unfold bind at 1. unfold raise_if at 1.
  destruct (Z.ltb_spec pi 0); [lia|]. unfold ret at 1.
  unfold bind. rewrite (get_section_ok _ _ _ _ Hs).
  unfold raise_if. destruct (Z.geb_spec pi (Count (Paragraphs sec))); [lia | reflexivity].
Qed.

Lemma _validate_paragraph_index_range (h : Handler) (w : World) (pi si : Z) (sec : Section) :
  section_of h si = Some sec -> Count (Paragraphs sec) <= pi ->
  _validate_paragraph_index pi si (h, w)
  = (Raise (paragraph_range_error pi si (Count (Paragraphs sec))), (h, w)).
Proof.
  intros Hs Hp. unfold _validate_paragraph_index.
  unfold bind at 1. rewrite (_validate_section_index_ok _ _ _ _ Hs).
  unfold bind at 1. unfold raise_if at 1.
  pose proof (Count_nonneg (Paragraphs sec)).
  destruct (Z.ltb_spec pi 0); [lia|]. unfold ret at 1.
  unfold bind. rewrite (get_section_ok _ _ _ _ Hs).
  unfold raise_if. destruct (Z.geb_spec pi (Count (Paragraphs sec))); [reflexivity | lia].
Qed.

(** Whatever its arguments, the paragraph check leaves the state alone. *)
Lemma _validate_paragraph_index_state (h : Handler) (w : World) (pi si : Z) :
  (_validate_paragraph_index pi si (h, w) = (Return tt, (h, w))) \/
  (exists e, _validate_paragraph_index pi si (h, w) = (Raise e, (h, w))
             /\ exn_class e = ClsDocumentError).
Proof.
  destruct (section_of h si) as [sec|] eqn:Hs.
  - destruct (Z.ltb_spec pi 0) as [Hneg|Hpos].
    + right. unfold _validate_paragraph_index.
      unfold bind at 1. rewrite (_validate_section_index_ok _ _ _ _ Hs).
      unfold bind at 1. unfold raise_if at 1.
      destruct (Z.ltb_spec pi 0); [|lia]. unfold raise. eauto.
    + destruct (Z.ltb_spec pi (Count (Paragraphs sec))).
      * left. eapply _validate_paragraph_index_ok; eauto.
      * right. eexists. split; [eapply _validate_paragraph_index_range; eauto | reflexivity].
  - right. destruct (_validate_section_index_fail h w si Hs) as (e & He & Hc).
    exists e. split; [|exact Hc].
    unfold _validate_paragraph_index. unfold bind at 1. rewrite He. reflexivity.
Qed.

Lemma alter_lookup_insert {A} (f : A -> A) (l : list A) (i : nat) (x : A) :
  l !! i = Some x -> alter f i l = <[i := f x]> l.
Proof.
  revert i. induction l as [|a l IH]; intros [|i] H; simpl in *; try discriminate.
  - now inversion H.
  - f_equal. now apply IH.
Qed.

Lemma update_section_ok (h : Handler) (w : World) (si : Z) (sec : Section)
    (f : Section -> Section) :
  section_of h si = Some sec ->
  update_section si f (h, w) = (Return tt, (with_section h si (f sec), w)).
Proof.
  intros H. apply section_of_Some in H as (d & Hd & Hr & Hs).
  unfold update_section, with_section. munfold. rewrite Hd. munfold.
  now rewrite (alter_lookup_insert _ _ _ _ Hs).
Qed.

Lemma section_of_with_section (h : Handler) (si : Z) (sec sec' : Section) :
  section_of h si = Some sec -> section_of (with_section h si sec') si = Some sec'.
Proof.
  intros H. apply section_of_Some in H as (d & Hd & Hr & Hs).
  unfold section_of, with_section. rewrite Hd. simpl.
  destruct (Z.ltb_spec si 0); [lia|].
  apply list_lookup_insert_eq. apply lookup_lt_Some in Hs. exact Hs.
Qed.

Lemma SaveToFile_ok (d : Document) (path : string) (w : World) :
  can_save w path = true -> SaveToFile d path w = (Return tt, write_file w path d).
Proof.
  unfold can_save, SaveToFile, write_file.
  destruct (files w !! abspath w path) as [f|]; [|reflexivity].
  intros ->. reflexivity.
Qed.

Lemma can_save_write_file (w : World) (path : string) (d : Document) :
  can_save (write_file w path d) path = true.
Proof.
  unfold can_save, write_file, set_files. simpl.
  rewrite lookup_insert_eq. reflexivity.
Qed.

Lemma save_document_ok (h : Handler) (w : World) (d : Document) :
  document h = Some d -> can_save w (doc_path h) = true ->
  save_document (h, w) = (Return tt, (h, write_file w (doc_path h) d)).
Proof.
  intros Hd Hs. unfold save_document. munfold. rewrite Hd.
  rewrite (SaveToFile_ok _ _ _ Hs). reflexivity.
Qed.

Lemma document_with_section (h : Handler) (si : Z) (sec sec' : Section) :
  section_of h si = Some sec -> exists d', document (with_section h si sec') = Some d'.
Proof.
  intros H. apply section_of_Some in H as (d & Hd & _).
  unfold with_section. rewrite Hd. eauto.
Qed.

Lemma save_document_saved (h : Handler) (w : World) (d : Document) :
  document h = Some d -> can_save w (doc_path h) = true ->
  save_document (h, w) = (Return tt, (h, saved h w)).
Proof.
  intros Hd Hs. rewrite (save_document_ok _ _ _ Hd Hs). unfold saved. now rewrite Hd.
Qed.

(** What was saved is what the engine loads afterwards. *)
Lemma LoadFromFile_saved (h : Handler) (w : World) (d : Document) :
  document h = Some d ->
  LoadFromFile (doc_path h) (saved h w) = (Return d, saved h w).
Proof.
  intros Hd. unfold saved, LoadFromFile. rewrite Hd.
  unfold write_file, set_files. simpl. rewrite lookup_insert_eq. reflexivity.
Qed.

(** ** Paragraph reads and deletion (C7) *)

Lemma get_paragraph_text_ok (h : Handler) (w : World) (pi si : Z)
    (sec : Section) (p : Paragraph) :
  section_of h si = Some sec -> 0 <= pi -> Paragraphs sec !! Z.to_nat pi = Some p ->
  ParagraphHandler.get_paragraph_text pi si (h, w)
  = (Return (ParagraphHandler.mkTextResult si pi (Text p)), (h, w)).
Proof.
  intros Hs Hpi Hp. unfold ParagraphHandler.get_paragraph_text.
  unfold try_except, bind.
  rewrite (_validate_paragraph_index_ok h w pi si sec Hs)
    by (split; [lia | eapply lookup_Z_lt; eauto]).
  rewrite (get_section_ok _ _ _ _ Hs). unfold item.
  destruct (Z.ltb_spec pi 0); [lia|]. rewrite Hp. reflexivity.
Qed.

Lemma get_paragraph_text_range (h : Handler) (w : World) (pi si : Z) (sec : Section) :
  section_of h si = Some sec -> Count (Paragraphs sec) <= pi ->
  ParagraphHandler.get_paragraph_text pi si (h, w)
  = (Raise (read_range_error pi si (Count (Paragraphs sec))), (h, w)).
Proof.
  intros Hs Hpi. unfold ParagraphHandler.get_paragraph_text.
  unfold try_except, bind.
  rewrite (_validate_paragraph_index_range h w pi si sec Hs Hpi). reflexivity.
Qed.

Lemma get_paragraphinfo_ok (h : Handler) (w : World) (pi si : Z)
    (sec : Section) (p : Paragraph) :
  section_of h si = Some sec -> 0 <= pi -> Paragraphs sec !! Z.to_nat pi = Some p ->
  ParagraphHandler.get_paragraphinfo pi si (h, w)
  = (Return (ParagraphHandler.mkInfoResult si pi (Text p)
               (fmt_HorizontalAlignment (Format p))), (h, w)).
Proof.
  intros Hs Hpi Hp. unfold ParagraphHandler.get_paragraphinfo.
  unfold try_except, bind.
  rewrite (_validate_paragraph_index_ok h w pi si sec Hs)
    by (split; [lia | eapply lookup_Z_lt; eauto]).
  rewrite (get_section_ok _ _ _ _ Hs). unfold item.
  destruct (Z.ltb_spec pi 0); [lia|]. rewrite Hp. reflexivity.
Qed.

Lemma delete_paragraph_ok (h : Handler) (w : World) (pi si : Z)
    (sec : Section) (p : Paragraph) :
  section_of h si = Some sec -> 0 <= pi -> Paragraphs sec !! Z.to_nat pi = Some p ->
  can_save w (doc_path h) = true ->
  let h' := with_section h si (ParagraphHandler.RemoveAt pi sec) in
  ParagraphHandler.delete_paragraph pi si (h, w)
  = (Return (ParagraphHandler.mkDeleteResult si pi (Text p)), (h', saved h' w)).
Proof.
  intros Hs Hpi Hp Hw h'. unfold ParagraphHandler.delete_paragraph.
  unfold try_except, bind.
  rewrite (_validate_paragraph_index_ok h w pi si sec Hs)
    by (split; [lia | eapply lookup_Z_lt; eauto]).
  rewrite (get_paragraphinfo_ok _ _ _ _ _ _ Hs Hpi Hp).
  rewrite (update_section_ok _ _ _ _ _ Hs). fold h'.
  destruct (document_with_section h si sec (ParagraphHandler.RemoveAt pi sec) Hs) as [d' Hd'].
  fold h' in Hd'.
  rewrite (save_document_saved h' w d' Hd') by exact Hw.
  reflexivity.
Qed.

Lemma Count_RemoveAt (sec : Section) (i : Z) (p : Paragraph) :
  Paragraphs sec !! Z.to_nat i = Some p ->
  Count (Paragraphs (ParagraphHandler.RemoveAt i sec)) = Count (Paragraphs sec) - 1.
Proof.
  intros Hp. unfold ParagraphHandler.RemoveAt, Count. simpl.
  rewrite length_delete by eauto.
  apply lookup_lt_Some in Hp. lia.
Qed.

(** C7: [delete_paragraph] at a valid index returns the text of the
    paragraph it removes; afterwards a read at an index [j] from the
    deleted position on returns what was at [j + 1], or fails with the
    out-of-range error when there was no such paragraph; reads before the
    deleted position are unchanged, and the document was saved. *)
Theorem delete_paragraph_shifts_indices (h : Handler) (w : World) (si i : Z)
    (sec : Section) (p : Paragraph) :
  section_of h si = Some sec -> 0 <= i -> Paragraphs sec !! Z.to_nat i = Some p ->
  can_save w (doc_path h) = true ->
  exists s' : HState,
    ParagraphHandler.delete_paragraph i si (h, w)
    = (Return (ParagraphHandler.mkDeleteResult si i (Text p)), s') /\
    (forall j : Z, i <= j ->
       fst (ParagraphHandler.get_paragraph_text j si s') =
         match Paragraphs sec !! Z.to_nat (j + 1) with
         | Some q => Return (ParagraphHandler.mkTextResult si j (Text q))
         | None => Raise (read_range_error j si (Count (Paragraphs sec) - 1))
         end) /\
    (forall j : Z, 0 <= j < i ->
       fst (ParagraphHandler.get_paragraph_text j si s')
       = fst (ParagraphHandler.get_paragraph_text j si (h, w))) /\
    (exists d' : Document,
       document (fst s') = Some d' /\
       fst (LoadFromFile (doc_path h) (snd s')) = Return d').
Proof.
  intros Hs Hi Hp Hw.
  set (h' := with_section h si (ParagraphHandler.RemoveAt i sec)).
  exists (h', saved h' w).
  assert (Hs' : section_of h' si = Some (ParagraphHandler.RemoveAt i sec))
    by (apply (section_of_with_section h si sec _ Hs)).
  split; [|split; [|split]].
  - now apply delete_paragraph_ok.
  - intros j Hj.
    assert (Hl : Paragraphs (ParagraphHandler.RemoveAt i sec) !! Z.to_nat j
                 = Paragraphs sec !! Z.to_nat (j + 1)).
    { unfold ParagraphHandler.RemoveAt. simpl.
      rewrite list_lookup_delete_ge by lia. f_equal. lia. }
    destruct (Paragraphs sec !! Z.to_nat (j + 1)) as [q|] eqn:Hq.
    + rewrite (get_paragraph_text_ok h' _ j si _ q Hs') by (lia || exact Hl).
      reflexivity.
    + rewrite (get_paragraph_text_range h' _ j si _ Hs').
      * now rewrite (Count_RemoveAt _ _ _ Hp).
      * rewrite (Count_RemoveAt _ _ _ Hp). apply lookup_ge_None in Hq.
        unfold Count. lia.
  - intros j Hj.
    assert (Hlt : (Z.to_nat j < length (Paragraphs sec))%nat).
    { apply lookup_lt_Some in Hp. lia. }
    destruct (lookup_lt_is_Some_2 _ _ Hlt) as [q Hq].
    rewrite (get_paragraph_text_ok h w j si sec q Hs) by (lia || exact Hq).
    rewrite (get_paragraph_text_ok h' _ j si _ q Hs'); [reflexivity | lia |].
    unfold ParagraphHandler.RemoveAt. simpl.
    rewrite list_lookup_delete_lt by lia. exact Hq.
  - destruct (document_with_section h si sec (ParagraphHandler.RemoveAt i sec) Hs)
      as [d' Hd'].
    exists d'. split; [exact Hd'|]. simpl.
    change (doc_path h) with (doc_path h').
    now rewrite (LoadFromFile_saved h' w d' Hd').
Qed.

(** The theorem at the middle paragraph of the document with three paragraphs. *)
Lemma delete_paragraph_shifts_indices_witness :
  section_of example_handler3 0 = Some three_paragraphs /\
  can_save example_world (doc_path example_handler3) = true /\
  exists s' : HState,
    ParagraphHandler.delete_paragraph 1 0 (example_handler3, example_world)
    = (Return (ParagraphHandler.mkDeleteResult 0 1 "B"), s') /\
    fst (ParagraphHandler.get_paragraph_text 1 0 s')
    = Return (ParagraphHandler.mkTextResult 0 1 "C") /\
    fst (ParagraphHandler.get_paragraph_text 2 0 s') = Raise (read_range_error 2 0 2).
Proof.
  assert (Hs : section_of example_handler3 0 = Some three_paragraphs) by reflexivity.
  assert (Hw : can_save example_world (doc_path example_handler3) = true)
    by (vm_compute; reflexivity).
  split; [exact Hs|]. split; [exact Hw|].
  destruct (delete_paragraph_shifts_indices example_handler3 example_world 0 1
              three_paragraphs (par "B") Hs ltac:(lia) eq_refl Hw)
    as (s' & Hdel & Hshift & _).
  exists s'. split; [exact Hdel|]. split.
  - exact (Hshift 1 ltac:(lia)).
  - exact (Hshift 2 ltac:(lia)).
Defined.

(** ** Adding paragraphs (C5) *)

Lemma alter_insert_at {A} (f : A -> A) (i : nat) (x : A) (l : list A) :
  (i <= length l)%nat -> alter f i (insert_at i x l) = insert_at i (f x) l.
Proof.
  unfold insert_at. revert l. induction i as [|i IH]; intros l Hl.
  - reflexivity.
  - destruct l as [|a l]; simpl in *; [lia|].
    f_equal. apply IH. lia.
Qed.

Lemma lookup_insert_at {A} (i : nat) (x : A) (l : list A) :
  (i <= length l)%nat -> insert_at i x l !! i = Some x.
Proof.
  intros Hl. unfold insert_at. apply list_lookup_middle.
  rewrite length_take. lia.
Qed.

Lemma length_insert_at {A} (i : nat) (x : A) (l : list A) :
  length (insert_at i x l) = S (length l).
Proof.
  unfold insert_at. rewrite length_app. simpl.
  rewrite length_take, length_drop. lia.
Qed.

Lemma alter_snoc {A} (f : A -> A) (l : list A) (x : A) :
  alter f (length l) (l ++ [x])%list = (l ++ [f x])%list.
Proof. induction l as [|a l IH]; simpl; [reflexivity | f_equal; exact IH]. Qed.

Lemma add_paragraph_ok (h : Handler) (w : World) (text : string) (si : Z)
    (idx : option Z) (sec : Section) :
  section_of h si = Some sec -> can_save w (doc_path h) = true ->
  (forall i, idx = Some i -> 0 <= i <= Count (Paragraphs sec)) ->
  let h' := with_section h si
              (set_Paragraphs (added_paragraphs (Paragraphs sec) text idx) sec) in
  ParagraphHandler.add_paragraph text si idx (h, w)
  = (Return (ParagraphHandler.mkAddResult si (added_index (Paragraphs sec) idx) text
               (Count (Paragraphs sec) + 1)),
     (h', saved h' w)).
Proof.
  intros Hs Hw Hidx h'. unfold ParagraphHandler.add_paragraph.
  unfold try_except, bind at 1.
  rewrite (_validate_section_index_ok _ _ _ _ Hs).
  unfold bind at 1. rewrite (get_section_ok _ _ _ _ Hs).
  destruct (document_with_section h si sec
              (set_Paragraphs (added_paragraphs (Paragraphs sec) text idx) sec) Hs)
    as [d' Hd']. fold h' in Hd'.
  destruct idx as [i|].
  - specialize (Hidx i eq_refl).
    unfold bind at 1. unfold raise_if.
    destruct (Z.ltb_spec i 0); [lia|].
    destruct (Z.gtb_spec i (Count (Paragraphs sec))); [lia|]. cbn [orb].
    unfold ret at 1.
    unfold ParagraphHandler.AddParagraph, ParagraphHandler.Insert.
    cbn [Paragraphs set_Paragraphs Tables].
    rewrite list_lookup_middle by reflexivity.
    rewrite delete_middle, app_nil_r.
    unfold ParagraphHandler.set_Text. cbn [Paragraphs set_Paragraphs Tables].
    rewrite alter_insert_at by (unfold Count in *; lia).
    cbn [Text Format new_paragraph]. cbv beta iota.
    unfold bind. rewrite (update_section_ok _ _ _ _ _ Hs).
    change (with_section h si _) with h'.
    rewrite (save_document_saved h' w d' Hd') by exact Hw.
    unfold ret. repeat f_equal.
    unfold Count. rewrite length_insert_at. lia.
  - unfold bind at 1. unfold ret at 1.
    unfold ParagraphHandler.AddParagraph.
    cbn [Paragraphs set_Paragraphs Tables].
    unfold ParagraphHandler.set_Text. cbn [Paragraphs set_Paragraphs Tables].
    rewrite alter_snoc. cbn [Text Format new_paragraph].
    unfold bind. rewrite (update_section_ok _ _ _ _ _ Hs).
    change (with_section h si _) with h'.
    rewrite (save_document_saved h' w d' Hd') by exact Hw.
    unfold ret. repeat f_equal.
    + unfold added_index, Count. rewrite length_app. simpl. lia.
    + unfold Count. rewrite length_app. simpl. lia.
Qed.

Lemma add_paragraph_bad_index (h : Handler) (w : World) (text : string) (si i : Z)
    (sec : Section) :
  section_of h si = Some sec -> (i < 0 \/ Count (Paragraphs sec) < i) ->
  ParagraphHandler.add_paragraph text si (Some i) (h, w)
  = (Raise (add_index_error i), (h, w)).
Proof.
  intros Hs Hi. unfold ParagraphHandler.add_paragraph.
  unfold try_except, bind at 1.
  rewrite (_validate_section_index_ok _ _ _ _ Hs).
  unfold bind at 1. rewrite (get_section_ok _ _ _ _ Hs).
  unfold bind at 1. unfold raise_if.
  destruct (Z.ltb_spec i 0); [reflexivity|].
  destruct (Z.gtb_spec i (Count (Paragraphs sec))); [reflexivity | lia].
Qed.

Lemma can_save_saved (h : Handler) (w : World) (d : Document) :
  document h = Some d -> can_save (saved h w) (doc_path h) = true.
Proof. intros Hd. unfold saved. rewrite Hd. apply can_save_write_file. Qed.

Lemma lookup_added (ps : list Paragraph) (text : string) (idx : option Z) :
  (forall i, idx = Some i -> 0 <= i <= Count ps) ->
  added_paragraphs ps text idx !! Z.to_nat (added_index ps idx)
  = Some (mkParagraph text default_format).
Proof.
  intros Hidx. destruct idx as [i|]; simpl.
  - specialize (Hidx i eq_refl). apply lookup_insert_at. unfold Count in Hidx. lia.
  - apply list_lookup_middle. unfold Count. lia.
Qed.

(** C5: with an explicit index, [add_paragraph] fails for an index outside
    [0 .. count] and changes nothing; otherwise it returns the index at
    which the new paragraph is read afterwards, the index given or, without
    one, the end of the section. In particular, on a section without
    paragraphs, after adding "Hello" at the default position and "World" at
    index 0, paragraph 0 reads "World" and paragraph 1 reads "Hello". *)
Theorem add_paragraph_returns_actual_index (h : Handler) (w : World) (si : Z)
    (sec : Section) :
  section_of h si = Some sec -> can_save w (doc_path h) = true ->
  (forall (text : string) (i : Z),
     i < 0 \/ Count (Paragraphs sec) < i ->
     ParagraphHandler.add_paragraph text si (Some i) (h, w)
     = (Raise (add_index_error i), (h, w))) /\
  (forall (text : string) (idx : option Z),
     (forall i, idx = Some i -> 0 <= i <= Count (Paragraphs sec)) ->
     exists (r : ParagraphHandler.AddResult) (s' : HState),
       ParagraphHandler.add_paragraph text si idx (h, w) = (Return r, s') /\
       ParagraphHandler.ar_paragraph_index r = added_index (Paragraphs sec) idx /\
       section_of (fst s') si
       = Some (set_Paragraphs (added_paragraphs (Paragraphs sec) text idx) sec) /\
       fst (ParagraphHandler.get_paragraph_text
              (ParagraphHandler.ar_paragraph_index r) si s')
       = Return (ParagraphHandler.mkTextResult si
                   (ParagraphHandler.ar_paragraph_index r) text)) /\
  (Paragraphs sec = [] ->
   fst ((let! _ := ParagraphHandler.add_paragraph "Hello" si None in
         let! _ := ParagraphHandler.add_paragraph "World" si (Some 0) in
         let! a := ParagraphHandler.get_paragraph_text 0 si in
         let! b := ParagraphHandler.get_paragraph_text 1 si in
         ret (ParagraphHandler.tr_text a, ParagraphHandler.tr_text b)) (h, w))
   = Return ("World", "Hello")).
Proof.
  intros Hs Hw. split; [|split].
  - intros text i Hi. exact (add_paragraph_bad_index h w text si i sec Hs Hi).
  - intros text idx Hidx.
    set (sec' := set_Paragraphs (added_paragraphs (Paragraphs sec) text idx) sec).
    assert (Hs' : section_of (with_section h si sec') si = Some sec')
      by (apply (section_of_with_section h si sec sec' Hs)).
    eexists. eexists. split; [apply (add_paragraph_ok h w text si idx sec Hs Hw Hidx)|].
    cbn [ParagraphHandler.ar_paragraph_index fst]. fold sec'.
    split; [reflexivity|]. split; [exact Hs'|].
    rewrite (get_paragraph_text_ok _ _ _ si sec' (mkParagraph text default_format) Hs').
    + reflexivity.
    + destruct idx as [i|]; simpl; [apply (Hidx i eq_refl) | apply Count_nonneg].
    + apply lookup_added. exact Hidx.
  - intros Hempty.
    set (sec1 := set_Paragraphs (added_paragraphs (Paragraphs sec) "Hello" None) sec).
    set (h1 := with_section h si sec1).
    assert (Hs1 : section_of h1 si = Some sec1)
      by (apply (section_of_with_section h si sec sec1 Hs)).
    destruct (document_with_section h si sec sec1 Hs) as [d1 Hd1]. fold h1 in Hd1.
    assert (Hw1 : can_save (saved h1 w) (doc_path h1) = true)
      by (eapply can_save_saved; eauto).
    set (sec2 := set_Paragraphs (added_paragraphs (Paragraphs sec1) "World" (Some 0)) sec1).
    set (h2 := with_section h1 si sec2).
    assert (Hs2 : section_of h2 si = Some sec2)
      by (apply (section_of_with_section h1 si sec1 sec2 Hs1)).
    assert (Hp2 : Paragraphs sec2
                  = [mkParagraph "World" default_format; mkParagraph "Hello" default_format]).
    { unfold sec2, sec1. simpl. rewrite Hempty. reflexivity. }
    unfold bind at 1.
    rewrite (add_paragraph_ok h w "Hello" si None sec Hs Hw) by discriminate.
    fold sec1. fold h1.
    unfold bind at 1.
    rewrite (add_paragraph_ok h1 _ "World" si (Some 0) sec1 Hs1 Hw1).
    2:{ intros i [= <-]. pose proof (Count_nonneg (Paragraphs sec1)). lia. }
    fold sec2. fold h2.
    unfold bind at 1.
    rewrite (get_paragraph_text_ok h2 _ 0 si sec2 (mkParagraph "World" default_format) Hs2)
      by (lia || (rewrite Hp2; reflexivity)).
    unfold bind at 1.
    rewrite (get_paragraph_text_ok h2 _ 1 si sec2 (mkParagraph "Hello" default_format) Hs2)
      by (lia || (rewrite Hp2; reflexivity)).
    reflexivity.
Qed.

(** The theorem at the example document, whose only section has no paragraph. *)
Lemma add_paragraph_returns_actual_index_witness :
  section_of example_handler 0 = Some (mkSection [] []) /\
  can_save example_world (doc_path example_handler) = true /\
  fst ((let! _ := ParagraphHandler.add_paragraph "Hello" 0 None in
        let! _ := ParagraphHandler.add_paragraph "World" 0 (Some 0) in
        let! a := ParagraphHandler.get_paragraph_text 0 0 in
        let! b := ParagraphHandler.get_paragraph_text 1 0 in
        ret (ParagraphHandler.tr_text a, ParagraphHandler.tr_text b))
         (example_handler, example_world))
  = Return ("World", "Hello").
Proof.
  assert (Hs : section_of example_handler 0 = Some (mkSection [] [])) by reflexivity.
  assert (Hw : can_save example_world (doc_path example_handler) = true)
    by (vm_compute; reflexivity).
  split; [exact Hs|]. split; [exact Hw|].
  destruct (add_paragraph_returns_actual_index example_handler example_world 0
              (mkSection [] []) Hs Hw) as (_ & _ & H).
  apply H. reflexivity.
Defined.

(** ** Validation before mutation (C2) *)

Section FormatFacts.
Variable float_repr : spec_float -> string.

Lemma validate_enum_ok {S} (what : string) (valid : list string) (v : option PyVal) (s : S) :
  bad_enum valid v = false ->
  FormatHandler.validate_enum float_repr what valid v s = (Return tt, s).
Proof.
  unfold bad_enum, FormatHandler.validate_enum.
  destruct v as [[]|]; try discriminate; [|reflexivity].
  intros H. unfold bind, FormatHandler.py_lower, ret, raise_if. now rewrite H.
Qed.

Lemma validate_enum_fail {S} (what : string) (valid : list string) (v : option PyVal) (s : S) :
  bad_enum valid v = true ->
  exists e, FormatHandler.validate_enum float_repr what valid v s = (Raise e, s).
Proof.
  unfold bad_enum, FormatHandler.validate_enum.
  destruct v as [[]|]; try discriminate; intros H;
    unfold bind, FormatHandler.py_lower, ret, raise, raise_if; try rewrite H; eauto.
Qed.

Lemma validate_number_ok {S} (param : string) (v : option PyVal) (s : S) :
  bad_number v = false ->
  FormatHandler.validate_number float_repr param v s = (Return tt, s).
Proof.
  unfold bad_number, FormatHandler.validate_number.
  destruct v as [x|]; [|reflexivity].
  intros H. apply orb_false_elim in H as [H1 H2].
  unfold bind, ret, raise_if. now rewrite H1, H2.
Qed.

Lemma validate_number_fail {S} (param : string) (v : option PyVal) (s : S) :
  bad_number v = true ->
  exists e, FormatHandler.validate_number float_repr param v s = (Raise e, s).
Proof.
  unfold bad_number, FormatHandler.validate_number.
  destruct v as [x|]; [|discriminate].
  intros H. unfold bind, ret, raise, raise_if.
  destruct (negb (is_number x)); [eauto|].
  simpl in H. rewrite H. eauto.
Qed.

(** Rejected arguments make the validation raise, in the state it was
    called in. *)
Lemma _validate_formatting_parameters_fail {S} (a : FormatHandler.Args) (s : S) :
  invalid_args a = true ->
  exists e, FormatHandler._validate_formatting_parameters float_repr a s = (Raise e, s).
Proof.
  unfold invalid_args, FormatHandler._validate_formatting_parameters. intros H.
  destruct (bad_enum FormatHandler.valid_alignments (FormatHandler.alignment a)) eqn:E1.
  { destruct (validate_enum_fail "alignment" _ _ s E1) as [e He].
    exists e. unfold bind at 1. now rewrite He. }
  unfold bind at 1. rewrite (validate_enum_ok "alignment" _ _ s E1).
  destruct (bad_enum FormatHandler.valid_rules (FormatHandler.line_spacing_rule a)) eqn:E2.
  { destruct (validate_enum_fail "line spacing rule" _ _ s E2) as [e He].
    exists e. unfold bind at 1. now rewrite He. }
  unfold bind at 1. rewrite (validate_enum_ok "line spacing rule" _ _ s E2).
  destruct (bad_number (FormatHandler.first_line_indent a)) eqn:E3.
  { destruct (validate_number_fail "first_line_indent" _ s E3) as [e He].
    exists e. unfold bind at 1. now rewrite He. }
  unfold bind at 1. rewrite (validate_number_ok "first_line_indent" _ s E3).
  destruct (bad_number (FormatHandler.left_indent a)) eqn:E4.
  { destruct (validate_number_fail "left_indent" _ s E4) as [e He].
    exists e. unfold bind at 1. now rewrite He. }
  unfold bind at 1. rewrite (validate_number_ok "left_indent" _ s E4).
  destruct (bad_number (FormatHandler.right_indent a)) eqn:E5.
  { destruct (validate_number_fail "right_indent" _ s E5) as [e He].
    exists e. unfold bind at 1. now rewrite He. }
  unfold bind at 1. rewrite (validate_number_ok "right_indent" _ s E5).
  destruct (bad_number (FormatHandler.line_spacing a)) eqn:E6.
  { destruct (validate_number_fail "line_spacing" _ s E6) as [e He].
    exists e. unfold bind at 1. now rewrite He. }
  unfold bind at 1. rewrite (validate_number_ok "line_spacing" _ s E6).
  destruct (bad_number (FormatHandler.before_spacing a)) eqn:E7.
  { destruct (validate_number_fail "before_spacing" _ s E7) as [e He].
    exists e. unfold bind at 1. now rewrite He. }
  unfold bind at 1. rewrite (validate_number_ok "before_spacing" _ s E7).
  destruct (bad_number (FormatHandler.after_spacing a)) eqn:E8.
  { apply (validate_number_fail "after_spacing" _ s E8). }
  discriminate H.
Qed.

(** C2, amended: when a numeric argument is negative or not a number, or
    the alignment or the line spacing rule, in lower case, is not in its
    enumeration, [format_paragraph] raises [DocumentError] and leaves the
    handler's document and the files as they were: every supplied argument
    is validated before the first assignment. *)
Theorem format_paragraph_validates_first (i : Z) (a : FormatHandler.Args)
    (h : Handler) (w : World) :
  invalid_args a = true ->
  exists e : Exn,
    FormatHandler.format_paragraph float_repr i a (h, w) = (Raise e, (h, w))
    /\ exn_class e = ClsDocumentError.
Proof.
  intros Hbad. unfold FormatHandler.format_paragraph.
  unfold try_except, bind at 1.
  destruct (_validate_paragraph_index_state h w i 0) as [Hok | (e & He & Hc)].
  - rewrite Hok. unfold bind at 1.
    destruct (_validate_formatting_parameters_fail (S := HState) a (h, w) Hbad)
      as [e He].
    rewrite He.
    destruct (isinstance e ClsDocumentError) eqn:Hi.
    + exists e. split; [reflexivity|].
      unfold isinstance, ExnClass_eqb in Hi.
      destruct (exn_class e); (reflexivity || discriminate).
    + eexists. split; reflexivity.
  - rewrite He.
    assert (Hi : isinstance e ClsDocumentError = true)
      by (unfold isinstance; now rewrite Hc).
    rewrite Hi. exists e. split; [reflexivity | exact Hc].
Qed.

End FormatFacts.

(** C2, the claim as it stands fails for an alignment written in another
    case: "CENTER" is not one of the four names, yet [format_paragraph]
    accepts it and centres the paragraph. *)
Lemma format_paragraph_accepts_upper_case :
  PyStr.mem "CENTER" FormatHandler.valid_alignments = false /\
  match fst (FormatHandler.format_paragraph example_float_repr 0
               (only_alignment (PyStr "CENTER")) (example_handler3, example_world)) with
  | Return r =>
      fmt_HorizontalAlignment (FormatHandler.fr_original_formatting r) = Left /\
      fmt_HorizontalAlignment (FormatHandler.fr_current_formatting r) = Center
  | Raise _ => False
  end.
Proof. vm_compute. repeat split. Qed.

(** The theorem at a left indent of -5 on the document with three paragraphs. *)
Lemma format_paragraph_validates_first_witness :
  invalid_args (only_left_indent (PyInt (-5))) = true /\
  exists e : Exn,
    FormatHandler.format_paragraph example_float_repr 0
      (only_left_indent (PyInt (-5))) (example_handler3, example_world)
    = (Raise e, (example_handler3, example_world))
    /\ exn_class e = ClsDocumentError.
Proof.
  split; [reflexivity|].
  apply (format_paragraph_validates_first example_float_repr 0
           (only_left_indent (PyInt (-5))) example_handler3 example_world).
  reflexivity.
Defined.

(** ** Table dimensions (C6) *)

Lemma table_error_wrap (e : Exn) :
  exn_class e = ClsDocumentError -> isinstance e ClsTableError = false.
Proof. intros H. unfold isinstance. now rewrite H. Qed.

Lemma out_of_range_dimension_error {S A} (rows columns : Z) (s : S) (k : M S A) :
  out_of_range rows columns = true ->
  (raise_if ((rows <=? 0) || (columns <=? 0))
     (TableError "Table dimensions must be positive" "TABLE_CREATE_ERROR");;
   raise_if ((rows >? 1000) || (columns >? 100))
     (TableError "Table dimensions too large (max: 1000 rows, 100 columns)"
        "TABLE_CREATE_ERROR");; k) s
  = (Raise (dimension_error rows columns), s).
Proof.
  unfold out_of_range, dimension_error, bind, raise_if, raise, ret.
  destruct ((rows <=? 0) || (columns <=? 0))%bool; [reflexivity|]. simpl.
  intros ->. reflexivity.
Qed.

Section TableFacts.
Variable known_style : string -> bool.

Lemma create_table_rejects (rows columns si : Z) (pi : option Z)
    (style : option string) (h : Handler) (w : World) :
  out_of_range rows columns = true ->
  exists e : Exn,
    TableHandler.create_table known_style rows columns si pi style (h, w)
    = (Raise e, (h, w))
    /\ exn_class e = ClsTableError /\ exn_code e = "TABLE_CREATE_ERROR"
    /\ (forall sec, section_of h si = Some sec ->
         (forall p, pi = Some p -> 0 <= p < Count (Paragraphs sec)) ->
         e = dimension_error rows columns).
Proof.
  intros Hbad. unfold TableHandler.create_table. unfold try_except, bind at 1.
  destruct (section_of h si) as [sec|] eqn:Hs.
  - rewrite (_validate_section_index_ok _ _ _ _ Hs).
    unfold bind at 1. rewrite (get_section_ok _ _ _ _ Hs).
    unfold bind at 1.
    destruct pi as [p|].
    + destruct (_validate_paragraph_index_state h w p si) as [Hok | (e & He & Hc)].
      * rewrite Hok. cbv beta iota.
        rewrite (out_of_range_dimension_error (S := HState) _ _ _ _ Hbad).
        exists (dimension_error rows columns).
        unfold dimension_error. destruct ((rows <=? 0) || (columns <=? 0))%bool;
          repeat split; reflexivity.
      * rewrite He. rewrite (table_error_wrap e Hc).
        eexists. split; [reflexivity|]. split; [reflexivity|]. split; [reflexivity|].
        intros sec' [= <-] Hp.
        rewrite (_validate_paragraph_index_ok h w p si sec Hs (Hp p eq_refl)) in He.
        discriminate He.
    + unfold ret at 1. cbv beta iota.
      rewrite (out_of_range_dimension_error (S := HState) _ _ _ _ Hbad).
      exists (dimension_error rows columns).
      unfold dimension_error. destruct ((rows <=? 0) || (columns <=? 0))%bool;
        repeat split; reflexivity.
  - destruct (_validate_section_index_fail h w si Hs) as (e & He & Hc).
    rewrite He. rewrite (table_error_wrap e Hc).
    eexists. split; [reflexivity|]. split; [reflexivity|]. split; [reflexivity|].
    intros sec' [=].
Qed.

(** C6: for rows outside [1, 1000] or columns outside [1, 100],
    [create_table] raises [TableError] with the code [TABLE_CREATE_ERROR],
    and the handler's document and the files are as before: no table was
    added and nothing was saved; when the section and paragraph indices are
    valid the error is the one of the dimension check. Hence a call that
    succeeds has its dimensions in these ranges. *)
Theorem create_table_dimension_limits (rows columns si : Z) (pi : option Z)
    (style : option string) (h : Handler) (w : World) :
  (~ (1 <= rows <= 1000 /\ 1 <= columns <= 100) ->
   exists e : Exn,
     TableHandler.create_table known_style rows columns si pi style (h, w)
     = (Raise e, (h, w))
     /\ exn_class e = ClsTableError /\ exn_code e = "TABLE_CREATE_ERROR"
     /\ (forall sec, section_of h si = Some sec ->
          (forall p, pi = Some p -> 0 <= p < Count (Paragraphs sec)) ->
          e = dimension_error rows columns))
  /\ (forall (r : TableHandler.CreateResult) (s' : HState),
       TableHandler.create_table known_style rows columns si pi style (h, w)
       = (Return r, s') ->
       1 <= rows <= 1000 /\ 1 <= columns <= 100).
Proof.
  assert (Hdec : ~ (1 <= rows <= 1000 /\ 1 <= columns <= 100) ->
                 out_of_range rows columns = true).
  { intros Hn. unfold out_of_range.
    destruct (Z.leb_spec rows 0), (Z.leb_spec columns 0),
      (Z.gtb_spec rows 1000), (Z.gtb_spec columns 100); simpl; try reflexivity.
    exfalso. apply Hn. lia. }
  split.
  - intros Hn. apply create_table_rejects. auto.
  - intros r s' Hr.
    destruct (Z.le_gt_cases 1 rows), (Z.le_gt_cases rows 1000),
      (Z.le_gt_cases 1 columns), (Z.le_gt_cases columns 100); try lia;
      (destruct (create_table_rejects rows columns si pi style h w) as (e & He & _);
       [apply Hdec; lia | rewrite He in Hr; discriminate Hr]).
Qed.

End TableFacts.

(** The theorem at zero rows. *)
Lemma create_table_dimension_limits_witness :
  ~ (1 <= 0 <= 1000 /\ 1 <= 5 <= 100) /\
  exists e : Exn,
    TableHandler.create_table no_style 0 5 0 None None
      (example_handler_table, example_world)
    = (Raise e, (example_handler_table, example_world))
    /\ exn_class e = ClsTableError /\ exn_code e = "TABLE_CREATE_ERROR".
Proof.
  assert (Hn : ~ (1 <= 0 <= 1000 /\ 1 <= 5 <= 100)) by lia.
  split; [exact Hn|].
  destruct (create_table_dimension_limits no_style 0 5 0 None None
              example_handler_table example_world) as (H & _).
  destruct (H Hn) as (e & He & Hc & Hcode & _).
  exists e. auto.
Defined.

(** ** Cell coordinates (C8) *)

Lemma get_table_info_ok (h : Handler) (w : World) (ti si : Z) (sec : Section) (t : Table) :
  section_of h si = Some sec -> 0 <= ti -> Tables sec !! Z.to_nat ti = Some t ->
  TableHandler.get_table_info ti si (h, w)
  = (Return (TableHandler.mkTableInfo ti si (Count (Rows t)) (TableHandler.columns_of t)
               (Count (Rows t) * TableHandler.columns_of t)), (h, w)).
Proof.
  intros Hs Hti Ht. unfold TableHandler.get_table_info.
  unfold try_except, bind at 1.
  rewrite (_validate_section_index_ok _ _ _ _ Hs).
  unfold bind at 1. rewrite (get_section_ok _ _ _ _ Hs).
  unfold bind at 1. unfold raise_if.
  destruct (Z.ltb_spec ti 0); [lia|].
  destruct (Z.geb_spec ti (Count (Tables sec))) as [Hge|Hlt].
  { apply lookup_lt_Some in Ht. unfold Count in Hge. lia. }
  cbn [orb]. unfold ret at 1. unfold bind, item.
  destruct (Z.ltb_spec ti 0); [lia|]. rewrite Ht. reflexivity.
Qed.

(** C8: for a row or a column outside the extent of the table, rows
    counted by its row count and columns by the cells of its row 0,
    [set_cell_text] raises [TableError] for the offending index, and the
    handler's document and the files are as before: no cell was changed
    and nothing was saved. *)
Theorem set_cell_text_outside_extent (h : Handler) (w : World) (ti row column si : Z)
    (text : string) (sec : Section) (t : Table) :
  section_of h si = Some sec -> 0 <= ti -> Tables sec !! Z.to_nat ti = Some t ->
  outside_extent t row column = true ->
  TableHandler.set_cell_text ti row column text si (h, w)
  = (Raise (cell_index_error t row column), (h, w))
  /\ exn_class (cell_index_error t row column) = ClsTableError.
Proof.
  intros Hs Hti Ht Hout. split.
  - unfold TableHandler.set_cell_text. unfold try_except, bind at 1.
    rewrite (get_table_info_ok _ _ _ _ _ _ Hs Hti Ht).
    cbn [TableHandler.ti_rows TableHandler.ti_columns].
    unfold cell_index_error, outside_extent in *.
    unfold bind, raise_if, raise, ret.
    destruct ((row <? 0) || (row >=? Count (Rows t)))%bool; [reflexivity|].
    simpl in Hout. rewrite Hout. reflexivity.
  - unfold cell_index_error.
    destruct ((row <? 0) || (row >=? Count (Rows t)))%bool; reflexivity.
Qed.

(** The theorem at row 5 of the table with three rows. *)
Lemma set_cell_text_outside_extent_witness :
  section_of example_handler_table 0 = Some (mkSection [par "A"] [table_3x2]) /\
  outside_extent table_3x2 5 0 = true /\
  TableHandler.set_cell_text 0 5 0 "x" 0 (example_handler_table, example_world)
  = (Raise (TableError "Invalid row index: 5" "TABLE_CELL_ERROR"),
     (example_handler_table, example_world)).
Proof.
  split; [reflexivity|]. split; [reflexivity|].
  apply (set_cell_text_outside_extent example_handler_table example_world 0 5 0 0 "x"
           (mkSection [par "A"] [table_3x2]) table_3x2);
    [reflexivity | lia | reflexivity | reflexivity].
Defined.

(** ** The index [create_table] reports (C10) *)

Lemma save_document_fail (h : Handler) (w : World) (d : Document) :
  document h = Some d -> can_save w (doc_path h) = false ->
  exists e, save_document (h, w) = (Raise e, (h, w)).
Proof.
  intros Hd Hs. unfold save_document. munfold. rewrite Hd.
  unfold SaveToFile. unfold can_save in Hs.
  destruct (files w !! abspath w (doc_path h)) as [f|]; [|discriminate].
  rewrite Hs. eauto.
Qed.

Lemma _validate_paragraph_index_inv (h : Handler) (w : World) (p si : Z)
    (sec : Section) (s : HState) :
  section_of h si = Some sec ->
  _validate_paragraph_index p si (h, w) = (Return tt, s) ->
  0 <= p < Count (Paragraphs sec).
Proof.
  intros Hs Hv.
  destruct (Z.ltb_spec p 0) as [Hneg|Hpos].
  - exfalso. revert Hv. unfold _validate_paragraph_index.
    unfold bind at 1. rewrite (_validate_section_index_ok _ _ _ _ Hs).
    unfold bind at 1. unfold raise_if at 1.
    destruct (Z.ltb_spec p 0); [|lia]. unfold raise. discriminate.
  - destruct (Z.ltb_spec p (Count (Paragraphs sec))); [lia|].
    rewrite (_validate_paragraph_index_range h w p si sec Hs) in Hv by lia.
    discriminate Hv.
Qed.

Lemma insert_at_length {A} (x : A) (l : list A) :
  insert_at (length l) x l = (l ++ [x])%list.
Proof. unfold insert_at. now rewrite take_ge, drop_ge by lia. Qed.

Lemma insert_insert_at {A} (i : nat) (x y : A) (l : list A) :
  (i <= length l)%nat -> <[i := y]> (insert_at i x l) = insert_at i y l.
Proof.
  unfold insert_at. revert l. induction i as [|i IH]; intros l Hl.
  - reflexivity.
  - destruct l as [|a l]; simpl in *; [lia|]. f_equal. apply IH. lia.
Qed.

Lemma lookup_insert_at_gt {A} (i j : nat) (x : A) (l : list A) :
  (i <= length l)%nat -> (i < j)%nat -> insert_at i x l !! j = l !! (j - 1)%nat.
Proof.
  intros Hl Hj. unfold insert_at.
  rewrite lookup_app_r by (rewrite length_take; lia).
  rewrite length_take, Nat.min_l by lia.
  destruct (j - i)%nat as [|k] eqn:E; [lia|]. simpl.
  rewrite lookup_drop. f_equal. lia.
Qed.

Lemma created_position_le (sec : Section) (pi : option Z) :
  (created_position sec pi <= length (Tables sec))%nat.
Proof. unfold created_position, Count. destruct pi; lia. Qed.

Section CreateFacts.
Variable known_style : string -> bool.

Lemma apply_style_best_effort_run {S} (style : option string) (t : Table) (s : S) :
  TableHandler.apply_style_best_effort known_style style t s
  = (Return (match style with
             | Some st =>
                 if String.eqb st "" then t
                 else if known_style st then mkTable (Rows t) (Some st) else t
             | None => t
             end), s).
Proof.
  unfold TableHandler.apply_style_best_effort, TableHandler.ApplyStyle.
  destruct style as [st|]; [|reflexivity].
  destruct (String.eqb st ""); [reflexivity|].
  unfold try_except. destruct (known_style st); reflexivity.
Qed.

(** Once its checks have passed, [create_table] puts the new table into
    the handler's document; the outcome then depends on the save alone. *)
Lemma create_table_run (rows columns si : Z) (pi : option Z) (style : option string)
    (h : Handler) (w : World) (sec : Section) :
  section_of h si = Some sec ->
  (forall p, pi = Some p -> 0 <= p < Count (Paragraphs sec)) ->
  out_of_range rows columns = false ->
  let tables' := created_tables known_style sec rows columns pi style in
  let h' := with_section h si (set_Tables tables' sec) in
  (can_save w (doc_path h) = true ->
   TableHandler.create_table known_style rows columns si pi style (h, w)
   = (Return (TableHandler.mkCreateResult (Count tables' - 1) si pi rows columns style
                (Count tables')), (h', saved h' w)))
  /\ (can_save w (doc_path h) = false ->
      exists e, TableHandler.create_table known_style rows columns si pi style (h, w)
                = (Raise e, (h', w))).
Proof.
  intros Hs Hp Hdim tables' h'.
  assert (Hrun : TableHandler.create_table known_style rows columns si pi style (h, w)
                 = try_except
                     (save_document;;
                      ret (TableHandler.mkCreateResult (Count tables' - 1) si pi rows
                             columns style (Count tables')))
                     (fun e =>
                        if isinstance e ClsTableError then raise e
                        else raise (TableError ("Failed to create table: " ++ exn_message e)
                                      "TABLE_CREATE_ERROR")) (h', w)).
  { unfold TableHandler.create_table. unfold try_except, bind at 1.
    rewrite (_validate_section_index_ok _ _ _ _ Hs).
    unfold bind at 1. rewrite (get_section_ok _ _ _ _ Hs).
    unfold bind at 1.
    assert (Hv : (match pi with
                  | Some p => _validate_paragraph_index p si
                  | None => ret tt
                  end) (h, w) = (Return tt, (h, w))).
    { destruct pi as [p|]; [|reflexivity].
      apply (_validate_paragraph_index_ok h w p si sec Hs (Hp p eq_refl)). }
    rewrite Hv. clear Hv.
    unfold out_of_range in Hdim.
    apply orb_false_elim in Hdim as [Hdim H4].
    apply orb_false_elim in Hdim as [Hdim H3].
    rewrite Hdim. unfold bind at 1. unfold raise_if at 1. unfold ret at 1.
    rewrite H3, H4. unfold bind at 1. unfold raise_if at 1. cbn [orb]. unfold ret at 1.
    assert (Ht1 : (match pi with
                   | Some p =>
                       (insert_at (Z.to_nat (Z.min (p + 1) (Count (Tables sec))))
                          (TableHandler.ResetCells rows columns TableHandler.new_table)
                          (Tables sec),
                        Z.to_nat (Z.min (p + 1) (Count (Tables sec))))
                   | None =>
                       ((Tables sec ++ [TableHandler.ResetCells rows columns
                                          TableHandler.new_table])%list,
                        length (Tables sec))
                   end)
                  = (insert_at (created_position sec pi)
                       (TableHandler.ResetCells rows columns TableHandler.new_table)
                       (Tables sec),
                     created_position sec pi)).
    { destruct pi; simpl; [reflexivity | now rewrite insert_at_length]. }
    rewrite Ht1. clear Ht1.
    pose proof (created_position_le sec pi) as Hle.
    unfold bind at 1. unfold item.
    destruct (Z.ltb_spec (Z.of_nat (created_position sec pi)) 0); [lia|].
    rewrite Nat2Z.id, lookup_insert_at by exact Hle.
    unfold ret at 1. unfold bind at 1.
    rewrite apply_style_best_effort_run.
    rewrite insert_insert_at by exact Hle.
    fold (created_table known_style rows columns style).
    fold (created_tables known_style sec rows columns pi style). fold tables'.
    unfold bind at 1. rewrite (update_section_ok _ _ _ _ _ Hs). fold h'.
    reflexivity. }
  destruct (document_with_section h si sec (set_Tables tables' sec) Hs) as [d' Hd'].
  fold h' in Hd'.
  split; intros Hw; rewrite Hrun; unfold try_except, bind.
  - rewrite (save_document_saved h' w d' Hd') by exact Hw. reflexivity.
  - destruct (save_document_fail h' w d' Hd' Hw) as [e He]. rewrite He.
    destruct (isinstance e ClsTableError); eauto.
Qed.

Lemma create_table_invalid_index (rows columns si : Z) (pi : option Z)
    (style : option string) (h : Handler) (w : World) :
  (section_of h si = None \/
   exists sec p, section_of h si = Some sec /\ pi = Some p
                 /\ ~ 0 <= p < Count (Paragraphs sec)) ->
  exists e, TableHandler.create_table known_style rows columns si pi style (h, w)
            = (Raise e, (h, w)).
Proof.
  intros Hbad. unfold TableHandler.create_table. unfold try_except, bind at 1.
  destruct Hbad as [Hs | (sec & p & Hs & -> & Hp)].
  - destruct (_validate_section_index_fail h w si Hs) as (e & He & Hc).
    rewrite He. destruct (isinstance e ClsTableError); eauto.
  - rewrite (_validate_section_index_ok _ _ _ _ Hs).
    unfold bind at 1. rewrite (get_section_ok _ _ _ _ Hs).
    unfold bind at 1.
    destruct (_validate_paragraph_index_state h w p si) as [Hok | (e & He & Hc)].
    + exfalso. apply Hp. eapply _validate_paragraph_index_inv; eauto.
    + rewrite He. destruct (isinstance e ClsTableError); eauto.
Qed.

(** C10: a successful [create_table] returns as [table_index] the number
    of tables of the section minus one, which is the number of tables the
    section had before. With a paragraph index [p] the new table is
    inserted at position [min (p + 1) n] of the collection, [n] being the
    previous number of tables; when that position is before the end, the
    table at the returned index is the one that was last before the call,
    not the new one. *)
Theorem create_table_reports_last_index (rows columns si : Z) (pi : option Z)
    (style : option string) (h : Handler) (w : World)
    (r : TableHandler.CreateResult) (s' : HState) :
  TableHandler.create_table known_style rows columns si pi style (h, w) = (Return r, s') ->
  exists (sec : Section) (tables' : list Table),
    section_of h si = Some sec /\
    section_of (fst s') si = Some (set_Tables tables' sec) /\
    TableHandler.cr_table_index r = Count tables' - 1 /\
    TableHandler.cr_table_index r = Count (Tables sec) /\
    (pi = None ->
     tables' = (Tables sec ++ [created_table known_style rows columns style])%list) /\
    (forall p : Z, pi = Some p ->
       let k := Z.to_nat (Z.min (p + 1) (Count (Tables sec))) in
       tables' = insert_at k (created_table known_style rows columns style) (Tables sec)
       /\ tables' !! k = Some (created_table known_style rows columns style)
       /\ (p + 1 < Count (Tables sec) ->
           Z.to_nat (TableHandler.cr_table_index r) <> k /\
           tables' !! Z.to_nat (TableHandler.cr_table_index r)
           = Tables sec !! (length (Tables sec) - 1)%nat)).
Proof.
  intros Hr.
  destruct (section_of h si) as [sec|] eqn:Hs.
  2:{ destruct (create_table_invalid_index rows columns si pi style h w) as [e He];
        [left; exact Hs | rewrite He in Hr; discriminate Hr]. }
  assert (Hp : forall p, pi = Some p -> 0 <= p < Count (Paragraphs sec)).
  { intros p ->.
    destruct (Z.le_gt_cases 0 p), (Z.lt_ge_cases p (Count (Paragraphs sec))); try lia;
      (destruct (create_table_invalid_index rows columns si (Some p) style h w) as [e He];
       [right; exists sec, p; repeat split; auto; lia | rewrite He in Hr; discriminate Hr]). }
  assert (Hdim : out_of_range rows columns = false).
  { destruct (out_of_range rows columns) eqn:E; [|reflexivity].
    destruct (create_table_rejects known_style rows columns si pi style h w E)
      as (e & He & _).
    rewrite He in Hr. discriminate Hr. }
  destruct (create_table_run rows columns si pi style h w sec Hs Hp Hdim) as [Hok Hfail].
  destruct (can_save w (doc_path h)) eqn:Hw.
  2:{ destruct (Hfail eq_refl) as [e He]. rewrite He in Hr. discriminate Hr. }
  rewrite (Hok eq_refl) in Hr. injection Hr as <- <-.
  set (tables' := created_tables known_style sec rows columns pi style).
  exists sec, tables'.
  assert (Hcount : Count tables' = Count (Tables sec) + 1).
  { unfold tables', created_tables, Count. rewrite length_insert_at. lia. }
  cbn [TableHandler.cr_table_index fst].
  split; [reflexivity|].
  split; [apply (section_of_with_section h si sec _ Hs)|].
  split; [reflexivity|]. split; [lia|]. split.
  - intros ->. unfold tables', created_tables, created_position.
    apply insert_at_length.
  - intros p ->. set (k := Z.to_nat (Z.min (p + 1) (Count (Tables sec)))).
    assert (Hk : (k <= length (Tables sec))%nat) by (unfold k, Count; lia).
    split; [reflexivity|]. split.
    + unfold tables', created_tables, created_position. fold k.
      apply lookup_insert_at. exact Hk.
    + intros Hlt. specialize (Hp p eq_refl).
      rewrite Hcount. unfold Count in *.
      replace (Z.to_nat (Z.of_nat (length (Tables sec)) + 1 - 1))
        with (length (Tables sec)) by lia.
      split; [unfold k; lia|].
      unfold tables', created_tables, created_position. fold k.
      apply lookup_insert_at_gt; [exact Hk | unfold k; lia].
Qed.

End CreateFacts.

(** The theorem at a section with two tables and a table created after paragraph 0: the new table is at position 1, the index returned is 2. *)
Lemma create_table_reports_last_index_witness :
  exists (r : TableHandler.CreateResult) (s' : HState),
    TableHandler.create_table no_style 2 2 0 (Some 0) None
      (example_handler_tables, example_world) = (Return r, s') /\
    TableHandler.cr_table_index r = 2 /\
    exists tables' : list Table,
      section_of (fst s') 0 = Some (set_Tables tables' two_tables) /\
      tables' !! 1%nat = Some (created_table no_style 2 2 None) /\
      tables' !! 2%nat = Some table_3x2.
Proof.
  destruct (TableHandler.create_table no_style 2 2 0 (Some 0) None
              (example_handler_tables, example_world)) as [[r|e] s'] eqn:Hc.
  2:{ exfalso. vm_compute in Hc. discriminate Hc. }
  exists r, s'. split; [reflexivity|].
  destruct (create_table_reports_last_index no_style 2 2 0 (Some 0) None
              example_handler_tables example_world r s' Hc)
    as (sec & tables' & Hs & Hs' & _ & Hidx & _ & Hpos).
  assert (Hsec : Some two_tables = Some sec) by (rewrite <- Hs; reflexivity).
  injection Hsec as <-.
  split; [exact Hidx|].
  exists tables'. split; [exact Hs'|].
  destruct (Hpos 0 eq_refl) as (_ & Hnew & Hold).
  split; [exact Hnew|].
  destruct (Hold ltac:(vm_compute; reflexivity)) as [_ Hlast].
  rewrite Hidx in Hlast. exact Hlast.
Defined.

(** ** The count [find_and_replace] reports (C9) *)

Section ReplaceFacts.
Variable Replace : Document -> string -> string -> bool -> bool -> Outcome Document.

(** C9: whatever the engine's search does with the document, and however
    many occurrences of the text there are, a [find_and_replace] that
    succeeds reports [replacements = 1]. *)
Theorem find_and_replace_reports_one (find_text replace_text : string)
    (match_case match_whole_word : bool) (s s' : HState)
    (r : DocumentHandler.ReplaceResult) :
  DocumentHandler.find_and_replace Replace find_text replace_text match_case
    match_whole_word s = (Return r, s') ->
  DocumentHandler.rr_replacements r = 1.
Proof.
  destruct s as [h w]. unfold DocumentHandler.find_and_replace.
  unfold try_except, bind at 1. unfold self.
  destruct (document h) as [d|]; [|discriminate].
  unfold bind at 1. unfold raise_if.
  destruct (String.eqb find_text ""); [discriminate|]. unfold ret at 1.
  destruct (Replace d find_text replace_text match_case match_whole_word) as [d'|e];
    [|discriminate].
  unfold bind at 1. unfold set_document.
  unfold bind at 1.
  destruct (save_document _) as [[u|e] s1]; [|discriminate].
  unfold ret. intros [= <- _]. reflexivity.
Qed.

End ReplaceFacts.

(** The theorem at a document with three occurrences of the text, and at a text that does not occur. *)
Lemma find_and_replace_reports_one_witness :
  occurrences_in "cat" cats_document = 3%nat /\
  occurrences_in "bird" cats_document = 0%nat /\
  (exists r s',
     DocumentHandler.find_and_replace example_Replace "cat" "dog" true false
       (cats_handler, example_world) = (Return r, s')
     /\ DocumentHandler.rr_replacements r = 1) /\
  (exists r s',
     DocumentHandler.find_and_replace example_Replace "bird" "dog" true false
       (cats_handler, example_world) = (Return r, s')
     /\ DocumentHandler.rr_replacements r = 1).
Proof.
  split; [reflexivity|]. split; [reflexivity|]. split.
  - destruct (DocumentHandler.find_and_replace example_Replace "cat" "dog" true false
                (cats_handler, example_world)) as [[r|e] s'] eqn:Hrun.
    + exists r, s'. split; [reflexivity|].
      exact (find_and_replace_reports_one example_Replace "cat" "dog" true false
               (cats_handler, example_world) s' r Hrun).
    + vm_compute in Hrun. discriminate Hrun.
  - destruct (DocumentHandler.find_and_replace example_Replace "bird" "dog" true false
                (cats_handler, example_world)) as [[r|e] s'] eqn:Hrun.
    + exists r, s'. split; [reflexivity|].
      exact (find_and_replace_reports_one example_Replace "bird" "dog" true false
               (cats_handler, example_world) s' r Hrun).
    + vm_compute in Hrun. discriminate Hrun.
Defined.

(** ** The conversion history (C3) *)

(** Every attempt on a handler appends one record and makes it the
    status: a success record when the method returns, a failure record with
    the error text when it raises. *)
Lemma convert_document_appends (target : string) (out : option string)
    (h : ConversionHandler.State) (w : World) :
  exists (r : ConversionHandler.ConversionRecord) (w' : World)
         (o : Outcome ConversionHandler.ConvertResult),
    ConversionHandler.convert_document target out (h, w)
    = (o, (ConversionHandler.mkState (ConversionHandler.c_doc_path h)
             (ConversionHandler.conversion_history h ++ [r]) (Some r), w'))
    /\ match o with
       | Return _ =>
           ConversionHandler.status r = "success" /\ ConversionHandler.error r = None
       | Raise e =>
           ConversionHandler.status r = "failed" /\
           exists msg : string,
             ConversionHandler.error r = Some msg /\
             e = ConversionError ("Failed to convert document: " ++ msg)
       end.
Proof.
  destruct h as [path hist st].
  unfold ConversionHandler.convert_document, ConversionHandler._load_document,
    ConversionHandler.record_attempt, LoadFromFile, SaveToFile, makedirs, now_isoformat.
  munfold.
  repeat match goal with
         | |- context [match ?x with _ => _ end] =>
             lazymatch x with
             | context [match _ with _ => _ end] => fail
             | _ => destruct x eqn:?; munfold
             end
         end;
    do 3 eexists; (split; [reflexivity|]); simpl; eauto.
Qed.

(** An unsupported target format makes the attempt fail, with a failure
    record whose error text is not empty. *)
Lemma convert_document_unsupported (target : string) (out : option string)
    (h : ConversionHandler.State) (w : World) :
  PyStr.mem (PyStr.lower target) SUPPORTED_FORMATS = false ->
  exists (r : ConversionHandler.ConversionRecord) (w' : World),
    ConversionHandler.convert_document target out (h, w)
    = (Raise (ConversionError ("Failed to convert document: Unsupported format: " ++ target)),
       (ConversionHandler.mkState (ConversionHandler.c_doc_path h)
          (ConversionHandler.conversion_history h ++ [r]) (Some r), w'))
    /\ ConversionHandler.status r = "failed"
    /\ ConversionHandler.error r = Some ("Unsupported format: " ++ target).
Proof.
  intros Hfmt. destruct h as [path hist st].
  unfold ConversionHandler.convert_document, ConversionHandler.record_attempt,
    now_isoformat.
  unfold try_except, bind at 1. unfold raise_if. rewrite Hfmt. munfold.
  do 2 eexists. split; [reflexivity|]. split; reflexivity.
Qed.

Lemma attempt_swallowed {S A} (m : M S A) (s s' : S) (o : Outcome A) :
  m s = (o, s') ->
  try_except (m;; ret tt) (fun _ => ret tt) s = (Return tt, s').
Proof. unfold try_except, bind, ret. intros ->. destruct o; reflexivity. Qed.

(** On one handler object the history is what the claim describes: after
    two attempts, the second for an unsupported format, it has two more
    records, the last one failed with a non-empty error text, and the
    status is that record. *)
Lemma conversion_history_on_one_handler (t1 t2 : string) (o1 o2 : option string)
    (path : option string) (w : World) :
  PyStr.mem (PyStr.lower t2) SUPPORTED_FORMATS = false ->
  exists (r1 r2 : ConversionHandler.ConversionRecord) (w' : World),
    (try_except (ConversionHandler.convert_document t1 o1;; ret tt) (fun _ => ret tt);;
     try_except (ConversionHandler.convert_document t2 o2;; ret tt) (fun _ => ret tt);;
     let! hist := ConversionHandler.get_conversion_history in
     let! st := ConversionHandler.get_conversion_status in
     ret (hist, st)) (ConversionHandler.init path, w)
    = (Return (ConversionHandler.mkHistoryResult [r1; r2] 2, Some r2),
       (ConversionHandler.mkState path [r1; r2] (Some r2), w'))
    /\ ConversionHandler.status r2 = "failed"
    /\ ConversionHandler.error r2 = Some ("Unsupported format: " ++ t2).
Proof.
  intros Hfmt.
  destruct (convert_document_appends t1 o1 (ConversionHandler.init path) w)
    as (r1 & w1 & o & H1 & _).
  cbn [ConversionHandler.init ConversionHandler.c_doc_path
         ConversionHandler.conversion_history app] in H1.
  destruct (convert_document_unsupported t2 o2
              (ConversionHandler.mkState path [r1] (Some r1)) w1 Hfmt)
    as (r2 & w2 & H2 & Hst & Herr).
  cbn [ConversionHandler.c_doc_path ConversionHandler.conversion_history app] in H2.
  exists r1, r2, w2. split; [|split; assumption].
  unfold bind at 1. rewrite (attempt_swallowed _ _ _ _ H1).
  unfold bind at 1. rewrite (attempt_swallowed _ _ _ _ H2).
  reflexivity.
Qed.

(** What [get_doc_path] raises: the invalid-path error, or the error of
    [os.makedirs] when the documents directory cannot be created. *)
Lemma get_doc_path_raises (name dir : string) (w w' : World) (e : Exn) :
  get_doc_path name dir w = (Raise e, w') ->
  (dir_available w dir = true /\ e = invalid_path) \/
  (dir_available w dir = false /\ e = makedirs_error dir /\ w' = w).
Proof.
  intros H. destruct (dir_available w dir) eqn:Ha.
  - left. split; [reflexivity|].
    destruct (get_doc_path_available name dir w Ha) as (w1 & Hg & _).
    rewrite Hg in H. unfold resolve in H.
    destruct (negb _) in H; [|discriminate H].
    injection H as <- _. reflexivity.
  - right. rewrite (get_doc_path_unavailable name dir w Ha) in H.
    injection H as <- <-. repeat split.
Qed.

Lemma get_doc_path_raises_other (name dir : string) (w w' : World) (e : Exn)
    (c : ExnClass) :
  get_doc_path name dir w = (Raise e, w') ->
  c <> ClsDocumentError -> c <> ClsSpireDocError -> (forall n, c <> ClsBuiltin n) ->
  isinstance e c = false.
Proof.
  intros H Hd Hs Hb.
  destruct (get_doc_path_raises _ _ _ _ _ H) as [[_ ->] | (_ & -> & _)].
  - destruct c; try reflexivity; congruence.
  - now apply makedirs_error_builtin.
Qed.

(** Through the tools the history is lost: each call builds a new
    [ConversionHandler], so [get_conversion_history] answers with an empty
    history whenever it answers, and [get_conversion_status] with the empty
    status. *)
Lemma get_conversion_history_tool_empty (name dir : string) (w w' : World)
    (env : Envelope ConversionHandler.HistoryResult) :
  conversion_tools.get_conversion_history name dir w = (Return env, w') ->
  success env = true /\ data env = Some (ConversionHandler.mkHistoryResult [] 0).
Proof.
  unfold conversion_tools.get_conversion_history, tool, try_except, bind at 1.
  unfold bind at 1.
  destruct (get_doc_path name dir w) as [[p|e] w1] eqn:Hp.
  - unfold conversion_tools.with_new_handler, on_handler,
      ConversionHandler.get_conversion_history, ConversionHandler.init.
    munfold. intros [= <- _]. split; reflexivity.
  - rewrite (get_doc_path_raises_other _ _ _ _ _ ClsConversionError Hp)
      by (intros; discriminate).
    discriminate.
Qed.

Lemma get_conversion_status_tool_empty (name dir : string) (w w' : World)
    (env : Envelope (option ConversionHandler.ConversionRecord)) :
  conversion_tools.get_conversion_status name dir w = (Return env, w') ->
  success env = true /\ data env = Some None.
Proof.
  unfold conversion_tools.get_conversion_status, tool, try_except, bind at 1.
  unfold bind at 1.
  destruct (get_doc_path name dir w) as [[p|e] w1] eqn:Hp.
  - unfold conversion_tools.with_new_handler, on_handler,
      ConversionHandler.get_conversion_status, ConversionHandler.init.
    munfold. intros [= <- _]. split; reflexivity.
  - rewrite (get_doc_path_raises_other _ _ _ _ _ ClsConversionError Hp)
      by (intros; discriminate).
    discriminate.
Qed.

(** C3: two conversions of [a.docx] through the tools, the second to an
    unsupported format and answered with an error envelope, and then the
    two queries: the history has no record and the status is empty, where
    the claim expects two records and the failed one as status. *)
Theorem conversion_tools_lose_history :
  fst ((let! first := conversion_tools.convert_document "a.docx" "pdf" None example_dir in
        let! second := conversion_tools.convert_document "a.docx" "xyz" None example_dir in
        let! hist := conversion_tools.get_conversion_history "a.docx" example_dir in
        let! st := conversion_tools.get_conversion_status "a.docx" example_dir in
        ret (success first, success second, data hist, data st)) example_world)
  = Return (true, false, Some (ConversionHandler.mkHistoryResult [] 0), Some None).
Proof. vm_compute. reflexivity. Qed.

(** ** Through the tools

    Each tool call loads the document from the file the previous call
    saved: the scenario of the specification, followed by a deletion, with
    a new handler for every call. *)
Lemma scenario_through_the_tools :
  fst ((let! _ := paragraph_tools.add_paragraph "a.docx" "Hello" 0 None example_dir in
        let! _ := paragraph_tools.add_paragraph "a.docx" "World" 0 (Some 0) example_dir in
        let! a := paragraph_tools.get_paragraph_text "a.docx" 0 0 example_dir in
        let! b := paragraph_tools.get_paragraph_text "a.docx" 1 0 example_dir in
        let! d := paragraph_tools.delete_paragraph "a.docx" 0 0 example_dir in
        let! c := paragraph_tools.get_paragraph_text "a.docx" 0 0 example_dir in
        let! e := paragraph_tools.get_paragraph_text "a.docx" 1 0 example_dir in
        ret (text_of a, text_of b, data d, text_of c, success e)) example_world)
  = Return (Some "World", Some "Hello",
            Some (ParagraphHandler.mkDeleteResult 0 0 "World"), Some "Hello", false).
Proof. vm_compute. reflexivity. Qed.

(** * Further properties of the handlers and the tools *)

(** Case analysis on the innermost test of a computation. *)
Ltac mcase :=
  match goal with
  | |- context [match ?x with _ => _ end] =>
      lazymatch x with
      | context [match _ with _ => _ end] => fail
      | _ => destruct x eqn:?
      end
  end.

Ltac mcases := repeat (mcase; munfold).

(** ** Opening a document ([BaseHandler.__init__]) *)

Local Opaque word_extensions.

Lemma BaseHandler_init_cases (path : string) (w : World) :
  exists o : Outcome Handler,
    BaseHandler_init path w = (o, w) /\
    match o with
    | Raise e => exn_class e = ClsDocumentError
    | Return h =>
        path <> "" /\ doc_path h = abspath w path /\
        existsb (PyStr.endswith (PyStr.lower (abspath w path))) word_extensions = true /\
        exists d f,
          document h = Some d /\ Sections d <> [] /\
          files w !! abspath w (abspath w path) = Some f /\ content f = Some d /\
          readable f = true /\ writable f = true
    end.
Proof.
  unfold BaseHandler_init, _load_document, on_handler, LoadFromFile, get, isfile,
    access_R, access_W.
  cbv zeta.
  destruct (String.eqb_spec path "") as [Hempty|Hne]; munfold.
  { eexists. split; reflexivity. }
  destruct (files w !! abspath w (abspath w path)) as [f|] eqn:Hf.
  2:{ rewrite bool_decide_eq_false_2 by (intros [x Hx]; discriminate).
      rewrite andb_false_r. munfold.
      eexists. split; reflexivity. }
  rewrite bool_decide_eq_true_2 by eauto. rewrite andb_true_r.
  destruct (String.eqb (abspath w path) "") eqn:Hp0; munfold.
  { eexists. split; reflexivity. }
  destruct (existsb (PyStr.endswith (PyStr.lower (abspath w path))) word_extensions)
    eqn:Hext; munfold.
  2:{ eexists. split; reflexivity. }
  destruct f as [r wr [d|]];
    repeat (first [rewrite Hf | progress munfold]).
  - destruct r; repeat (first [rewrite Hf | progress munfold]);
      [|eexists; split; reflexivity].
    destruct wr; repeat (first [rewrite Hf | progress munfold]);
      [|eexists; split; reflexivity].
    unfold Count. destruct (Sections d) as [|s0 ss] eqn:Hsec; munfold.
    + eexists. split; reflexivity.
    + eexists. split; [reflexivity|]. cbn. repeat split; auto.
      exists d. eexists. repeat split; eauto. rewrite Hsec. discriminate.
  - destruct r; repeat (first [rewrite Hf | progress munfold]);
      [|eexists; split; reflexivity].
    destruct wr; repeat (first [rewrite Hf | progress munfold]);
      eexists; split; reflexivity.
Qed.

Local Transparent word_extensions.


(** X1: a handler that was constructed has its document loaded, with at
    least one section, from a file with one of the six Word extensions
    that is readable and writable; the construction changes nothing
    outside the handler. *)
Theorem BaseHandler_init_loads_document (path : string) (w w' : World) (h : Handler) :
  BaseHandler_init path w = (Return h, w') ->
  w' = w /\ path <> "" /\ doc_path h = abspath w path /\
  existsb (PyStr.endswith (PyStr.lower (doc_path h))) word_extensions = true /\
  exists d f,
    document h = Some d /\ Sections d <> [] /\
    files w !! abspath w (doc_path h) = Some f /\ content f = Some d /\
    readable f = true /\ writable f = true.
Proof.
  intros Hinit. destruct (BaseHandler_init_cases path w) as (o & Ho & Hcase).
  rewrite Ho in Hinit. injection Hinit as -> ->.
  destruct Hcase as (Hne & Hp & Hext & d & f & Hd & Hs & Hf & Hc & Hr & Hw).
  rewrite Hp. repeat split; auto. exists d, f. repeat split; auto.
Qed.

(** The theorem at the document of the example world. *)
Lemma BaseHandler_init_loads_document_witness :
  exists h : Handler,
    BaseHandler_init "./word_files/a.docx" example_world = (Return h, example_world) /\
    document h = Some example_document.
Proof.
  destruct (BaseHandler_init "./word_files/a.docx" example_world) as [[h|e] w'] eqn:Hi.
  2:{ exfalso. vm_compute in Hi. discriminate Hi. }
  destruct (BaseHandler_init_loads_document _ _ _ _ Hi)
    as (-> & _ & Hp & _ & d & f & Hd & _ & Hf & Hc & _).
  exists h. split; [reflexivity|].
  rewrite Hp in Hf. vm_compute in Hf. injection Hf as <-.
  rewrite Hd, <- Hc. reflexivity.
Defined.

(** X2: whatever makes the construction of a handler fail (an empty path,
    a missing file, another extension, missing permissions, a file the
    engine cannot load, a document without sections), the exception is a
    [DocumentError] and the world is as before. *)
Theorem BaseHandler_init_fails_with_DocumentError (path : string) (w w' : World) (e : Exn) :
  BaseHandler_init path w = (Raise e, w') ->
  exn_class e = ClsDocumentError /\ w' = w.
Proof.
  intros Hinit. destruct (BaseHandler_init_cases path w) as (o & Ho & Hcase).
  rewrite Ho in Hinit. injection Hinit as -> ->. auto.
Qed.

(** The theorem at a text file in the documents directory. *)
Lemma BaseHandler_init_fails_with_DocumentError_witness :
  exists e : Exn,
    BaseHandler_init "./word_files/notes.txt" example_world = (Raise e, example_world) /\
    exn_class e = ClsDocumentError.
Proof.
  destruct (BaseHandler_init "./word_files/notes.txt" example_world) as [[h|e] w'] eqn:Hi.
  { exfalso. vm_compute in Hi. discriminate Hi. }
  destruct (BaseHandler_init_fails_with_DocumentError _ _ _ _ Hi) as [Hc ->].
  exists e. auto.
Defined.

(** ** The index checks *)

Lemma _validate_paragraph_index_invalid (h : Handler) (w : World) (p si : Z) :
  (forall sec, section_of h si = Some sec -> ~ 0 <= p < Count (Paragraphs sec)) ->
  exists e, _validate_paragraph_index p si (h, w) = (Raise e, (h, w))
            /\ exn_class e = ClsDocumentError.
Proof.
  intros Hbad.
  destruct (_validate_paragraph_index_state h w p si) as [Hok | He]; [|exact He].
  exfalso. destruct (section_of h si) as [sec|] eqn:Hs.
  - apply (Hbad sec eq_refl). eapply _validate_paragraph_index_inv; eauto.
  - destruct (_validate_section_index_fail h w si Hs) as (e & He & _).
    unfold _validate_paragraph_index, bind in Hok. rewrite He in Hok. discriminate Hok.
Qed.

(** X3: [_validate_paragraph_index] passes exactly when the section index
    names a section of the loaded document and the paragraph index one of
    its paragraphs; in both outcomes the handler and the world are as
    before. *)
Theorem _validate_paragraph_index_exact (h : Handler) (w : World) (p si : Z) :
  snd (_validate_paragraph_index p si (h, w)) = (h, w) /\
  (fst (_validate_paragraph_index p si (h, w)) = Return tt <->
   exists sec, section_of h si = Some sec /\ 0 <= p < Count (Paragraphs sec)).
Proof.
  split.
  - destruct (_validate_paragraph_index_state h w p si) as [-> | (e & -> & _)];
      reflexivity.
  - split.
    + intros Hok.
      destruct (section_of h si) as [sec|] eqn:Hs.
      * exists sec. split; [reflexivity|].
        destruct (_validate_paragraph_index_state h w p si) as [H | (e & H & _)].
        -- eapply _validate_paragraph_index_inv; eauto.
        -- rewrite H in Hok. discriminate Hok.
      * assert (Hbad : forall sec, section_of h si = Some sec ->
                                   ~ 0 <= p < Count (Paragraphs sec))
          by (intros sec Hc; rewrite Hs in Hc; discriminate Hc).
        destruct (_validate_paragraph_index_invalid h w p si Hbad) as (e & H & _).
        rewrite H in Hok. discriminate Hok.
    + intros (sec & Hs & Hp).
      now rewrite (_validate_paragraph_index_ok h w p si sec Hs Hp).
Qed.

(** ** The effects of path resolution *)


(** ** Updating, adding and deleting paragraphs *)

Lemma update_paragraph_text_ok (h : Handler) (w : World) (pi si : Z) (text : string)
    (sec : Section) (p : Paragraph) :
  section_of h si = Some sec -> 0 <= pi -> Paragraphs sec !! Z.to_nat pi = Some p ->
  can_save w (doc_path h) = true ->
  let h' := with_section h si
              (set_Paragraphs (<[Z.to_nat pi := mkParagraph text (Format p)]> (Paragraphs sec))
                 sec) in
  ParagraphHandler.update_paragraph_text pi text si (h, w)
  = (Return (ParagraphHandler.mkUpdateResult si pi (Text p) text), (h', saved h' w)).
Proof.
  intros Hs Hpi Hp Hw h'. unfold ParagraphHandler.update_paragraph_text.
  unfold try_except, bind at 1.
  rewrite (_validate_paragraph_index_ok h w pi si sec Hs)
    by (split; [lia | eapply lookup_Z_lt; eauto]).
  unfold bind at 1. rewrite (get_section_ok _ _ _ _ Hs).
  unfold bind at 1. unfold item.
  destruct (Z.ltb_spec pi 0); [lia|]. rewrite Hp. unfold ret at 1.
  unfold bind at 1. rewrite (update_section_ok _ _ _ _ _ Hs).
  unfold ParagraphHandler.set_Text.
  rewrite (alter_lookup_insert _ _ _ _ Hp). fold h'.
  destruct (document_with_section h si sec
              (set_Paragraphs (<[Z.to_nat pi := mkParagraph text (Format p)]> (Paragraphs sec))
                 sec) Hs) as [d' Hd'].
  fold h' in Hd'.
  unfold bind. rewrite (save_document_saved h' w d' Hd') by exact Hw.
  reflexivity.
Qed.

(** X5: [update_paragraph_text] at a valid index returns the text the
    paragraph had and the new one; afterwards the paragraph reads the new
    text with its formatting kept, every other paragraph reads as before,
    and the number of paragraphs is the same. *)
Theorem update_paragraph_text_reads_back (h : Handler) (w : World) (pi si : Z)
    (text : string) (sec : Section) (p : Paragraph) :
  section_of h si = Some sec -> 0 <= pi -> Paragraphs sec !! Z.to_nat pi = Some p ->
  can_save w (doc_path h) = true ->
  exists (s' : HState) (sec' : Section),
    ParagraphHandler.update_paragraph_text pi text si (h, w)
    = (Return (ParagraphHandler.mkUpdateResult si pi (Text p) text), s') /\
    section_of (fst s') si = Some sec' /\
    Paragraphs sec' !! Z.to_nat pi = Some (mkParagraph text (Format p)) /\
    Count (Paragraphs sec') = Count (Paragraphs sec) /\
    Tables sec' = Tables sec /\
    fst (ParagraphHandler.get_paragraph_text pi si s')
    = Return (ParagraphHandler.mkTextResult si pi text) /\
    (forall j : Z, j <> pi -> 0 <= j ->
       fst (ParagraphHandler.get_paragraph_text j si s')
       = fst (ParagraphHandler.get_paragraph_text j si (h, w))).
Proof.
  intros Hs Hpi Hp Hw.
  set (sec' := set_Paragraphs
                 (<[Z.to_nat pi := mkParagraph text (Format p)]> (Paragraphs sec)) sec).
  set (h' := with_section h si sec').
  assert (Hs' : section_of h' si = Some sec')
    by (apply (section_of_with_section h si sec sec' Hs)).
  assert (Hp' : Paragraphs sec' !! Z.to_nat pi = Some (mkParagraph text (Format p))).
  { unfold sec'. simpl. apply list_lookup_insert_eq. eapply lookup_lt_Some; eauto. }
  exists (h', saved h' w), sec'.
  split; [apply (update_paragraph_text_ok h w pi si text sec p Hs Hpi Hp Hw)|].
  split; [exact Hs'|]. split; [exact Hp'|].
  split; [unfold sec', Count; simpl; now rewrite length_insert|].
  split; [reflexivity|]. split.
  - now rewrite (get_paragraph_text_ok h' _ pi si sec' _ Hs' Hpi Hp').
  - intros j Hj Hj0.
    assert (Hl : Paragraphs sec' !! Z.to_nat j = Paragraphs sec !! Z.to_nat j).
    { unfold sec'. simpl. apply list_lookup_insert_ne. lia. }
    assert (Hc : Count (Paragraphs sec') = Count (Paragraphs sec))
      by (unfold sec', Count; simpl; now rewrite length_insert).
    destruct (Paragraphs sec !! Z.to_nat j) as [q|] eqn:Hq.
    + rewrite (get_paragraph_text_ok h' _ j si sec' q Hs' Hj0 Hl).
      now rewrite (get_paragraph_text_ok h w j si sec q Hs Hj0 Hq).
    + apply lookup_ge_None in Hq.
      rewrite (get_paragraph_text_range h' _ j si sec' Hs') by (rewrite Hc; unfold Count; lia).
      rewrite (get_paragraph_text_range h w j si sec Hs) by (unfold Count; lia).
      now rewrite Hc.
Qed.

(** The theorem at the middle paragraph of the document with three
    paragraphs. *)
Lemma update_paragraph_text_reads_back_witness :
  exists s' : HState,
    ParagraphHandler.update_paragraph_text 1 "new" 0 (example_handler3, example_world)
    = (Return (ParagraphHandler.mkUpdateResult 0 1 "B" "new"), s') /\
    fst (ParagraphHandler.get_paragraph_text 1 0 s')
    = Return (ParagraphHandler.mkTextResult 0 1 "new").
Proof.
  destruct (update_paragraph_text_reads_back example_handler3 example_world 1 0 "new"
              three_paragraphs (par "B") eq_refl ltac:(lia) eq_refl
              ltac:(vm_compute; reflexivity))
    as (s' & sec' & Hrun & _ & _ & _ & _ & Hread & _).
  exists s'. split; assumption.
Defined.

(** X6: for a section or paragraph index that names no paragraph,
    [delete_paragraph], [update_paragraph_text] and [get_paragraphinfo]
    raise [ParagraphError] and leave the handler and the world as they
    were: nothing is removed, changed or saved. *)
Theorem paragraph_methods_reject_bad_index (h : Handler) (w : World) (pi si : Z)
    (text : string) :
  (forall sec, section_of h si = Some sec -> ~ 0 <= pi < Count (Paragraphs sec)) ->
  (exists e, ParagraphHandler.delete_paragraph pi si (h, w) = (Raise e, (h, w))
             /\ exn_class e = ClsParagraphError) /\
  (exists e, ParagraphHandler.update_paragraph_text pi text si (h, w) = (Raise e, (h, w))
             /\ exn_class e = ClsParagraphError) /\
  (exists e, ParagraphHandler.get_paragraphinfo pi si (h, w) = (Raise e, (h, w))
             /\ exn_class e = ClsParagraphError).
Proof.
  intros Hbad.
  destruct (_validate_paragraph_index_invalid h w pi si Hbad) as (e & He & _).
  repeat split.
  - unfold ParagraphHandler.delete_paragraph, try_except, bind. rewrite He. eauto.
  - unfold ParagraphHandler.update_paragraph_text, try_except, bind. rewrite He. eauto.
  - unfold ParagraphHandler.get_paragraphinfo, try_except, bind. rewrite He. eauto.
Qed.

(** The theorem at index 3 of the document with three paragraphs. *)
Lemma paragraph_methods_reject_bad_index_witness :
  exists e, ParagraphHandler.delete_paragraph 3 0 (example_handler3, example_world)
            = (Raise e, (example_handler3, example_world))
            /\ exn_class e = ClsParagraphError.
Proof.
  assert (Hbad : forall sec, section_of example_handler3 0 = Some sec ->
                             ~ 0 <= 3 < Count (Paragraphs sec)).
  { intros sec Hs. injection Hs as <-. vm_compute. intros [_ H]. discriminate H. }
  destruct (paragraph_methods_reject_bad_index example_handler3 example_world 3 0 "" Hbad)
    as (H & _).
  exact H.
Defined.

Lemma delete_insert_at {A} (i : nat) (x : A) (l : list A) :
  (i <= length l)%nat -> delete i (insert_at i x l) = l.
Proof.
  unfold insert_at. revert l. induction i as [|i IH]; intros l Hl.
  - reflexivity.
  - destruct l as [|a l]; simpl in *; [lia|]. f_equal. apply IH. lia.
Qed.

Lemma lookup_insert_at_lt {A} (i j : nat) (x : A) (l : list A) :
  (j < i)%nat -> (i <= length l)%nat -> insert_at i x l !! j = l !! j.
Proof.
  intros Hj Hl. unfold insert_at.
  rewrite lookup_app_l by (rewrite length_take; lia).
  apply lookup_take_lt. exact Hj.
Qed.

(** X7: adding a paragraph at an index and deleting the paragraph at that
    index afterwards gives back the text that was added and leaves the
    section with the paragraphs and tables it had. *)
Theorem add_then_delete_restores (h : Handler) (w : World) (si i : Z) (text : string)
    (sec : Section) :
  section_of h si = Some sec -> can_save w (doc_path h) = true ->
  0 <= i <= Count (Paragraphs sec) ->
  exists s' : HState,
    (let! _ := ParagraphHandler.add_paragraph text si (Some i) in
     ParagraphHandler.delete_paragraph i si) (h, w)
    = (Return (ParagraphHandler.mkDeleteResult si i text), s') /\
    section_of (fst s') si = Some sec.
Proof.
  intros Hs Hw Hi.
  set (sec1 := set_Paragraphs (added_paragraphs (Paragraphs sec) text (Some i)) sec).
  set (h1 := with_section h si sec1).
  assert (Hs1 : section_of h1 si = Some sec1)
    by (apply (section_of_with_section h si sec sec1 Hs)).
  destruct (document_with_section h si sec sec1 Hs) as [d1 Hd1]. fold h1 in Hd1.
  assert (Hw1 : can_save (saved h1 w) (doc_path h1) = true)
    by (eapply can_save_saved; eauto).
  assert (Hle : (Z.to_nat i <= length (Paragraphs sec))%nat) by (unfold Count in Hi; lia).
  assert (Hp1 : Paragraphs sec1 !! Z.to_nat i = Some (mkParagraph text default_format)).
  { unfold sec1. simpl. apply lookup_insert_at. exact Hle. }
  set (h2 := with_section h1 si (ParagraphHandler.RemoveAt i sec1)).
  exists (h2, saved h2 (saved h1 w)). split.
  - unfold bind.
    rewrite (add_paragraph_ok h w text si (Some i) sec Hs Hw)
      by (intros i' [= <-]; exact Hi).
    fold sec1. fold h1. cbv beta iota.
    rewrite (delete_paragraph_ok h1 _ i si sec1 _ Hs1 (proj1 Hi) Hp1 Hw1).
    reflexivity.
  - cbn [fst]. unfold h2.
    rewrite (section_of_with_section h1 si sec1 _ Hs1). f_equal.
    unfold ParagraphHandler.RemoveAt, sec1. simpl.
    rewrite delete_insert_at by exact Hle. destruct sec; reflexivity.
Qed.

(** The theorem at index 1 of the document with three paragraphs. *)
Lemma add_then_delete_restores_witness :
  exists s' : HState,
    (let! _ := ParagraphHandler.add_paragraph "new" 0 (Some 1) in
     ParagraphHandler.delete_paragraph 1 0) (example_handler3, example_world)
    = (Return (ParagraphHandler.mkDeleteResult 0 1 "new"), s') /\
    section_of (fst s') 0 = Some three_paragraphs.
Proof.
  apply (add_then_delete_restores example_handler3 example_world 0 1 "new"
           three_paragraphs eq_refl).
  - vm_compute. reflexivity.
  - vm_compute. split; discriminate.
Defined.

(** X8: after [add_paragraph] at index [i], the paragraphs before [i]
    read as before and every paragraph that was at an index [j >= i] is
    read at [j + 1]; without an index nothing moves. *)
Theorem add_paragraph_shifts_later_paragraphs (h : Handler) (w : World) (si : Z)
    (text : string) (idx : option Z) (sec : Section) :
  section_of h si = Some sec -> can_save w (doc_path h) = true ->
  (forall i, idx = Some i -> 0 <= i <= Count (Paragraphs sec)) ->
  exists (r : ParagraphHandler.AddResult) (s' : HState),
    ParagraphHandler.add_paragraph text si idx (h, w) = (Return r, s') /\
    ParagraphHandler.ar_total_paragraphs_in_section r = Count (Paragraphs sec) + 1 /\
    (forall (j : Z) (q : Paragraph),
       0 <= j -> Paragraphs sec !! Z.to_nat j = Some q ->
       fst (ParagraphHandler.get_paragraph_text
              (if j <? ParagraphHandler.ar_paragraph_index r then j else j + 1) si s')
       = Return (ParagraphHandler.mkTextResult si
                   (if j <? ParagraphHandler.ar_paragraph_index r then j else j + 1)
                   (Text q))).
Proof.
  intros Hs Hw Hidx.
  set (sec' := set_Paragraphs (added_paragraphs (Paragraphs sec) text idx) sec).
  assert (Hs' : section_of (with_section h si sec') si = Some sec')
    by (apply (section_of_with_section h si sec sec' Hs)).
  eexists. eexists. split; [apply (add_paragraph_ok h w text si idx sec Hs Hw Hidx)|].
  cbn [ParagraphHandler.ar_total_paragraphs_in_section ParagraphHandler.ar_paragraph_index].
  fold sec'. split; [reflexivity|].
  intros j q Hj Hq.
  pose proof (lookup_lt_Some _ _ _ Hq) as Hlt.
  rewrite (get_paragraph_text_ok _ _ _ si sec' q Hs'); [reflexivity | |].
  - destruct (j <? added_index (Paragraphs sec) idx); lia.
  - unfold sec'. simpl. destruct idx as [i|]; simpl.
    + specialize (Hidx i eq_refl). unfold Count in Hidx.
      destruct (Z.ltb_spec j i).
      * rewrite lookup_insert_at_lt by lia. exact Hq.
      * rewrite lookup_insert_at_gt by lia.
        replace (Z.to_nat (j + 1) - 1)%nat with (Z.to_nat j) by lia. exact Hq.
    + unfold Count. destruct (Z.ltb_spec j (Z.of_nat (length (Paragraphs sec)))); [|lia].
      rewrite lookup_app_l by lia. exact Hq.
Qed.

(** The theorem at the front of the document with three paragraphs. *)
Lemma add_paragraph_shifts_later_paragraphs_witness :
  exists (r : ParagraphHandler.AddResult) (s' : HState),
    ParagraphHandler.add_paragraph "new" 0 (Some 0) (example_handler3, example_world)
    = (Return r, s') /\
    fst (ParagraphHandler.get_paragraph_text 3 0 s')
    = Return (ParagraphHandler.mkTextResult 0 3 "C").
Proof.
  assert (Hidx : forall i, Some 0 = Some i -> 0 <= i <= Count (Paragraphs three_paragraphs))
    by (intros i [= <-]; vm_compute; split; discriminate).
  destruct (add_paragraph_shifts_later_paragraphs example_handler3 example_world 0 "new"
              (Some 0) three_paragraphs eq_refl ltac:(vm_compute; reflexivity) Hidx)
    as (r & s' & Hrun & _ & Hshift).
  exists r, s'. split; [exact Hrun|].
  assert (Hr : ParagraphHandler.ar_paragraph_index r = 0).
  { rewrite (add_paragraph_ok example_handler3 example_world "new" 0 (Some 0)
               three_paragraphs eq_refl ltac:(vm_compute; reflexivity) Hidx) in Hrun.
    injection Hrun as <- _. reflexivity. }
  specialize (Hshift 2 (par "C") ltac:(lia) eq_refl).
  rewrite Hr in Hshift. exact Hshift.
Defined.


(** ** Applying a paragraph format *)

Lemma with_section_twice (h : Handler) (si : Z) (s1 s2 : Section) :
  with_section (with_section h si s1) si s2 = with_section h si s2.
Proof.
  unfold with_section. simpl. destruct (document h) as [d|]; [|reflexivity].
  simpl. now rewrite list_insert_insert_eq.
Qed.

Lemma with_section_same (h : Handler) (si : Z) (sec : Section) :
  section_of h si = Some sec -> with_section h si sec = h.
Proof.
  intros Hs. apply section_of_Some in Hs as (d & Hd & _ & Hl).
  unfold with_section. rewrite Hd. rewrite list_insert_id by exact Hl.
  destruct h as [p o]. simpl in *. subst o. destruct d. reflexivity.
Qed.

Lemma with_paragraph_same (h : Handler) (sec : Section) (i : Z) (p : Paragraph) :
  section_of h 0 = Some sec -> Paragraphs sec !! Z.to_nat i = Some p ->
  with_paragraph h sec i p = h.
Proof.
  intros Hs Hp. unfold with_paragraph. rewrite list_insert_id by exact Hp.
  replace (set_Paragraphs (Paragraphs sec) sec) with sec by (destruct sec; reflexivity).
  now apply with_section_same.
Qed.

Lemma section_of_with_paragraph (h : Handler) (sec : Section) (i : Z) (p : Paragraph) :
  section_of h 0 = Some sec ->
  section_of (with_paragraph h sec i p) 0
  = Some (set_Paragraphs (<[Z.to_nat i := p]> (Paragraphs sec)) sec).
Proof. intros Hs. apply (section_of_with_section h 0 sec _ Hs). Qed.

Lemma set_format_focus (h : Handler) (w : World) (sec : Section) (i : Z) (p : Paragraph)
    (g : ParagraphFormat -> ParagraphFormat) :
  section_of h 0 = Some sec -> (Z.to_nat i < length (Paragraphs sec))%nat ->
  FormatHandler.set_format i g (with_paragraph h sec i p, w)
  = (Return tt, (with_paragraph h sec i (mkParagraph (Text p) (g (Format p))), w)).
Proof.
  intros Hs Hi. unfold FormatHandler.set_format.
  rewrite (update_section_ok _ _ _ _ _ (section_of_with_paragraph h sec i p Hs)).
  unfold with_paragraph. rewrite with_section_twice. simpl.
  rewrite (alter_lookup_insert _ _ _ p) by (now apply list_lookup_insert_eq).
  now rewrite list_insert_insert_eq.
Qed.

Lemma get_paragraph_focus (h : Handler) (w : World) (sec : Section) (i : Z) (p : Paragraph) :
  section_of h 0 = Some sec -> 0 <= i -> (Z.to_nat i < length (Paragraphs sec))%nat ->
  FormatHandler.get_paragraph i (with_paragraph h sec i p, w)
  = (Return p, (with_paragraph h sec i p, w)).
Proof.
  intros Hs Hi Hlt. unfold FormatHandler.get_paragraph, bind.
  rewrite (get_section_ok _ _ _ _ (section_of_with_paragraph h sec i p Hs)).
  unfold item. destruct (Z.ltb_spec i 0); [lia|]. simpl.
  now rewrite list_lookup_insert_eq.
Qed.

Lemma apply_number_focus (h : Handler) (w : World) (sec : Section) (i : Z) (p : Paragraph)
    (v : option PyVal) (setter : Number -> ParagraphFormat -> ParagraphFormat) :
  section_of h 0 = Some sec -> (Z.to_nat i < length (Paragraphs sec))%nat ->
  bad_number v = false ->
  FormatHandler.apply_number i v setter (with_paragraph h sec i p, w)
  = (Return tt,
     (with_paragraph h sec i (mkParagraph (Text p) (assign_number v setter (Format p))), w)).
Proof.
  intros Hs Hi Hv. unfold FormatHandler.apply_number, assign_number.
  destruct v as [x|].
  - unfold bad_number in Hv. apply orb_false_elim in Hv as [Hn _].
    unfold bind. destruct x; try discriminate Hn; simpl;
      now rewrite (set_format_focus h w sec i p _ Hs Hi).
  - destruct p. reflexivity.
Qed.

Lemma alignment_map_valid {S} (key : string) (s : S) :
  PyStr.mem key FormatHandler.valid_alignments = true ->
  FormatHandler.alignment_map key s = (Return (alignment_value key), s).
Proof.
  unfold PyStr.mem, FormatHandler.valid_alignments, FormatHandler.alignment_map,
    alignment_value. simpl.
  destruct (String.eqb key "left"); [reflexivity|].
  destruct (String.eqb key "center"); [reflexivity|].
  destruct (String.eqb key "right"); [reflexivity|].
  destruct (String.eqb key "justify"); [reflexivity | discriminate].
Qed.

Lemma rule_map_valid {S} (key : string) (s : S) :
  PyStr.mem key FormatHandler.valid_rules = true ->
  FormatHandler.rule_map key s = (Return (rule_value key), s).
Proof.
  unfold PyStr.mem, FormatHandler.valid_rules, FormatHandler.rule_map, rule_value. simpl.
  destruct (String.eqb key "at_least"); [reflexivity|].
  destruct (String.eqb key "exactly"); [reflexivity|].
  destruct (String.eqb key "multiple"); [reflexivity | discriminate].
Qed.

Lemma bad_enum_false (valid : list string) (v : PyVal) :
  bad_enum valid (Some v) = false ->
  exists s, v = PyStr s /\ PyStr.mem (PyStr.lower s) valid = true.
Proof.
  unfold bad_enum. destruct v; try discriminate.
  intros H. eexists. split; [reflexivity|]. now apply negb_false_iff.
Qed.

Lemma invalid_args_false (a : FormatHandler.Args) :
  invalid_args a = false ->
  bad_enum FormatHandler.valid_alignments (FormatHandler.alignment a) = false /\
  bad_enum FormatHandler.valid_rules (FormatHandler.line_spacing_rule a) = false /\
  bad_number (FormatHandler.first_line_indent a) = false /\
  bad_number (FormatHandler.left_indent a) = false /\
  bad_number (FormatHandler.right_indent a) = false /\
  bad_number (FormatHandler.line_spacing a) = false /\
  bad_number (FormatHandler.before_spacing a) = false /\
  bad_number (FormatHandler.after_spacing a) = false.
Proof.
  unfold invalid_args. intros H.
  repeat (apply orb_false_elim in H as [H ?]). repeat split; assumption.
Qed.

Section FormatRun.
Variable float_repr : spec_float -> string.

Lemma _validate_formatting_parameters_ok {S} (a : FormatHandler.Args) (s : S) :
  invalid_args a = false ->
  FormatHandler._validate_formatting_parameters float_repr a s = (Return tt, s).
Proof.
  intros H. apply invalid_args_false in H as (H1 & H2 & H3 & H4 & H5 & H6 & H7 & H8).
  unfold FormatHandler._validate_formatting_parameters.
  repeat (unfold bind at 1;
          first [rewrite validate_enum_ok by assumption
                | rewrite validate_number_ok by assumption]).
  now apply validate_number_ok.
Qed.

Lemma alignment_step (h : Handler) (w : World) (sec : Section) (i : Z) (p : Paragraph)
    (v : option PyVal) :
  section_of h 0 = Some sec -> (Z.to_nat i < length (Paragraphs sec))%nat ->
  bad_enum FormatHandler.valid_alignments v = false ->
  match v with
  | None => ret tt
  | Some x =>
      let! key := FormatHandler.py_lower x in
      let! al := FormatHandler.alignment_map key in
      FormatHandler.set_format i (FormatHandler.with_HorizontalAlignment al)
  end (with_paragraph h sec i p, w)
  = (Return tt,
     (with_paragraph h sec i
        (mkParagraph (Text p)
           match v with
           | Some x => FormatHandler.with_HorizontalAlignment
                         (alignment_value (lower_of x)) (Format p)
           | None => Format p
           end), w)).
Proof.
  intros Hs Hi Hv. destruct v as [x|]; [|destruct p; reflexivity].
  apply bad_enum_false in Hv as (s & -> & Hm).
  unfold bind at 1. cbn [FormatHandler.py_lower ret].
  unfold bind at 1. rewrite (alignment_map_valid _ _ Hm).
  now rewrite (set_format_focus h w sec i p _ Hs Hi).
Qed.

Lemma line_spacing_step (h : Handler) (w : World) (sec : Section) (i : Z) (p : Paragraph)
    (v r : option PyVal) :
  section_of h 0 = Some sec -> (Z.to_nat i < length (Paragraphs sec))%nat ->
  bad_number v = false -> bad_enum FormatHandler.valid_rules r = false ->
  match v with
  | None => ret tt
  | Some x =>
      let! n := FormatHandler.as_number x in
      FormatHandler.set_format i (FormatHandler.with_LineSpacing n);;
      match r with
      | None => ret tt
      | Some y =>
          let! key := FormatHandler.py_lower y in
          let! rule := FormatHandler.rule_map key in
          FormatHandler.set_format i (FormatHandler.with_LineSpacingRule rule)
      end
  end (with_paragraph h sec i p, w)
  = (Return tt,
     (with_paragraph h sec i
        (mkParagraph (Text p)
           match v with
           | Some x =>
               let g := FormatHandler.with_LineSpacing (number_of x) (Format p) in
               match r with
               | Some y => FormatHandler.with_LineSpacingRule (rule_value (lower_of y)) g
               | None => g
               end
           | None => Format p
           end), w)).
Proof.
  intros Hs Hi Hv Hr. destruct v as [x|]; [|destruct p; reflexivity].
  unfold bad_number in Hv. apply orb_false_elim in Hv as [Hn _].
  assert (Hnum : FormatHandler.as_number (S := HState) x (with_paragraph h sec i p, w)
                 = (Return (number_of x), (with_paragraph h sec i p, w)))
    by (destruct x; try discriminate Hn; reflexivity).
  unfold bind at 1. rewrite Hnum.
  unfold bind at 1. rewrite (set_format_focus h w sec i p _ Hs Hi).
  destruct r as [y|]; [|reflexivity].
  apply bad_enum_false in Hr as (s & -> & Hm).
  unfold bind at 1. cbn [FormatHandler.py_lower ret].
  unfold bind at 1. rewrite (rule_map_valid _ _ Hm).
  now rewrite (set_format_focus h w sec i _ _ Hs Hi).
Qed.

Lemma format_paragraph_focus (h : Handler) (w : World) (sec : Section) (i : Z)
    (p : Paragraph) (a : FormatHandler.Args) :
  section_of h 0 = Some sec -> 0 <= i < Count (Paragraphs sec) ->
  invalid_args a = false ->
  let p' := mkParagraph (Text p) (applied_format a (Format p)) in
  let h' := with_paragraph h sec i p' in
  can_save w (doc_path h) = true ->
  FormatHandler.format_paragraph float_repr i a (with_paragraph h sec i p, w)
  = (Return (FormatHandler.mkFormatResult i (doc_path h) (Format p)
               (applied_format a (Format p))
               (FormatHandler.mkChanges
                  (FormatHandler.is_not_None (FormatHandler.alignment a))
                  (FormatHandler.is_not_None (FormatHandler.first_line_indent a))
                  (FormatHandler.is_not_None (FormatHandler.left_indent a))
                  (FormatHandler.is_not_None (FormatHandler.right_indent a))
                  (FormatHandler.is_not_None (FormatHandler.line_spacing a))
                  (FormatHandler.is_not_None (FormatHandler.line_spacing_rule a))
                  (FormatHandler.is_not_None (FormatHandler.before_spacing a))
                  (FormatHandler.is_not_None (FormatHandler.after_spacing a)))),
     (h', saved h' w)).
Proof.
  intros Hs Hi Ha p' h' Hsave.
  pose proof (invalid_args_false a Ha) as (H1 & H2 & H3 & H4 & H5 & H6 & H7 & H8).
  assert (Hlt : (Z.to_nat i < length (Paragraphs sec))%nat) by (unfold Count in Hi; lia).
  unfold FormatHandler.format_paragraph, try_except.
  unfold bind at 1.
  rewrite (_validate_paragraph_index_ok _ _ _ _ _ (section_of_with_paragraph h sec i p Hs))
    by (unfold Count in *; simpl; rewrite length_insert; lia).
  unfold bind at 1. rewrite (_validate_formatting_parameters_ok a _ Ha).
  unfold bind at 1. rewrite (get_paragraph_focus h w sec i p Hs (proj1 Hi) Hlt).
  cbv beta iota.
  unfold bind at 1.
  rewrite (alignment_step h w sec i p _ Hs Hlt H1).
  unfold bind at 1. rewrite (apply_number_focus h w sec i _ _ _ Hs Hlt H3).
  unfold bind at 1. rewrite (apply_number_focus h w sec i _ _ _ Hs Hlt H4).
  unfold bind at 1. rewrite (apply_number_focus h w sec i _ _ _ Hs Hlt H5).
  unfold bind at 1. rewrite (line_spacing_step h w sec i _ _ _ Hs Hlt H6 H2).
  unfold bind at 1. rewrite (apply_number_focus h w sec i _ _ _ Hs Hlt H7).
  unfold bind at 1. rewrite (apply_number_focus h w sec i _ _ _ Hs Hlt H8).
  cbn [Text Format].
  change (mkParagraph (Text p) _) with p'. fold h'.
  destruct (document_with_section h 0 sec
              (set_Paragraphs (<[Z.to_nat i := p']> (Paragraphs sec)) sec) Hs) as [d' Hd'].
  fold (with_paragraph h sec i p') in Hd'. fold h' in Hd'.
  unfold bind at 1. rewrite (save_document_saved h' w d' Hd' Hsave).
  unfold bind at 1. unfold h' at 1.
  rewrite (get_paragraph_focus h (saved h' w) sec i p' Hs (proj1 Hi) Hlt).
  reflexivity.
Qed.

Lemma get_paragraph_format_ok (h : Handler) (w : World) (sec : Section) (i : Z)
    (p : Paragraph) :
  section_of h 0 = Some sec -> 0 <= i -> Paragraphs sec !! Z.to_nat i = Some p ->
  FormatHandler.get_paragraph_format i (h, w) = (Return (Format p), (h, w)).
Proof.
  intros Hs Hi Hp. unfold FormatHandler.get_paragraph_format, try_except.
  unfold bind at 1.
  rewrite (_validate_paragraph_index_ok h w i 0 sec Hs)
    by (split; [lia | eapply lookup_Z_lt; eauto]).
  unfold FormatHandler.get_paragraph, bind.
  rewrite (get_section_ok _ _ _ _ Hs). unfold item.
  destruct (Z.ltb_spec i 0); [lia|]. rewrite Hp. reflexivity.
Qed.

Lemma format_paragraph_ok (h : Handler) (w : World) (sec : Section) (i : Z)
    (p : Paragraph) (a : FormatHandler.Args) :
  section_of h 0 = Some sec -> 0 <= i -> Paragraphs sec !! Z.to_nat i = Some p ->
  invalid_args a = false -> can_save w (doc_path h) = true ->
  exists (r : FormatHandler.FormatResult) (h' : Handler) (sec' : Section),
    FormatHandler.format_paragraph float_repr i a (h, w) = (Return r, (h', saved h' w)) /\
    FormatHandler.fr_original_formatting r = Format p /\
    FormatHandler.fr_current_formatting r = applied_format a (Format p) /\
    FormatHandler.fr_changes_applied r
    = FormatHandler.mkChanges
        (FormatHandler.is_not_None (FormatHandler.alignment a))
        (FormatHandler.is_not_None (FormatHandler.first_line_indent a))
        (FormatHandler.is_not_None (FormatHandler.left_indent a))
        (FormatHandler.is_not_None (FormatHandler.right_indent a))
        (FormatHandler.is_not_None (FormatHandler.line_spacing a))
        (FormatHandler.is_not_None (FormatHandler.line_spacing_rule a))
        (FormatHandler.is_not_None (FormatHandler.before_spacing a))
        (FormatHandler.is_not_None (FormatHandler.after_spacing a)) /\
    section_of h' 0 = Some sec' /\
    Paragraphs sec'
    = <[Z.to_nat i := mkParagraph (Text p) (applied_format a (Format p))]> (Paragraphs sec) /\
    Tables sec' = Tables sec.
Proof.
  intros Hs Hi Hp Ha Hsave.
  assert (Hr : 0 <= i < Count (Paragraphs sec))
    by (split; [lia | eapply lookup_Z_lt; eauto]).
  pose proof (format_paragraph_focus h w sec i p a Hs Hr Ha Hsave) as Hrun.
  cbv zeta in Hrun. rewrite (with_paragraph_same h sec i p Hs Hp) in Hrun at 1.
  eexists _, _,
    (set_Paragraphs
       (<[Z.to_nat i := mkParagraph (Text p) (applied_format a (Format p))]> (Paragraphs sec))
       sec).
  split; [exact Hrun|].
  do 3 (split; [reflexivity|]).
  split; [apply (section_of_with_paragraph h sec i _ Hs)|].
  split; reflexivity.
Qed.

(** X9: once the index and the arguments are accepted and the file can be
    written, [format_paragraph] returns; the formatting it reports as
    original is what [get_paragraph_format] gave before the call, the one
    it reports as current is what [get_paragraph_format] gives after it,
    the text of the paragraph is unchanged, and the document on disk is the
    one in memory. *)
Theorem format_paragraph_reads_back (h : Handler) (w : World) (sec : Section) (i : Z)
    (p : Paragraph) (a : FormatHandler.Args) :
  section_of h 0 = Some sec -> 0 <= i -> Paragraphs sec !! Z.to_nat i = Some p ->
  invalid_args a = false -> can_save w (doc_path h) = true ->
  exists (r : FormatHandler.FormatResult) (s' : HState),
    FormatHandler.format_paragraph float_repr i a (h, w) = (Return r, s') /\
    fst (FormatHandler.get_paragraph_format i (h, w))
    = Return (FormatHandler.fr_original_formatting r) /\
    fst (FormatHandler.get_paragraph_format i s')
    = Return (FormatHandler.fr_current_formatting r) /\
    fst (ParagraphHandler.get_paragraph_text i 0 s')
    = Return (ParagraphHandler.mkTextResult 0 i (Text p)) /\
    snd s' = saved (fst s') w.
Proof.
  intros Hs Hi Hp Ha Hsave.
  destruct (format_paragraph_ok h w sec i p a Hs Hi Hp Ha Hsave)
    as (r & h' & sec' & Hrun & Ho & Hc & _ & Hs' & Hps & _).
  assert (Hp' : Paragraphs sec' !! Z.to_nat i
                = Some (mkParagraph (Text p) (applied_format a (Format p)))).
  { rewrite Hps. apply list_lookup_insert_eq. now apply lookup_lt_Some in Hp. }
  exists r, (h', saved h' w). split; [exact Hrun|].
  rewrite (get_paragraph_format_ok h w sec i p Hs Hi Hp).
  rewrite (get_paragraph_format_ok h' _ sec' i _ Hs' Hi Hp').
  rewrite (get_paragraph_text_ok h' _ i 0 sec' _ Hs' Hi Hp').
  rewrite Ho, Hc. repeat split.
Qed.

(** X10: a formatting property whose argument is absent keeps its value,
    and the line spacing rule is assigned only together with a line
    spacing: given alone it is reported in [changes_applied] and leaves the
    rule of the paragraph as it was. *)
Theorem format_paragraph_keeps_absent_fields (h : Handler) (w : World) (sec : Section)
    (i : Z) (p : Paragraph) (a : FormatHandler.Args)
    (r : FormatHandler.FormatResult) (s' : HState) :
  section_of h 0 = Some sec -> 0 <= i -> Paragraphs sec !! Z.to_nat i = Some p ->
  invalid_args a = false -> can_save w (doc_path h) = true ->
  FormatHandler.format_paragraph float_repr i a (h, w) = (Return r, s') ->
  let o := FormatHandler.fr_original_formatting r in
  let c := FormatHandler.fr_current_formatting r in
  (FormatHandler.alignment a = None ->
   fmt_HorizontalAlignment c = fmt_HorizontalAlignment o) /\
  (FormatHandler.first_line_indent a = None ->
   fmt_FirstLineIndent c = fmt_FirstLineIndent o) /\
  (FormatHandler.left_indent a = None -> fmt_LeftIndent c = fmt_LeftIndent o) /\
  (FormatHandler.right_indent a = None -> fmt_RightIndent c = fmt_RightIndent o) /\
  (FormatHandler.line_spacing a = None ->
   fmt_LineSpacing c = fmt_LineSpacing o /\
   fmt_LineSpacingRule c = fmt_LineSpacingRule o /\
   FormatHandler.ch_line_spacing_rule (FormatHandler.fr_changes_applied r)
   = FormatHandler.is_not_None (FormatHandler.line_spacing_rule a)) /\
  (FormatHandler.line_spacing_rule a = None ->
   fmt_LineSpacingRule c = fmt_LineSpacingRule o) /\
  (FormatHandler.before_spacing a = None ->
   fmt_BeforeSpacing c = fmt_BeforeSpacing o) /\
  (FormatHandler.after_spacing a = None -> fmt_AfterSpacing c = fmt_AfterSpacing o).
Proof.
  intros Hs Hi Hp Ha Hsave Hrun o c.
  destruct (format_paragraph_ok h w sec i p a Hs Hi Hp Ha Hsave)
    as (r0 & h' & sec' & Hrun0 & Ho & Hc & Hch & _).
  rewrite Hrun0 in Hrun. injection Hrun as <- _.
  subst o c. rewrite Ho, Hc, Hch. clear.
  destruct a as [al fl le ri ls lr be af]. unfold applied_format, assign_number.
  cbn [FormatHandler.alignment FormatHandler.first_line_indent FormatHandler.left_indent
       FormatHandler.right_indent FormatHandler.line_spacing
       FormatHandler.line_spacing_rule FormatHandler.before_spacing
       FormatHandler.after_spacing FormatHandler.ch_line_spacing_rule].
  repeat split; intros; subst;
    repeat match goal with x : option PyVal |- _ => destruct x end; reflexivity.
Qed.

(** X11: a formatting property whose argument is given takes that value;
    the alignment and the line spacing rule are looked up by their
    lower-cased name, and the rule needs a line spacing beside it. *)
Theorem format_paragraph_sets_given_fields (h : Handler) (w : World) (sec : Section)
    (i : Z) (p : Paragraph) (a : FormatHandler.Args)
    (r : FormatHandler.FormatResult) (s' : HState) :
  section_of h 0 = Some sec -> 0 <= i -> Paragraphs sec !! Z.to_nat i = Some p ->
  invalid_args a = false -> can_save w (doc_path h) = true ->
  FormatHandler.format_paragraph float_repr i a (h, w) = (Return r, s') ->
  let c := FormatHandler.fr_current_formatting r in
  (forall name, FormatHandler.alignment a = Some (PyStr name) ->
   fmt_HorizontalAlignment c = alignment_value (PyStr.lower name)) /\
  (forall v, FormatHandler.first_line_indent a = Some v ->
   fmt_FirstLineIndent c = number_of v) /\
  (forall v, FormatHandler.left_indent a = Some v -> fmt_LeftIndent c = number_of v) /\
  (forall v, FormatHandler.right_indent a = Some v -> fmt_RightIndent c = number_of v) /\
  (forall v, FormatHandler.line_spacing a = Some v -> fmt_LineSpacing c = number_of v) /\
  (forall v name, FormatHandler.line_spacing a = Some v ->
   FormatHandler.line_spacing_rule a = Some (PyStr name) ->
   fmt_LineSpacingRule c = rule_value (PyStr.lower name)) /\
  (forall v, FormatHandler.before_spacing a = Some v ->
   fmt_BeforeSpacing c = number_of v) /\
  (forall v, FormatHandler.after_spacing a = Some v -> fmt_AfterSpacing c = number_of v).
Proof.
  intros Hs Hi Hp Ha Hsave Hrun c.
  destruct (format_paragraph_ok h w sec i p a Hs Hi Hp Ha Hsave)
    as (r0 & h' & sec' & Hrun0 & _ & Hc & _).
  rewrite Hrun0 in Hrun. injection Hrun as <- _.
  subst c. rewrite Hc. clear.
  destruct a as [al fl le ri ls lr be af]. unfold applied_format, assign_number.
  cbn [FormatHandler.alignment FormatHandler.first_line_indent FormatHandler.left_indent
       FormatHandler.right_indent FormatHandler.line_spacing
       FormatHandler.line_spacing_rule FormatHandler.before_spacing
       FormatHandler.after_spacing].
  repeat split; intros; subst;
    repeat match goal with x : option PyVal |- _ => destruct x end; reflexivity.
Qed.

Lemma format_paragraph_unsaved (h : Handler) (w : World) (sec : Section) (i : Z)
    (p : Paragraph) (a : FormatHandler.Args) :
  section_of h 0 = Some sec -> 0 <= i < Count (Paragraphs sec) ->
  invalid_args a = false ->
  let h' := with_paragraph h sec i (mkParagraph (Text p) (applied_format a (Format p))) in
  can_save w (doc_path h) = false ->
  exists cause : Exn,
    FormatHandler.format_paragraph float_repr i a (with_paragraph h sec i p, w)
    = (Raise (DocumentError ("Failed to save document: " ++ exn_message cause)), (h', w)).
Proof.
  intros Hs Hi Ha h' Hsave.
  pose proof (invalid_args_false a Ha) as (H1 & H2 & H3 & H4 & H5 & H6 & H7 & H8).
  assert (Hlt : (Z.to_nat i < length (Paragraphs sec))%nat) by (unfold Count in Hi; lia).
  destruct (document_with_section h 0 sec
              (set_Paragraphs
                 (<[Z.to_nat i := mkParagraph (Text p) (applied_format a (Format p))]>
                    (Paragraphs sec)) sec) Hs) as [d' Hd'].
  fold (with_paragraph h sec i (mkParagraph (Text p) (applied_format a (Format p)))) in Hd'.
  fold h' in Hd'.
  destruct (save_document_fail h' w d' Hd' Hsave) as [cause Hfail].
  exists cause.
  unfold FormatHandler.format_paragraph, try_except.
  unfold bind at 1.
  rewrite (_validate_paragraph_index_ok _ _ _ _ _ (section_of_with_paragraph h sec i p Hs))
    by (unfold Count in *; simpl; rewrite length_insert; lia).
  unfold bind at 1. rewrite (_validate_formatting_parameters_ok a _ Ha).
  unfold bind at 1. rewrite (get_paragraph_focus h w sec i p Hs (proj1 Hi) Hlt).
  cbv beta iota.
  unfold bind at 1.
  rewrite (alignment_step h w sec i p _ Hs Hlt H1).
  unfold bind at 1. rewrite (apply_number_focus h w sec i _ _ _ Hs Hlt H3).
  unfold bind at 1. rewrite (apply_number_focus h w sec i _ _ _ Hs Hlt H4).
  unfold bind at 1. rewrite (apply_number_focus h w sec i _ _ _ Hs Hlt H5).
  unfold bind at 1. rewrite (line_spacing_step h w sec i _ _ _ Hs Hlt H6 H2).
  unfold bind at 1. rewrite (apply_number_focus h w sec i _ _ _ Hs Hlt H7).
  unfold bind at 1. rewrite (apply_number_focus h w sec i _ _ _ Hs Hlt H8).
  cbn [Text Format].
  change (with_paragraph h sec i (mkParagraph (Text p) _)) with h'.
  unfold bind at 1. rewrite Hfail. reflexivity.
Qed.

(** X12: when the index and the arguments are accepted and the file
    cannot be written, [format_paragraph] raises the DocumentError of the
    failed save; no file has changed, and the document in memory carries
    the new formatting all the same. *)
Theorem format_paragraph_failed_save_keeps_changes (h : Handler) (w : World)
    (sec : Section) (i : Z) (p : Paragraph) (a : FormatHandler.Args) :
  section_of h 0 = Some sec -> 0 <= i -> Paragraphs sec !! Z.to_nat i = Some p ->
  invalid_args a = false -> can_save w (doc_path h) = false ->
  exists (cause : Exn) (h' : Handler),
    FormatHandler.format_paragraph float_repr i a (h, w)
    = (Raise (DocumentError ("Failed to save document: " ++ exn_message cause)), (h', w)) /\
    fst (FormatHandler.get_paragraph_format i (h', w))
    = Return (applied_format a (Format p)).
Proof.
  intros Hs Hi Hp Ha Hsave.
  assert (Hr : 0 <= i < Count (Paragraphs sec))
    by (split; [lia | eapply lookup_Z_lt; eauto]).
  destruct (format_paragraph_unsaved h w sec i p a Hs Hr Ha Hsave) as [cause Hrun].
  rewrite (with_paragraph_same h sec i p Hs Hp) in Hrun at 1.
  eexists cause, _. split; [exact Hrun|].
  rewrite (get_paragraph_format_ok _ w _ i
             (mkParagraph (Text p) (applied_format a (Format p)))
             (section_of_with_paragraph h sec i
                (mkParagraph (Text p) (applied_format a (Format p))) Hs) Hi).
  - reflexivity.
  - apply list_lookup_insert_eq. now apply lookup_lt_Some in Hp.
Qed.

End FormatRun.

(** The example arguments on paragraph 1 of a section of three. *)
Lemma format_paragraph_sets_given_fields_witness :
  exists (r : FormatHandler.FormatResult),
    fmt_HorizontalAlignment (FormatHandler.fr_current_formatting r) = Center /\
    fmt_LeftIndent (FormatHandler.fr_current_formatting r) = NInt 12 /\
    fst (FormatHandler.format_paragraph example_float_repr 1 example_args
           (example_handler3, example_world)) = Return r.
Proof.
  eexists.
  pose proof (format_paragraph_sets_given_fields example_float_repr example_handler3
                example_world three_paragraphs 1 (par "B") example_args _ _ eq_refl
                ltac:(lia) eq_refl eq_refl eq_refl eq_refl) as H.
  cbv zeta in H. destruct H as (Ha & _ & Hl & _).
  split; [exact (Ha _ eq_refl)|]. split; [exact (Hl _ eq_refl)|]. reflexivity.
Defined.

(** The example arguments on a document that cannot be written. *)
Lemma format_paragraph_failed_save_keeps_changes_witness :
  exists (cause : Exn) (h' : Handler),
    FormatHandler.format_paragraph example_float_repr 1 example_args
      (example_handler3, read_only_world)
    = (Raise (DocumentError ("Failed to save document: " ++ exn_message cause)),
       (h', read_only_world)) /\
    fst (FormatHandler.get_paragraph_format 1 (h', read_only_world))
    = Return (applied_format example_args (Format (par "B"))).
Proof.
  apply (format_paragraph_failed_save_keeps_changes example_float_repr example_handler3
           read_only_world three_paragraphs 1 (par "B") example_args);
    first [reflexivity | lia].
Defined.

(** The example: paragraph 1 of a section of three. *)
Lemma format_paragraph_reads_back_witness :
  exists (r : FormatHandler.FormatResult) (s' : HState),
    FormatHandler.format_paragraph example_float_repr 1 example_args
      (example_handler3, example_world) = (Return r, s') /\
    fst (FormatHandler.get_paragraph_format 1 (example_handler3, example_world))
    = Return (FormatHandler.fr_original_formatting r) /\
    fst (FormatHandler.get_paragraph_format 1 s')
    = Return (FormatHandler.fr_current_formatting r) /\
    fst (ParagraphHandler.get_paragraph_text 1 0 s')
    = Return (ParagraphHandler.mkTextResult 0 1 (Text (par "B"))) /\
    snd s' = saved (fst s') example_world.
Proof.
  apply (format_paragraph_reads_back example_float_repr example_handler3 example_world three_paragraphs 1
           (par "B") example_args); first [reflexivity | lia].
Defined.

(** The example arguments give a line spacing rule and no line spacing. *)
Lemma format_paragraph_keeps_absent_fields_witness :
  exists (r : FormatHandler.FormatResult),
    fmt_LineSpacingRule (FormatHandler.fr_current_formatting r)
    = fmt_LineSpacingRule (FormatHandler.fr_original_formatting r) /\
    FormatHandler.ch_line_spacing_rule (FormatHandler.fr_changes_applied r) = true /\
    fst (FormatHandler.format_paragraph example_float_repr 1 example_args
           (example_handler3, example_world)) = Return r.
Proof.
  eexists.
  pose proof (format_paragraph_keeps_absent_fields example_float_repr example_handler3 example_world
                three_paragraphs 1 (par "B") example_args _ _ eq_refl
                ltac:(lia) eq_refl eq_refl eq_refl eq_refl) as H.
  cbv zeta in H. destruct H as (_ & _ & _ & _ & H & _).
  destruct (H eq_refl) as (_ & Hr & Hc).
  split; [exact Hr|]. split; [exact Hc|]. reflexivity.
Defined.


(** ** Tables *)

Lemma isinstance_class (e : Exn) (c : ExnClass) :
  c <> ClsSpireDocError -> isinstance e c = true -> exn_class e = c.
Proof.
  intros Hc H. destruct e as [k m x]. simpl.
  destruct c, k; simpl in H; try discriminate H; try reflexivity; try congruence.
  apply String.eqb_eq in H. now subst.
Qed.

(** The pattern of the handlers: [except Exception as e] re-raises an
    error of the handler's class and wraps every other one into it. *)
Lemma try_except_raises_only {S A} (c : ExnClass) (m : M S A) (wrap : Exn -> Exn) :
  c <> ClsSpireDocError -> (forall e, exn_class (wrap e) = c) ->
  raises_only c
    (try_except m (fun e => if isinstance e c then raise e else raise (wrap e))).
Proof.
  intros Hc Hw s s' e. unfold try_except.
  destruct (m s) as [[a|e0] s0]; [discriminate|].
  destruct (isinstance e0 c) eqn:Hi; unfold raise; intros H; injection H as <- _.
  - now apply isinstance_class.
  - apply Hw.
Qed.

Lemma columns_of_nonneg (t : Table) : 0 <= TableHandler.columns_of t.
Proof.
  unfold TableHandler.columns_of. destruct (Rows t); [lia | apply Count_nonneg].
Qed.

(** X13: [get_table_info] changes neither the handler nor the files; what
    it raises is a [TableError] with the code [TABLE_INFO_ERROR], whatever
    failed; what it returns names the table asked for, and its cell count
    is the product of the row count and the column count, both
    non-negative. *)
Theorem get_table_info_reads_only (table_index section_index : Z) (s : HState) :
  snd (TableHandler.get_table_info table_index section_index s) = s /\
  match fst (TableHandler.get_table_info table_index section_index s) with
  | Raise e => exn_class e = ClsTableError /\ exn_code e = "TABLE_INFO_ERROR"
  | Return info =>
      TableHandler.ti_table_index info = table_index /\
      TableHandler.ti_section_index info = section_index /\
      0 <= TableHandler.ti_rows info /\ 0 <= TableHandler.ti_columns info /\
      TableHandler.ti_total_cells info
      = TableHandler.ti_rows info * TableHandler.ti_columns info
  end.
Proof.
  destruct s as [h w]. unfold TableHandler.get_table_info, _validate_section_index,
    get_section.
  munfold. mcases; munfold; repeat split; try reflexivity;
    first [apply Count_nonneg | apply columns_of_nonneg].
Qed.

(** X14: whatever the arguments and the state, an exception that leaves
    a method of [TableHandler] is a [TableError]. *)
Theorem table_methods_raise_only_TableError (known_style : string -> bool)
    (rows columns table_index row column section_index paragraph_index : Z)
    (paragraph : option Z) (style : option string) (text : string) :
  raises_only ClsTableError (TableHandler.get_table_info table_index section_index) /\
  raises_only ClsTableError
    (TableHandler.create_table known_style rows columns section_index paragraph style) /\
  raises_only ClsTableError
    (TableHandler.add_table_after_paragraph known_style rows columns section_index
       paragraph_index style) /\
  raises_only ClsTableError
    (TableHandler.add_table_to_section known_style rows columns section_index style) /\
  raises_only ClsTableError (TableHandler.delete_table table_index section_index) /\
  raises_only ClsTableError
    (TableHandler.set_cell_text table_index row column text section_index).
Proof.
  repeat split; apply try_except_raises_only; (discriminate || reflexivity).
Qed.

Lemma get_table_info_invalid (h : Handler) (w : World) (ti si : Z) :
  (forall sec, section_of h si = Some sec -> ~ 0 <= ti < Count (Tables sec)) ->
  exists e, TableHandler.get_table_info ti si (h, w) = (Raise e, (h, w))
            /\ exn_class e = ClsTableError /\ exn_code e = "TABLE_INFO_ERROR".
Proof.
  intros Hbad.
  destruct (section_of h si) as [sec|] eqn:Hs.
  - specialize (Hbad sec eq_refl).
    unfold TableHandler.get_table_info. unfold try_except, bind at 1.
    rewrite (_validate_section_index_ok _ _ _ _ Hs).
    unfold bind at 1. rewrite (get_section_ok _ _ _ _ Hs).
    unfold bind at 1. unfold raise_if.
    destruct (Z.ltb_spec ti 0); [simpl; eauto|].
    destruct (Z.geb_spec ti (Count (Tables sec))); [simpl; eauto | lia].
  - destruct (_validate_section_index_fail h w si Hs) as (e & He & Hc).
    unfold TableHandler.get_table_info. unfold try_except, bind at 1. rewrite He.
    rewrite (table_error_wrap e Hc). simpl. eauto.
Qed.

(** X15: for a table index that names no table of the section,
    [delete_table] and [set_cell_text] raise the error of
    [get_table_info], with its code [TABLE_INFO_ERROR] and not their own,
    and leave the handler and the files as they were. *)
Theorem table_methods_reject_bad_table_index (h : Handler) (w : World)
    (ti si row column : Z) (text : string) :
  (forall sec, section_of h si = Some sec -> ~ 0 <= ti < Count (Tables sec)) ->
  exists e : Exn,
    exn_class e = ClsTableError /\ exn_code e = "TABLE_INFO_ERROR" /\
    TableHandler.get_table_info ti si (h, w) = (Raise e, (h, w)) /\
    TableHandler.delete_table ti si (h, w) = (Raise e, (h, w)) /\
    TableHandler.set_cell_text ti row column text si (h, w) = (Raise e, (h, w)).
Proof.
  intros Hbad.
  destruct (get_table_info_invalid h w ti si Hbad) as (e & He & Hc & Hcode).
  assert (Hi : isinstance e ClsTableError = true)
    by (unfold isinstance; now rewrite Hc).
  exists e. repeat split; try assumption.
  - unfold TableHandler.delete_table, try_except, bind. rewrite He, Hi. reflexivity.
  - unfold TableHandler.set_cell_text, try_except, bind. rewrite He, Hi. reflexivity.
Qed.

(** The theorem at table 1 of the section with one table. *)
Lemma table_methods_reject_bad_table_index_witness :
  exists e : Exn,
    exn_code e = "TABLE_INFO_ERROR" /\
    TableHandler.delete_table 1 0 (example_handler_table, example_world)
    = (Raise e, (example_handler_table, example_world)).
Proof.
  assert (Hbad : forall sec, section_of example_handler_table 0 = Some sec ->
                             ~ 0 <= 1 < Count (Tables sec)).
  { intros sec Hs. injection Hs as <-. vm_compute. intros [_ H]. discriminate H. }
  destruct (table_methods_reject_bad_table_index example_handler_table example_world
              1 0 0 0 "" Hbad) as (e & _ & Hcode & _ & Hdel & _).
  exists e. split; assumption.
Defined.

Lemma Count_repeat {A} (x : A) (n : Z) : 0 <= n -> Count (repeat x (Z.to_nat n)) = n.
Proof. intros Hn. unfold Count. rewrite repeat_length. lia. Qed.

Section AddedTables.
Variable known_style : string -> bool.

Lemma created_table_rows (rows columns : Z) (style : option string) :
  0 <= rows ->
  Count (Rows (created_table known_style rows columns style)) = rows.
Proof.
  intros Hr. unfold created_table.
  destruct style as [s|]; [destruct (String.eqb s ""); [|destruct (known_style s)]|];
    simpl; now apply Count_repeat.
Qed.

Lemma created_table_columns (rows columns : Z) (style : option string) :
  0 < rows -> 0 <= columns ->
  TableHandler.columns_of (created_table known_style rows columns style) = columns.
Proof.
  intros Hr Hc. unfold created_table, TableHandler.columns_of.
  assert (E : Rows (TableHandler.ResetCells rows columns TableHandler.new_table)
              = repeat (mkCell []) (Z.to_nat columns)
                  :: repeat (repeat (mkCell []) (Z.to_nat columns)) (Z.to_nat rows - 1)).
  { simpl. destruct (Z.to_nat rows) as [|n] eqn:E; [lia|]. simpl.
    now rewrite Nat.sub_0_r. }
  destruct style as [s|]; [destruct (String.eqb s ""); [|destruct (known_style s)]|];
    simpl Rows; rewrite ?E; try (simpl in E; rewrite E); now apply Count_repeat.
Qed.

Lemma out_of_range_false (rows columns : Z) :
  out_of_range rows columns = false -> 0 < rows <= 1000 /\ 0 < columns <= 100.
Proof.
  unfold out_of_range. intros H.
  repeat (apply orb_false_elim in H as [H ?]). lia.
Qed.

Lemma created_info (h : Handler) (w : World) (si rows columns : Z) (sec : Section)
    (pi : option Z) (style : option string) :
  section_of h si = Some sec -> out_of_range rows columns = false ->
  let h' := with_section h si
              (set_Tables (created_tables known_style sec rows columns pi style) sec) in
  TableHandler.get_table_info (Z.of_nat (created_position sec pi)) si (h', w)
  = (Return (TableHandler.mkTableInfo (Z.of_nat (created_position sec pi)) si rows columns
               (rows * columns)), (h', w)).
Proof.
  intros Hs Hd h'. apply out_of_range_false in Hd as [Hr Hc].
  rewrite (get_table_info_ok h' w _ si _ (created_table known_style rows columns style)
             (section_of_with_section h si sec _ Hs)).
  - rewrite created_table_rows, created_table_columns by lia. reflexivity.
  - lia.
  - simpl. rewrite Nat2Z.id. apply lookup_insert_at. apply created_position_le.
Qed.

(** X16: a table added with dimensions within the limits is found by
    [get_table_info] with the rows and columns asked for:
    [add_table_to_section] appends it and reports its index, and
    [add_table_after_paragraph] puts it at the paragraph index plus one,
    or at the end when the section has fewer tables. *)
Theorem added_table_has_requested_dimensions (h : Handler) (w : World)
    (si rows columns : Z) (sec : Section) (style : option string) :
  section_of h si = Some sec -> out_of_range rows columns = false ->
  can_save w (doc_path h) = true ->
  (exists (r : TableHandler.CreateResult) (s' : HState),
     TableHandler.add_table_to_section known_style rows columns si style (h, w)
     = (Return r, s') /\
     TableHandler.cr_table_index r = Count (Tables sec) /\
     fst (TableHandler.get_table_info (TableHandler.cr_table_index r) si s')
     = Return (TableHandler.mkTableInfo (Count (Tables sec)) si rows columns
                 (rows * columns))) /\
  (forall p : Z, 0 <= p < Count (Paragraphs sec) ->
   exists (r : TableHandler.CreateResult) (s' : HState),
     TableHandler.add_table_after_paragraph known_style rows columns si p style (h, w)
     = (Return r, s') /\
     fst (TableHandler.get_table_info (Z.min (p + 1) (Count (Tables sec))) si s')
     = Return (TableHandler.mkTableInfo (Z.min (p + 1) (Count (Tables sec))) si
                 rows columns (rows * columns))).
Proof.
  intros Hs Hd Hw. split.
  - destruct (create_table_run known_style rows columns si None style h w sec Hs)
      as [Hrun _]; [discriminate | exact Hd |].
    cbv zeta in Hrun. specialize (Hrun Hw).
    eexists _, _. split; [exact Hrun|].
    cbn [TableHandler.cr_table_index fst].
    assert (E : Count (created_tables known_style sec rows columns None style) - 1
                = Count (Tables sec)).
    { unfold created_tables, Count. rewrite length_insert_at. lia. }
    rewrite E. split; [reflexivity|].
    pose proof (created_info h (saved
                  (with_section h si
                     (set_Tables (created_tables known_style sec rows columns None style)
                        sec)) w) si rows columns sec None style Hs Hd) as Hinfo.
    cbv zeta in Hinfo. cbn [created_position] in Hinfo. fold (Count (Tables sec)) in Hinfo.
    now rewrite Hinfo.
  - intros p Hp.
    destruct (create_table_run known_style rows columns si (Some p) style h w sec Hs)
      as [Hrun _]; [intros q [= <-]; exact Hp | exact Hd |].
    cbv zeta in Hrun. specialize (Hrun Hw).
    eexists _, _. split; [exact Hrun|]. cbn [fst].
    pose proof (created_info h (saved
                  (with_section h si
                     (set_Tables (created_tables known_style sec rows columns (Some p)
                                    style) sec)) w) si rows columns sec (Some p) style
                  Hs Hd) as Hinfo.
    cbv zeta in Hinfo. cbn [created_position] in Hinfo.
    pose proof (Count_nonneg (Tables sec)).
    rewrite Z2Nat.id in Hinfo by lia.
    now rewrite Hinfo.
Qed.

End AddedTables.

(** The theorem on the section with two paragraphs and two tables. *)
Lemma added_table_has_requested_dimensions_witness :
  exists (r : TableHandler.CreateResult) (s' : HState),
    TableHandler.add_table_to_section no_style 4 5 0 None
      (example_handler_tables, example_world) = (Return r, s') /\
    TableHandler.cr_table_index r = 2 /\
    fst (TableHandler.get_table_info (TableHandler.cr_table_index r) 0 s')
    = Return (TableHandler.mkTableInfo 2 0 4 5 20).
Proof.
  destruct (added_table_has_requested_dimensions no_style example_handler_tables
              example_world 0 4 5 two_tables None eq_refl eq_refl eq_refl) as [H _].
  exact H.
Defined.

Lemma delete_table_ok (h : Handler) (w : World) (ti si : Z) (sec : Section) (t : Table) :
  section_of h si = Some sec -> 0 <= ti -> Tables sec !! Z.to_nat ti = Some t ->
  can_save w (doc_path h) = true ->
  let h' := with_section h si (TableHandler.RemoveTableAt ti sec) in
  TableHandler.delete_table ti si (h, w)
  = (Return (TableHandler.mkDeleteTableResult si ti (Count (Rows t))
               (TableHandler.columns_of t) (Count (Tables sec) - 1)),
     (h', saved h' w)).
Proof.
  intros Hs Hti Ht Hw h'.
  destruct (document_with_section h si sec (TableHandler.RemoveTableAt ti sec) Hs)
    as [d' Hd'].
  fold h' in Hd'.
  unfold TableHandler.delete_table. unfold try_except, bind at 1.
  rewrite (get_table_info_ok _ _ _ _ _ _ Hs Hti Ht).
  unfold bind at 1. rewrite (get_section_ok _ _ _ _ Hs).
  unfold bind at 1. rewrite (update_section_ok _ _ _ _ _ Hs). fold h'.
  unfold bind at 1. rewrite (save_document_saved h' w d' Hd' Hw).
  unfold bind at 1.
  rewrite (get_section_ok h' _ si _ (section_of_with_section h si sec _ Hs)).
  unfold ret. cbn [TableHandler.ti_rows TableHandler.ti_columns].
  replace (Count (Tables (TableHandler.RemoveTableAt ti sec)))
    with (Count (Tables sec) - 1); [reflexivity|].
  unfold TableHandler.RemoveTableAt, Count. simpl.
  rewrite length_delete by eauto. apply lookup_lt_Some in Ht. lia.
Qed.

(** X17: [delete_table] at a valid index reports the dimensions of the
    table it removes and the number of tables left; afterwards the table
    that was at [j + 1] is found at [j] for every [j] from the deleted
    position on, the tables before it are found where they were, and the
    paragraphs of the section are untouched. *)
Theorem delete_table_shifts_indices (h : Handler) (w : World) (ti si : Z)
    (sec : Section) (t : Table) :
  section_of h si = Some sec -> 0 <= ti -> Tables sec !! Z.to_nat ti = Some t ->
  can_save w (doc_path h) = true ->
  exists (s' : HState) (sec' : Section),
    TableHandler.delete_table ti si (h, w)
    = (Return (TableHandler.mkDeleteTableResult si ti (Count (Rows t))
                 (TableHandler.columns_of t) (Count (Tables sec) - 1)), s') /\
    section_of (fst s') si = Some sec' /\
    Paragraphs sec' = Paragraphs sec /\
    Count (Tables sec') = Count (Tables sec) - 1 /\
    (forall (j : Z) (u : Table), ti <= j -> Tables sec !! Z.to_nat (j + 1) = Some u ->
       fst (TableHandler.get_table_info j si s')
       = Return (TableHandler.mkTableInfo j si (Count (Rows u)) (TableHandler.columns_of u)
                   (Count (Rows u) * TableHandler.columns_of u))) /\
    (forall j : Z, 0 <= j < ti ->
       fst (TableHandler.get_table_info j si s')
       = fst (TableHandler.get_table_info j si (h, w))).
Proof.
  intros Hs Hti Ht Hw.
  set (h' := with_section h si (TableHandler.RemoveTableAt ti sec)).
  assert (Hs' : section_of h' si = Some (TableHandler.RemoveTableAt ti sec))
    by (apply (section_of_with_section h si sec _ Hs)).
  exists (h', saved h' w), (TableHandler.RemoveTableAt ti sec).
  split; [now apply delete_table_ok|].
  split; [exact Hs'|]. split; [reflexivity|].
  split.
  { unfold TableHandler.RemoveTableAt, Count. simpl.
    rewrite length_delete by eauto. apply lookup_lt_Some in Ht. lia. }
  split.
  - intros j u Hj Hu.
    rewrite (get_table_info_ok h' _ j si _ u Hs'); [reflexivity | lia |].
    unfold TableHandler.RemoveTableAt. simpl.
    rewrite list_lookup_delete_ge by lia. rewrite <- Hu. f_equal. lia.
  - intros j Hj.
    assert (Hlt : (Z.to_nat j < length (Tables sec))%nat).
    { apply lookup_lt_Some in Ht. lia. }
    destruct (lookup_lt_is_Some_2 _ _ Hlt) as [u Hu].
    rewrite (get_table_info_ok h w j si sec u Hs) by (lia || exact Hu).
    rewrite (get_table_info_ok h' _ j si _ u Hs'); [reflexivity | lia |].
    unfold TableHandler.RemoveTableAt. simpl.
    rewrite list_lookup_delete_lt by lia. exact Hu.
Qed.

(** The theorem at the first of the two tables of the example. *)
Lemma delete_table_shifts_indices_witness :
  exists (s' : HState),
    TableHandler.delete_table 0 0 (example_handler_tables, example_world)
    = (Return (TableHandler.mkDeleteTableResult 0 0 3 2 1), s') /\
    fst (TableHandler.get_table_info 0 0 s')
    = Return (TableHandler.mkTableInfo 0 0 3 2 6).
Proof.
  destruct (delete_table_shifts_indices example_handler_tables example_world 0 0
              two_tables table_3x2 eq_refl ltac:(lia) eq_refl eq_refl)
    as (s' & sec' & Hdel & _ & _ & _ & Hshift & _).
  exists s'. split; [exact Hdel|].
  exact (Hshift 0 table_3x2 ltac:(lia) eq_refl).
Defined.

Lemma write_file_twice (w : World) (path : string) (d1 d2 : Document) :
  write_file (write_file w path d1) path d2 = write_file w path d2.
Proof.
  unfold write_file, set_files. simpl.
  rewrite lookup_insert_eq, insert_insert_eq. simpl.
  destruct (files w !! abspath w path); reflexivity.
Qed.

Section AddDelete.
Variable known_style : string -> bool.

(** X18: deleting the table that [add_table_to_section] has just added,
    at the index it reported, gives back the document as it was; the
    deletion reports the dimensions that were asked for and the number of
    tables the section had. *)
Theorem add_table_then_delete_restores (h : Handler) (w : World)
    (si rows columns : Z) (sec : Section) (style : option string) :
  section_of h si = Some sec -> out_of_range rows columns = false ->
  can_save w (doc_path h) = true ->
  exists (r : TableHandler.CreateResult) (s1 s2 : HState),
    TableHandler.add_table_to_section known_style rows columns si style (h, w)
    = (Return r, s1) /\
    TableHandler.delete_table (TableHandler.cr_table_index r) si s1
    = (Return (TableHandler.mkDeleteTableResult si (TableHandler.cr_table_index r)
                 rows columns (Count (Tables sec))), s2) /\
    fst s2 = h /\ snd s2 = saved h w.
Proof.
  intros Hs Hd Hw.
  destruct (create_table_run known_style rows columns si None style h w sec Hs)
    as [Hrun _]; [discriminate | exact Hd |].
  cbv zeta in Hrun. specialize (Hrun Hw).
  set (tables' := created_tables known_style sec rows columns None style) in *.
  set (h1 := with_section h si (set_Tables tables' sec)) in *.
  assert (Hs1 : section_of h1 si = Some (set_Tables tables' sec))
    by (apply (section_of_with_section h si sec _ Hs)).
  assert (Hlen : Count tables' - 1 = Count (Tables sec)).
  { unfold tables', created_tables, Count. rewrite length_insert_at. lia. }
  assert (Hlook : tables' !! Z.to_nat (Count (Tables sec))
                  = Some (created_table known_style rows columns style)).
  { unfold tables', created_tables. cbn [created_position]. unfold Count.
    rewrite Nat2Z.id. now apply lookup_insert_at. }
  destruct (section_of_Some h si sec Hs) as (d & Hdoc & _ & _).
  destruct (document_with_section h si sec (set_Tables tables' sec) Hs) as [d1 Hd1].
  fold h1 in Hd1.
  assert (Hw1 : can_save (saved h1 w) (doc_path h1) = true)
    by (apply (can_save_saved h1 w d1 Hd1)).
  pose proof (delete_table_ok h1 (saved h1 w) (Count (Tables sec)) si
                (set_Tables tables' sec) _ Hs1 (Count_nonneg _) Hlook Hw1) as Hdel.
  cbv zeta in Hdel.
  apply out_of_range_false in Hd as [Hr Hc].
  rewrite created_table_rows, created_table_columns in Hdel by lia.
  assert (Hback : with_section h1 si
                    (TableHandler.RemoveTableAt (Count (Tables sec))
                       (set_Tables tables' sec)) = h).
  { unfold h1. rewrite with_section_twice.
    replace (TableHandler.RemoveTableAt (Count (Tables sec)) (set_Tables tables' sec))
      with sec; [now apply with_section_same|].
    unfold TableHandler.RemoveTableAt, tables', created_tables. cbn [created_position].
    simpl. unfold Count. rewrite Nat2Z.id, delete_insert_at by lia.
    destruct sec; reflexivity. }
  rewrite Hback in Hdel.
  eexists _, _, _. split; [exact Hrun|].
  cbn [TableHandler.cr_table_index]. rewrite Hlen.
  split.
  - rewrite Hdel. cbn [Tables set_Tables]. rewrite Hlen. reflexivity.
  - split; [reflexivity|]. cbn [snd]. unfold saved. rewrite Hd1, Hdoc.
    apply write_file_twice.
Qed.

End AddDelete.

(** The theorem on the section with two paragraphs and two tables. *)
Lemma add_table_then_delete_restores_witness :
  exists (r : TableHandler.CreateResult) (s1 s2 : HState),
    TableHandler.add_table_to_section no_style 4 5 0 (Some "Grid")
      (example_handler_tables, example_world) = (Return r, s1) /\
    TableHandler.delete_table (TableHandler.cr_table_index r) 0 s1
    = (Return (TableHandler.mkDeleteTableResult 0 (TableHandler.cr_table_index r)
                 4 5 2), s2) /\
    fst s2 = example_handler_tables /\
    snd s2 = saved example_handler_tables example_world.
Proof.
  apply (add_table_then_delete_restores no_style example_handler_tables example_world
           0 4 5 two_tables (Some "Grid")); reflexivity.
Defined.

(** ** Cell text *)

Lemma set_cell_text_ok (h : Handler) (w : World) (ti row column si : Z) (text : string)
    (sec : Section) (t : Table) (r : list Cell) (c : Cell) :
  section_of h si = Some sec -> 0 <= ti -> Tables sec !! Z.to_nat ti = Some t ->
  0 <= row -> Rows t !! Z.to_nat row = Some r ->
  0 <= column < TableHandler.columns_of t -> r !! Z.to_nat column = Some c ->
  can_save w (doc_path h) = true ->
  let h' := with_section h si
              (set_Tables (<[Z.to_nat ti := with_cell_text t row column r c text]>
                             (Tables sec)) sec) in
  TableHandler.set_cell_text ti row column text si (h, w)
  = (Return (TableHandler.mkCellResult si ti row column
               (snd (TableHandler.set_first_text text c)) text),
     (h', saved h' w)).
Proof.
  intros Hs Hti Ht Hrow Hr Hcol Hc Hw h'.
  destruct (document_with_section h si sec
              (set_Tables (<[Z.to_nat ti := with_cell_text t row column r c text]>
                             (Tables sec)) sec) Hs) as [d' Hd'].
  fold h' in Hd'.
  unfold TableHandler.set_cell_text. unfold try_except, bind at 1.
  rewrite (get_table_info_ok _ _ _ _ _ _ Hs Hti Ht).
  cbn [TableHandler.ti_rows TableHandler.ti_columns].
  unfold bind at 1. unfold raise_if at 1.
  destruct (Z.ltb_spec row 0); [lia|].
  destruct (Z.geb_spec row (Count (Rows t))) as [Hge|_].
  { apply lookup_lt_Some in Hr. unfold Count in Hge. lia. }
  cbn [orb]. unfold ret at 1.
  unfold bind at 1. unfold raise_if at 1.
  destruct (Z.ltb_spec column 0); [lia|].
  destruct (Z.geb_spec column (TableHandler.columns_of t)); [lia|].
  cbn [orb]. unfold ret at 1.
  unfold bind at 1. rewrite (get_section_ok _ _ _ _ Hs).
  unfold bind at 1. unfold item at 1.
  destruct (Z.ltb_spec ti 0); [lia|]. rewrite Ht. unfold ret at 1.
  unfold bind at 1. unfold item at 1.
  destruct (Z.ltb_spec row 0); [lia|]. rewrite Hr. unfold ret at 1.
  unfold bind at 1. unfold item at 1.
  destruct (Z.ltb_spec column 0); [lia|]. rewrite Hc. unfold ret at 1.
  destruct (TableHandler.set_first_text text c) as [c' original] eqn:Hset.
  unfold bind at 1. rewrite (update_section_ok _ _ _ _ _ Hs).
  assert (E : with_section h si
                (set_Tables
                   (alter (fun t0 => mkTable
                             (alter (fun r0 => <[Z.to_nat column := c']> r0)
                                (Z.to_nat row) (Rows t0)) (table_Style t0))
                      (Z.to_nat ti) (Tables sec)) sec) = h').
  { unfold h', with_cell_text. rewrite Hset. cbn [fst].
    rewrite (alter_lookup_insert _ _ _ _ Ht).
    now rewrite (alter_lookup_insert _ _ _ _ Hr). }
  rewrite E.
  unfold bind at 1. rewrite (save_document_saved h' w d' Hd' Hw).
  reflexivity.
Qed.

Lemma columns_of_with_cell_text (t : Table) (row column : Z) (r : list Cell) (c : Cell)
    (text : string) :
  Rows t !! Z.to_nat row = Some r ->
  TableHandler.columns_of (with_cell_text t row column r c text)
  = TableHandler.columns_of t.
Proof.
  unfold with_cell_text, TableHandler.columns_of. simpl.
  destruct (Rows t) as [|r0 rs]; [reflexivity|].
  destruct (Z.to_nat row) as [|n]; simpl; [|reflexivity].
  intros [= <-]. unfold Count. now rewrite length_insert.
Qed.

Lemma set_first_text_twice (text1 text2 : string) (c : Cell) :
  snd (TableHandler.set_first_text text2 (fst (TableHandler.set_first_text text1 c)))
  = text1.
Proof.
  unfold TableHandler.set_first_text. destruct (cell_Paragraphs c); reflexivity.
Qed.

(** X19: [set_cell_text] on a cell of the table reports the text the first
    paragraph of the cell had, or the empty string for a cell without
    paragraphs; the table keeps its rows and columns, and a second
    [set_cell_text] on the same cell reports the text written by the first
    as the original one. *)
Theorem set_cell_text_reads_back (h : Handler) (w : World) (ti row column si : Z)
    (text1 text2 : string) (sec : Section) (t : Table) (r : list Cell) (c : Cell) :
  section_of h si = Some sec -> 0 <= ti -> Tables sec !! Z.to_nat ti = Some t ->
  0 <= row -> Rows t !! Z.to_nat row = Some r ->
  0 <= column < TableHandler.columns_of t -> r !! Z.to_nat column = Some c ->
  can_save w (doc_path h) = true ->
  exists (s1 s2 : HState),
    TableHandler.set_cell_text ti row column text1 si (h, w)
    = (Return (TableHandler.mkCellResult si ti row column
                 match cell_Paragraphs c with
                 | p :: _ => Text p
                 | [] => ""
                 end text1), s1) /\
    fst (TableHandler.get_table_info ti si s1)
    = fst (TableHandler.get_table_info ti si (h, w)) /\
    TableHandler.set_cell_text ti row column text2 si s1
    = (Return (TableHandler.mkCellResult si ti row column text1 text2), s2).
Proof.
  intros Hs Hti Ht Hrow Hr Hcol Hc Hw.
  pose proof (set_cell_text_ok h w ti row column si text1 sec t r c
                Hs Hti Ht Hrow Hr Hcol Hc Hw) as Hrun.
  cbv zeta in Hrun.
  set (t1 := with_cell_text t row column r c text1) in *.
  set (sec1 := set_Tables (<[Z.to_nat ti := t1]> (Tables sec)) sec) in *.
  set (h1 := with_section h si sec1) in *.
  assert (Hs1 : section_of h1 si = Some sec1)
    by (apply (section_of_with_section h si sec _ Hs)).
  assert (Ht1 : Tables sec1 !! Z.to_nat ti = Some t1).
  { unfold sec1. simpl. apply list_lookup_insert_eq. now apply lookup_lt_Some in Ht. }
  assert (Hr1 : Rows t1 !! Z.to_nat row
                = Some (<[Z.to_nat column := fst (TableHandler.set_first_text text1 c)]> r)).
  { unfold t1, with_cell_text. simpl. apply list_lookup_insert_eq.
    now apply lookup_lt_Some in Hr. }
  assert (Hc1 : <[Z.to_nat column := fst (TableHandler.set_first_text text1 c)]> r
                !! Z.to_nat column = Some (fst (TableHandler.set_first_text text1 c))).
  { apply list_lookup_insert_eq. now apply lookup_lt_Some in Hc. }
  assert (Hcols : TableHandler.columns_of t1 = TableHandler.columns_of t)
    by (apply columns_of_with_cell_text; exact Hr).
  assert (Hrows : Count (Rows t1) = Count (Rows t)).
  { unfold t1, with_cell_text, Count. simpl. now rewrite length_insert. }
  destruct (document_with_section h si sec sec1 Hs) as [d1 Hd1]. fold h1 in Hd1.
  assert (Hw1 : can_save (saved h1 w) (doc_path h1) = true)
    by (apply (can_save_saved h1 w d1 Hd1)).
  pose proof (set_cell_text_ok h1 (saved h1 w) ti row column si text2 sec1 t1 _ _
                Hs1 Hti Ht1 Hrow Hr1 ltac:(rewrite Hcols; exact Hcol) Hc1 Hw1) as Hrun2.
  cbv zeta in Hrun2. rewrite set_first_text_twice in Hrun2.
  eexists _, _. split; [|split; [|exact Hrun2]].
  - rewrite Hrun. do 3 f_equal.
    unfold TableHandler.set_first_text. destruct (cell_Paragraphs c); reflexivity.
  - rewrite (get_table_info_ok h1 _ ti si sec1 t1 Hs1 Hti Ht1).
    rewrite (get_table_info_ok h w ti si sec t Hs Hti Ht).
    now rewrite Hcols, Hrows.
Qed.

(** The theorem at cell (1, 1) of the table with three rows and two columns. *)
Lemma set_cell_text_reads_back_witness :
  exists (s1 s2 : HState),
    TableHandler.set_cell_text 0 1 1 "x" 0 (example_handler_table, example_world)
    = (Return (TableHandler.mkCellResult 0 0 1 1 "" "x"), s1) /\
    fst (TableHandler.get_table_info 0 0 s1)
    = fst (TableHandler.get_table_info 0 0 (example_handler_table, example_world)) /\
    TableHandler.set_cell_text 0 1 1 "y" 0 s1
    = (Return (TableHandler.mkCellResult 0 0 1 1 "x" "y"), s2).
Proof.
  apply (set_cell_text_reads_back example_handler_table example_world 0 1 1 0 "x" "y"
           (mkSection [par "A"] [table_3x2]) table_3x2 [mkCell []; mkCell []] (mkCell []));
    first [reflexivity | lia | (vm_compute; split; [discriminate | reflexivity])].
Defined.

(** X20: the column check of [set_cell_text] counts the cells of row 0
    only. For a column that row 0 has and the addressed row has not, the
    checks pass, the engine refuses the cell, and the method raises a
    [TableError] with the code [TABLE_CELL_ERROR] that wraps the engine's
    message; the handler and the files are as before. *)
Theorem set_cell_text_short_row (h : Handler) (w : World) (ti row column si : Z)
    (text : string) (sec : Section) (t : Table) (r : list Cell) :
  section_of h si = Some sec -> 0 <= ti -> Tables sec !! Z.to_nat ti = Some t ->
  0 <= row -> Rows t !! Z.to_nat row = Some r ->
  0 <= column < TableHandler.columns_of t -> Count r <= column ->
  outside_extent t row column = false /\
  exists cause : string,
    TableHandler.set_cell_text ti row column text si (h, w)
    = (Raise (TableError ("Failed to set cell text: " ++ cause) "TABLE_CELL_ERROR"),
       (h, w)).
Proof.
  intros Hs Hti Ht Hrow Hr Hcol Hc.
  assert (Hrows : row < Count (Rows t)) by (eapply lookup_Z_lt; eauto).
  split.
  { unfold outside_extent.
    destruct (Z.ltb_spec row 0); [lia|].
    destruct (Z.geb_spec row (Count (Rows t))); [lia|].
    destruct (Z.ltb_spec column 0); [lia|].
    destruct (Z.geb_spec column (TableHandler.columns_of t)); [lia | reflexivity]. }
  eexists.
  unfold TableHandler.set_cell_text. unfold try_except, bind at 1.
  rewrite (get_table_info_ok _ _ _ _ _ _ Hs Hti Ht).
  cbn [TableHandler.ti_rows TableHandler.ti_columns].
  unfold bind at 1. unfold raise_if at 1.
  destruct (Z.ltb_spec row 0); [lia|].
  destruct (Z.geb_spec row (Count (Rows t))); [lia|].
  cbn [orb]. unfold ret at 1.
  unfold bind at 1. unfold raise_if at 1.
  destruct (Z.ltb_spec column 0); [lia|].
  destruct (Z.geb_spec column (TableHandler.columns_of t)); [lia|].
  cbn [orb]. unfold ret at 1.
  unfold bind at 1. rewrite (get_section_ok _ _ _ _ Hs).
  unfold bind at 1. unfold item at 1.
  destruct (Z.ltb_spec ti 0); [lia|]. rewrite Ht. unfold ret at 1.
  unfold bind at 1. unfold item at 1.
  destruct (Z.ltb_spec row 0); [lia|]. rewrite Hr. unfold ret at 1.
  unfold bind at 1. unfold item at 1.
  destruct (Z.ltb_spec column 0); [lia|].
  rewrite (proj2 (lookup_ge_None r (Z.to_nat column))) by (unfold Count in Hc; lia).
  reflexivity.
Qed.

(** The theorem at cell (1, 1) of the table whose second row has one cell. *)
Lemma set_cell_text_short_row_witness :
  outside_extent ragged_table 1 1 = false /\
  exists cause : string,
    TableHandler.set_cell_text 0 1 1 "x" 0 (example_handler_ragged, example_world)
    = (Raise (TableError ("Failed to set cell text: " ++ cause) "TABLE_CELL_ERROR"),
       (example_handler_ragged, example_world)).
Proof.
  apply (set_cell_text_short_row example_handler_ragged example_world 0 1 1 0 "x"
           (mkSection [] [ragged_table]) ragged_table [mkCell []]);
    first [reflexivity | lia | (vm_compute; split; [discriminate | reflexivity])
          | (vm_compute; discriminate)].
Defined.

(** ** Conversions *)

Ltac convert_cases :=
  unfold ConversionHandler.convert_document, ConversionHandler._load_document,
    ConversionHandler.record_attempt, ConversionHandler.get_conversion_history,
    ConversionHandler.get_conversion_status, LoadFromFile, SaveToFile, makedirs,
    now_isoformat;
  munfold; mcases.

Lemma convert_document_record (target : string) (out : option string)
    (h : ConversionHandler.State) (w : World)
    (o : Outcome ConversionHandler.ConvertResult) (s' : ConversionHandler.CState) :
  ConversionHandler.convert_document target out (h, w) = (o, s') ->
  exists (r : ConversionHandler.ConversionRecord),
    fst s' = ConversionHandler.mkState (ConversionHandler.c_doc_path h)
               (ConversionHandler.conversion_history h ++ [r]) (Some r) /\
    ConversionHandler.target_format r = PyStr.lower target /\
    match o with
    | Return res =>
        ConversionHandler.status r = "success" /\
        ConversionHandler.error r = None /\
        ConversionHandler.output_path r = Some (ConversionHandler.cv_output_path res) /\
        ConversionHandler.timestamp r = ConversionHandler.cv_timestamp res
    | Raise e =>
        ConversionHandler.status r = "failed" /\
        ConversionHandler.output_path r = None /\
        exn_class e = ClsConversionError /\
        exists msg : string,
          ConversionHandler.error r = Some msg /\
          exn_message e = "Failed to convert document: " ++ msg
    end.
Proof.
  destruct h as [path hist st]. convert_cases;
    intros [= <- <-]; eexists; (split; [reflexivity|]); simpl; eauto 10.
Qed.

(** X21: every call of [convert_document], whether it returns or raises,
    appends exactly one record to the history of the handler and makes it
    the status: [get_conversion_history] then gives the old history with
    the record at its end and a total one higher, and
    [get_conversion_status] gives the record. The record says "success"
    and names the output path when the call returned; it says "failed"
    and keeps the message when the call raised, and what is raised is
    always a [ConversionError] around that message. *)
Theorem convert_document_records_every_attempt (target : string) (out : option string)
    (h : ConversionHandler.State) (w : World) :
  exists (r : ConversionHandler.ConversionRecord),
    let o := fst (ConversionHandler.convert_document target out (h, w)) in
    let s' := snd (ConversionHandler.convert_document target out (h, w)) in
    fst (ConversionHandler.get_conversion_history s')
    = Return (ConversionHandler.mkHistoryResult
                (ConversionHandler.conversion_history h ++ [r])
                (Count (ConversionHandler.conversion_history h) + 1)) /\
    fst (ConversionHandler.get_conversion_status s') = Return (Some r) /\
    ConversionHandler.c_doc_path (fst s') = ConversionHandler.c_doc_path h /\
    ConversionHandler.target_format r = PyStr.lower target /\
    match o with
    | Return res =>
        ConversionHandler.status r = "success" /\
        ConversionHandler.error r = None /\
        ConversionHandler.output_path r = Some (ConversionHandler.cv_output_path res) /\
        ConversionHandler.timestamp r = ConversionHandler.cv_timestamp res
    | Raise e =>
        ConversionHandler.status r = "failed" /\
        ConversionHandler.output_path r = None /\
        exn_class e = ClsConversionError /\
        exists msg : string,
          ConversionHandler.error r = Some msg /\
          exn_message e = "Failed to convert document: " ++ msg
    end.
Proof.
  destruct (ConversionHandler.convert_document target out (h, w)) as [o [h' w']] eqn:Hrun.
  destruct (convert_document_record target out h w o (h', w') Hrun) as (r & Hh & Ht & Ho).
  exists r. cbn [fst snd] in *. subst h'.
  unfold ConversionHandler.get_conversion_history, ConversionHandler.get_conversion_status.
  munfold.
  split.
  { do 2 f_equal. unfold Count. rewrite length_app. simpl. lia. }
  repeat split; assumption.
Qed.

Lemma lower_char_idem (c : ascii) : PyStr.lower_char (PyStr.lower_char c) = PyStr.lower_char c.
Proof.
  destruct c as [b0 b1 b2 b3 b4 b5 b6 b7].
  destruct b0, b1, b2, b3, b4, b5, b6, b7; reflexivity.
Qed.

Lemma lower_idem (s : string) : PyStr.lower (PyStr.lower s) = PyStr.lower s.
Proof. induction s as [|c s IH]; simpl; [reflexivity|]. now rewrite lower_char_idem, IH. Qed.

Lemma lower_app (a b : string) : PyStr.lower (a ++ b) = PyStr.lower a ++ PyStr.lower b.
Proof. induction a as [|c a IH]; simpl; [reflexivity|]. now rewrite IH. Qed.

Lemma startswith_app (l1 l2 : list ascii) :
  PyStr.startswith (PyStr.of_chars (l1 ++ l2)) (PyStr.of_chars l1) = true.
Proof.
  induction l1 as [|c l1 IH]; simpl; [reflexivity|].
  rewrite Ascii.eqb_refl. exact IH.
Qed.

Lemma endswith_app (a b : string) : PyStr.endswith (a ++ b) b = true.
Proof.
  unfold PyStr.endswith. rewrite chars_app, rev_app_distr. apply startswith_app.
Qed.

Lemma lower_extension (head target : string) :
  PyStr.endswith (PyStr.lower (head ++ "." ++ PyStr.lower target))
    ("." ++ PyStr.lower target) = true.
Proof.
  rewrite lower_app. change (PyStr.lower ("." ++ PyStr.lower target))
    with ("." ++ PyStr.lower (PyStr.lower target)).
  rewrite lower_idem. apply endswith_app.
Qed.

(** X22: the path that a successful [convert_document] reports ends, read
    in lower case, with a dot and the lower-cased target format, which is
    one of the supported formats; an output path that already ends so is
    taken as it is. *)
Theorem convert_document_output_extension (target : string) (out : option string)
    (h : ConversionHandler.State) (w : World)
    (res : ConversionHandler.ConvertResult) (s' : ConversionHandler.CState) :
  ConversionHandler.convert_document target out (h, w) = (Return res, s') ->
  PyStr.mem (PyStr.lower target) SUPPORTED_FORMATS = true /\
  ConversionHandler.cv_target_format res = PyStr.lower target /\
  PyStr.endswith (PyStr.lower (ConversionHandler.cv_output_path res))
    ("." ++ PyStr.lower target) = true /\
  (forall o : string, out = Some o ->
     PyStr.endswith (PyStr.lower o) ("." ++ PyStr.lower target) = true ->
     ConversionHandler.cv_output_path res = o).
Proof.
  destruct h as [path hist st].
  unfold ConversionHandler.convert_document. unfold try_except, bind at 1.
  unfold raise_if at 1.
  destruct (PyStr.mem (PyStr.lower target) SUPPORTED_FORMATS) eqn:Hm; cycle 1.
  { convert_cases; discriminate. }
  intros Hrun. split; [reflexivity|]. revert Hrun.
  destruct out as [o|]; [destruct (PyStr.endswith (PyStr.lower o) ("." ++ PyStr.lower target)) eqn:He|].
  all: unfold ConversionHandler._load_document,
    ConversionHandler.record_attempt, LoadFromFile, SaveToFile, makedirs,
    now_isoformat; munfold; rewrite ?He; munfold; mcases; intros [= <- <-]; cbn;
    (split; [reflexivity|]); (split; [|intros ? [= <-] ?; congruence || reflexivity]);
    first [exact He | apply lower_extension].
Qed.

(** The conversion of the example document to PDF. *)
Lemma convert_document_output_extension_witness :
  exists (res : ConversionHandler.ConvertResult) (s' : ConversionHandler.CState),
    ConversionHandler.convert_document "PDF" None (example_converter, example_world)
    = (Return res, s') /\
    ConversionHandler.cv_output_path res = "./word_files/a.pdf" /\
    PyStr.endswith (PyStr.lower (ConversionHandler.cv_output_path res)) ".pdf" = true.
Proof.
  eexists _, _.
  assert (Hrun : ConversionHandler.convert_document "PDF" None
                   (example_converter, example_world)
                 = (Return (ConversionHandler.mkConvertResult "a.docx" (Some "docx") "pdf"
                              "./word_files/a.pdf" "0"),
                    snd (ConversionHandler.convert_document "PDF" None
                           (example_converter, example_world))))
    by (vm_compute; reflexivity).
  split; [exact Hrun|]. split; [reflexivity|].
  destruct (convert_document_output_extension "PDF" None example_converter example_world
              _ _ Hrun) as (_ & _ & H & _).
  exact H.
Defined.

(** X23: [convert_document] writes no file but its output. When it raises,
    the files are those it found; when it returns, every file other than
    the reported output path is as before, and the output file holds the
    document that was read from the handler's path. *)
Theorem convert_document_writes_only_output (target : string) (out : option string)
    (h : ConversionHandler.State) (w : World) :
  let o := fst (ConversionHandler.convert_document target out (h, w)) in
  let w' := snd (snd (ConversionHandler.convert_document target out (h, w))) in
  match o with
  | Raise _ => files w' = files w
  | Return res =>
      (forall p : string,
         p <> abspath w (ConversionHandler.cv_output_path res) ->
         files w' !! p = files w !! p) /\
      exists (path : string) (d : Document),
        ConversionHandler.c_doc_path h = Some path /\
        fst (LoadFromFile path w) = Return d /\
        fst (LoadFromFile (ConversionHandler.cv_output_path res) w') = Return d
  end.
Proof.
  destruct h as [path hist st]. cbv zeta.
  convert_cases; cbn; try reflexivity.
  all: split; [intros p Hp; now rewrite lookup_insert_ne by congruence|].
  all: repeat match goal with
              | H : context [<[?k := _]> _ !! ?k] |- _ => rewrite lookup_insert_eq in H
              end; simplify_eq/=.
  all: eexists _, _; split; [reflexivity|].
  all: repeat match goal with
              | H : files ?w0 !! ?k = _ |- context [files ?w0 !! ?k] => rewrite H
              end; cbn.
  all: split; reflexivity.
Qed.

(** ** The tools and the errors they let through *)















Section DocumentTools.
Variable float_repr : spec_float -> string.
Variable Replace : Document -> string -> string -> bool -> bool -> Outcome Document.
Variable Protect : Document -> DocumentHandler.ProtectionType -> option string
                   -> Outcome Document.
Variable InsertText : Document -> Document -> Outcome Document.



End DocumentTools.

(** ** The conversion tools *)

Lemma get_doc_path_files (name dir : string) (w : World) :
  files (snd (get_doc_path name dir w)) = files w.
Proof.
  destruct (dir_available w dir) eqn:Ha.
  - destruct (get_doc_path_available name dir w Ha) as (w1 & Hg & _ & Hf & _).
    now rewrite Hg.
  - now rewrite (get_doc_path_unavailable name dir w Ha).
Qed.

Lemma convert_to_raises (method ok code name dir : string) (out : option string)
    (w : World) :
  conversion_tools.convert_to method ok code name out dir w
  = (Raise (if dir_available w dir
            then match resolve dir name with
                 | Raise e => e
                 | Return _ =>
                     BuiltinError "AttributeError"
                       ("'ConversionHandler' object has no attribute '" ++ method ++ "'")
                 end
            else makedirs_error dir),
     snd (get_doc_path name dir w)).
Proof.
  pose proof (get_doc_path_outcome name dir w) as Ho.
  destruct (get_doc_path name dir w) as [[p|e] w1] eqn:Hg; simpl in Ho.
  - destruct (dir_available w dir); [|discriminate Ho]. rewrite <- Ho.
    apply tool_propagates; [|reflexivity].
    unfold conversion_tools.with_new_handler, conversion_tools.no_attribute, on_handler,
      bind, raise. now rewrite Hg.
  - assert (He : (if dir_available w dir
                  then match resolve dir name with
                       | Raise e0 => e0
                       | Return _ =>
                           BuiltinError "AttributeError"
                             ("'ConversionHandler' object has no attribute '"
                              ++ method ++ "'")
                       end
                  else makedirs_error dir) = e).
    { destruct (dir_available w dir); [rewrite <- Ho; reflexivity | now injection Ho]. }
    rewrite He. apply tool_propagates.
    + unfold bind. now rewrite Hg.
    + apply (get_doc_path_raises_other _ _ _ _ _ ClsConversionError Hg);
        intros; discriminate.
Qed.

(** X26: the five tools [convert_to_pdf], [convert_to_html],
    [convert_to_rtf], [convert_to_txt] and [convert_to_odt] never answer.
    Each calls a method that [ConversionHandler] does not define: when the
    documents directory exists or can be created, the [AttributeError] of
    the lookup leaves the tool for a name that passes the path check, and
    the [DocumentError] of the check for a name that does not; when the
    directory cannot be created, the error of [os.makedirs] leaves it.
    None of them is a [ConversionError], the only class the tool catches.
    No file is read or written. *)
Theorem convert_to_tools_never_answer (name dir : string) (out : option string)
    (w : World) :
  let missing (method : string) : Exn :=
    if dir_available w dir
    then match resolve dir name with
         | Raise e => e
         | Return _ =>
             BuiltinError "AttributeError"
               ("'ConversionHandler' object has no attribute '" ++ method ++ "'")
         end
    else makedirs_error dir in
  let w' := snd (get_doc_path name dir w) in
  files w' = files w /\
  (forall method, isinstance (missing method) ClsConversionError = false) /\
  conversion_tools.convert_to_pdf name out dir w = (Raise (missing "convert_to_pdf"), w') /\
  conversion_tools.convert_to_html name out dir w = (Raise (missing "convert_to_html"), w') /\
  conversion_tools.convert_to_rtf name out dir w = (Raise (missing "convert_to_rtf"), w') /\
  conversion_tools.convert_to_txt name out dir w = (Raise (missing "convert_to_txt"), w') /\
  conversion_tools.convert_to_odt name out dir w = (Raise (missing "convert_to_odt"), w').
Proof.
  cbv zeta. split; [apply get_doc_path_files|]. split.
  { intros method. destruct (dir_available w dir).
    - unfold resolve. destruct (negb _); reflexivity.
    - apply makedirs_error_builtin. intros n. discriminate. }
  repeat split; apply convert_to_raises.
Qed.


(** ** Protection, replacement and merge *)

Section DocumentMethods.
Variable Replace : Document -> string -> string -> bool -> bool -> Outcome Document.
Variable Protect : Document -> DocumentHandler.ProtectionType -> option string
                   -> Outcome Document.
Variable InsertText : Document -> Document -> Outcome Document.

(** X28: on a loaded document [protect_document] takes the level by its
    exact name: for a name that is not a key of [PROTECTION_TYPES] it
    raises before the engine is asked and changes nothing; when the
    engine refuses, it raises and changes nothing; when the engine
    accepts and the file can be written, the protected document becomes
    the handler's and is saved, and the result reports [is_protected] as
    true for every level, with [has_password] false for a missing or
    empty password. *)
Theorem protect_document_outcomes (level : string) (password : option string)
    (h : Handler) (w : World) (d : Document) :
  document h = Some d ->
  (DocumentHandler.lookup_protection level = None ->
   DocumentHandler.protect_document Protect level password (h, w)
   = (Raise (DocumentError ("Failed to protect document: Invalid protection level: "
                            ++ level)), (h, w))) /\
  (forall t e, DocumentHandler.lookup_protection level = Some t ->
     Protect d t password = Raise e ->
     DocumentHandler.protect_document Protect level password (h, w)
     = (Raise (DocumentError ("Failed to protect document: " ++ exn_message e)), (h, w))) /\
  (forall t d', DocumentHandler.lookup_protection level = Some t ->
     Protect d t password = Return d' -> can_save w (doc_path h) = true ->
     DocumentHandler.protect_document Protect level password (h, w)
     = (Return (DocumentHandler.mkProtectResult level true
                  match password with
                  | Some p => negb (String.eqb p "")
                  | None => false
                  end),
        (with_document h d', write_file w (doc_path h) d'))).
Proof.
  intros Hd. unfold DocumentHandler.protect_document. repeat split.
  - intros Hl. munfold. rewrite Hd, Hl. reflexivity.
  - intros t e Hl Hp. munfold. rewrite Hd, Hl, Hp. reflexivity.
  - intros t d' Hl Hp Hw. unfold try_except, bind at 1. unfold self at 1.
    rewrite Hd, Hl, Hp. unfold bind at 1. unfold set_document at 1.
    fold (with_document h d'). unfold bind at 1.
    rewrite (save_document_ok (with_document h d') w d' eq_refl Hw).
    reflexivity.
Qed.

(** X29: [merge_documents] never changes the handler. When it raises, the
    error is a [DocumentError] that begins with "Failed to merge
    documents: " and the files are as before. When it returns, the
    original was read from the file at the handler's path, not from the
    handler's document, the other document from the merge path, the
    engine's insertion of the second into the first is what the output
    path holds, and no other file has changed. *)
Theorem merge_documents_outcomes (merge_path output_path : string)
    (h : Handler) (w : World) :
  let o := fst (DocumentHandler.merge_documents InsertText merge_path output_path (h, w)) in
  let s' := snd (DocumentHandler.merge_documents InsertText merge_path output_path (h, w)) in
  fst s' = h /\
  match o with
  | Raise e =>
      snd s' = w /\
      exists cause : string,
        e = DocumentError ("Failed to merge documents: " ++ cause)
  | Return r =>
      r = DocumentHandler.mkMergeResult true output_path merge_path output_path /\
      exists original source merged : Document,
        fst (LoadFromFile (doc_path h) w) = Return original /\
        fst (LoadFromFile merge_path w) = Return source /\
        InsertText original source = Return merged /\
        fst (LoadFromFile output_path (snd s')) = Return merged /\
        forall p : string, p <> abspath w output_path ->
          files (snd s') !! p = files w !! p
  end.
Proof.
  cbv zeta. destruct h as [path doc].
  unfold DocumentHandler.merge_documents, LoadFromFile, SaveToFile.
  munfold. mcases; cbn; (split; [reflexivity|]).
  all: try (split; [reflexivity | eexists; reflexivity]).
  all: repeat match goal with
              | H : context [<[?k := _]> _ !! ?k] |- _ => rewrite lookup_insert_eq in H
              end; simplify_eq/=.
  all: split; [reflexivity|].
  all: eexists _, _, _; repeat split; try eassumption.
  all: intros p Hp; now rewrite lookup_insert_ne by congruence.
Qed.

(** X30: on a loaded document [find_and_replace] raises for an empty
    search text before the engine is asked and changes nothing; when the
    engine refuses, it raises and changes nothing; when the engine
    returns and the file can be written, the engine's document becomes
    the handler's and is saved, and the result repeats the search
    parameters. *)
Theorem find_and_replace_outcomes (find_text replace_text : string)
    (match_case whole : bool) (h : Handler) (w : World) (d : Document) :
  document h = Some d ->
  (find_text = "" ->
   DocumentHandler.find_and_replace Replace find_text replace_text match_case whole (h, w)
   = (Raise (DocumentError "Failed to replace text: Find text cannot be empty"), (h, w))) /\
  (forall e, find_text <> "" ->
     Replace d find_text replace_text match_case whole = Raise e ->
     DocumentHandler.find_and_replace Replace find_text replace_text match_case whole (h, w)
     = (Raise (DocumentError ("Failed to replace text: " ++ exn_message e)), (h, w))) /\
  (forall d', find_text <> "" ->
     Replace d find_text replace_text match_case whole = Return d' ->
     can_save w (doc_path h) = true ->
     exists r : DocumentHandler.ReplaceResult,
       DocumentHandler.find_and_replace Replace find_text replace_text match_case whole
         (h, w)
       = (Return r, (with_document h d', write_file w (doc_path h) d')) /\
       DocumentHandler.rr_search_params r
       = DocumentHandler.mkSearchParams find_text replace_text match_case whole).
Proof.
  intros Hd. unfold DocumentHandler.find_and_replace. repeat split.
  - intros ->. munfold. rewrite Hd. reflexivity.
  - intros e Hf Hr. apply String.eqb_neq in Hf. munfold. rewrite Hd. munfold.
    rewrite Hf. munfold. rewrite Hr. reflexivity.
  - intros d' Hf Hr Hw. apply String.eqb_neq in Hf.
    unfold try_except, bind at 1. unfold self at 1. rewrite Hd.
    unfold bind at 1. unfold raise_if. rewrite Hf. unfold ret at 1. rewrite Hr.
    unfold bind at 1. unfold set_document at 1.
    fold (with_document h d'). unfold bind at 1.
    rewrite (save_document_ok (with_document h d') w d' eq_refl Hw).
    eexists. split; reflexivity.
Qed.

End DocumentMethods.

(** The level in upper case on the example document. *)
Lemma protect_document_outcomes_witness :
  DocumentHandler.protect_document example_Protect "READ_ONLY" None
    (example_handler, example_world)
  = (Raise (DocumentError
              "Failed to protect document: Invalid protection level: READ_ONLY"),
     (example_handler, example_world)).
Proof.
  destruct (protect_document_outcomes example_Protect "READ_ONLY" None example_handler
              example_world example_document eq_refl) as [H _].
  exact (H eq_refl).
Defined.

(** An empty search text on the document with the cats. *)
Lemma find_and_replace_outcomes_witness :
  DocumentHandler.find_and_replace example_Replace "" "dog" true false
    (cats_handler, example_world)
  = (Raise (DocumentError "Failed to replace text: Find text cannot be empty"),
     (cats_handler, example_world)).
Proof.
  destruct (find_and_replace_outcomes example_Replace "" "dog" true false cats_handler
              example_world cats_document eq_refl) as [H _].
  exact (H eq_refl).
Defined.
